(** * Field normalisation of FATURA-style invoice tables

    A shallow embedding of [src/data_cleaning.py] (amount and currency
    parser, date normaliser, address-block splitter, column-derivation
    pipeline, main execution) and of [src/json_to_csv.py] (row
    flattener, conversion of the template folders), with the
    properties of the specification, and further properties of the
    code, stated and proved over it.

    Conventions of the embedding.
    - A Python [str] is a list of Unicode code points ([pystr]).
    - The [re] module is embedded as an ordered list-of-successes
      matcher: the results of [Re.run] come in the order in which
      Python's backtracking engine would try them, so the head of the
      list is the match Python reports.
    - The character classes are those of Unicode 14.0, the version
      of CPython 3.11: [\s] and [str.strip] use the complete
      white-space table, [\d] all decimal digits, [\w] all
      alphanumeric code points, [str.upper] the complete case mapping,
      and a letter under [re.I] matches the code points that [re]
      folds to it. [float] and [int] read the decimal digits of every
      script.
    - A Python [float] is a binary64 value of [SpecFloat]; [float(s)]
      rounds the decimal literal to nearest-even as CPython does, and
      [repr] prints the shortest decimal that reads back.
    - A cell of a frame is [None], a [str], an [int] or a [float]
      ([value]); a frame is a list of labelled columns over the
      default row index, as [pd.read_csv] builds it. Cleaning a frame
      returns [None] where pandas raises, which is when the final
      reindexing meets a label twice.
    - A JSON record is a finite map from keys to JSON values.
    - The functions that work on the file system ([main],
      [template_folder_to_csv], [json_templates_to_csv]) are
      computations in a monad that threads the effects so far and an
      exception. What the environment answers ([glob.glob],
      [os.path.isdir], [json.load], ...) is a parameter, free to depend
      on the effects so far, so that the properties hold for every file
      system; the text of a CSV file is not embedded, a written frame
      stands for it.

    The file has three parts: the embedding, one module per source
    file after the modules of the Python library it relies on; the
    vocabulary in which the properties are stated; the properties. *)

From Stdlib Require Import ZArith NArith List String Ascii Bool Lia.
From Stdlib Require Import Floats.SpecFloat.
From stdpp Require Import gmap strings list.

Set Default Proof Using "Type".
Local Open Scope N_scope.

(** ** Python strings *)

Module Text.

Definition char := N.
Definition pystr := list char.

(** Code points of a source literal written in UTF-8. *)
Fixpoint utf8_decode (bs : list N) : pystr :=
  match bs with
  | [] => []
  | b0 :: r0 =>
    if b0 <? 192 then b0 :: utf8_decode r0
    else if b0 <? 224 then
      match r0 with
      | b1 :: r1 => ((b0 - 192) * 64 + (b1 - 128)) :: utf8_decode r1
      | [] => [b0]
      end
    else if b0 <? 240 then
      match r0 with
      | b1 :: b2 :: r2 =>
          ((b0 - 224) * 4096 + (b1 - 128) * 64 + (b2 - 128)) :: utf8_decode r2
      | _ => b0 :: utf8_decode r0
      end
    else
      match r0 with
      | b1 :: b2 :: b3 :: r3 =>
          ((b0 - 240) * 262144 + (b1 - 128) * 4096 + (b2 - 128) * 64 + (b3 - 128))
            :: utf8_decode r3
      | _ => b0 :: utf8_decode r0
      end
  end.

Definition py (s : string) : pystr :=
  utf8_decode (map N_of_ascii (list_ascii_of_string s)).

Definition char_eqb (a b : char) : bool := N.eqb a b.

Fixpoint str_eqb (a b : pystr) : bool :=
  match a, b with
  | [], [] => true
  | x :: a', y :: b' => char_eqb x y && str_eqb a' b'
  | _, _ => false
  end.

(** [str.isspace] on one code point; also the class [\s]. *)
Definition is_space (c : char) : bool :=
  ((9 <=? c) && (c <=? 13)) || ((28 <=? c) && (c <=? 32))
  || (c =? 133) || (c =? 160) || (c =? 5760)
  || ((8192 <=? c) && (c <=? 8202))
  || (c =? 8232) || (c =? 8233) || (c =? 8239) || (c =? 8287) || (c =? 12288).

(** The decimal digits of Unicode 14.0 (category Nd), which is the
    version of CPython 3.11: they come in runs of ten, from the zero
    to the nine of a script, and this is the zero of every run. *)
Definition decimal_zeros : list char :=
  [
   48; 1632; 1776; 1984; 2406; 2534; 2662; 2790; 2918; 3046; 3174; 3302; 3430; 3558;
   3664; 3792; 3872; 4160; 4240; 6112; 6160; 6470; 6608; 6784; 6800; 6992; 7088; 7232;
   7248; 42528; 43216; 43264; 43472; 43504; 43600; 44016; 65296; 66720; 68912; 69734;
   69872; 69942; 70096; 70384; 70736; 70864; 71248; 71360; 71472; 71904; 72016; 72784;
   73040; 73120; 92768; 92864; 93008; 120782; 120792; 120802; 120812; 120822; 123200;
   123632; 125264; 130032
  ].

Definition in_decimal_run (c z : char) : bool := (z <=? c) && (c <=? z + 9).

(** [unicodedata.decimal(c)], for a decimal digit *)
Definition decimal_value (c : char) : option N :=
  match find (in_decimal_run c) decimal_zeros with
  | Some z => Some (c - z)
  | None => None
  end.

(** The class [\d] of a [str] pattern, which is [str.isdecimal] on one
    code point. *)
Definition is_digit (c : char) : bool := existsb (in_decimal_run c) decimal_zeros.

Definition is_upper_letter (c : char) : bool := (65 <=? c) && (c <=? 90).
Definition is_lower_letter (c : char) : bool := (97 <=? c) && (c <=? 122).

(** The code points that are alphanumeric ([str.isalnum]) or the
    underscore, as ranges with both ends included (Unicode 14.0). *)
Definition word_ranges : list (char * char) :=
  [
   (48, 57); (65, 90); (95, 95); (97, 122); (170, 170); (178, 179); (181, 181); (185,
   186); (188, 190); (192, 214); (216, 246); (248, 705); (710, 721); (736, 740); (748,
   748); (750, 750); (880, 884); (886, 887); (890, 893); (895, 895); (902, 902); (904,
   906); (908, 908); (910, 929); (931, 1013); (1015, 1153); (1162, 1327); (1329, 1366);
   (1369, 1369); (1376, 1416); (1488, 1514); (1519, 1522); (1568, 1610); (1632, 1641);
   (1646, 1647); (1649, 1747); (1749, 1749); (1765, 1766); (1774, 1788); (1791, 1791);
   (1808, 1808); (1810, 1839); (1869, 1957); (1969, 1969); (1984, 2026); (2036, 2037);
   (2042, 2042); (2048, 2069); (2074, 2074); (2084, 2084); (2088, 2088); (2112, 2136);
   (2144, 2154); (2160, 2183); (2185, 2190); (2208, 2249); (2308, 2361); (2365, 2365);
   (2384, 2384); (2392, 2401); (2406, 2415); (2417, 2432); (2437, 2444); (2447, 2448);
   (2451, 2472); (2474, 2480); (2482, 2482); (2486, 2489); (2493, 2493); (2510, 2510);
   (2524, 2525); (2527, 2529); (2534, 2545); (2548, 2553); (2556, 2556); (2565, 2570);
   (2575, 2576); (2579, 2600); (2602, 2608); (2610, 2611); (2613, 2614); (2616, 2617);
   (2649, 2652); (2654, 2654); (2662, 2671); (2674, 2676); (2693, 2701); (2703, 2705);
   (2707, 2728); (2730, 2736); (2738, 2739); (2741, 2745); (2749, 2749); (2768, 2768);
   (2784, 2785); (2790, 2799); (2809, 2809); (2821, 2828); (2831, 2832); (2835, 2856);
   (2858, 2864); (2866, 2867); (2869, 2873); (2877, 2877); (2908, 2909); (2911, 2913);
   (2918, 2927); (2929, 2935); (2947, 2947); (2949, 2954); (2958, 2960); (2962, 2965);
   (2969, 2970); (2972, 2972); (2974, 2975); (2979, 2980); (2984, 2986); (2990, 3001);
   (3024, 3024); (3046, 3058); (3077, 3084); (3086, 3088); (3090, 3112); (3114, 3129);
   (3133, 3133); (3160, 3162); (3165, 3165); (3168, 3169); (3174, 3183); (3192, 3198);
   (3200, 3200); (3205, 3212); (3214, 3216); (3218, 3240); (3242, 3251); (3253, 3257);
   (3261, 3261); (3293, 3294); (3296, 3297); (3302, 3311); (3313, 3314); (3332, 3340);
   (3342, 3344); (3346, 3386); (3389, 3389); (3406, 3406); (3412, 3414); (3416, 3425);
   (3430, 3448); (3450, 3455); (3461, 3478); (3482, 3505); (3507, 3515); (3517, 3517);
   (3520, 3526); (3558, 3567); (3585, 3632); (3634, 3635); (3648, 3654); (3664, 3673);
   (3713, 3714); (3716, 3716); (3718, 3722); (3724, 3747); (3749, 3749); (3751, 3760);
   (3762, 3763); (3773, 3773); (3776, 3780); (3782, 3782); (3792, 3801); (3804, 3807);
   (3840, 3840); (3872, 3891); (3904, 3911); (3913, 3948); (3976, 3980); (4096, 4138);
   (4159, 4169); (4176, 4181); (4186, 4189); (4193, 4193); (4197, 4198); (4206, 4208);
   (4213, 4225); (4238, 4238); (4240, 4249); (4256, 4293); (4295, 4295); (4301, 4301);
   (4304, 4346); (4348, 4680); (4682, 4685); (4688, 4694); (4696, 4696); (4698, 4701);
   (4704, 4744); (4746, 4749); (4752, 4784); (4786, 4789); (4792, 4798); (4800, 4800);
   (4802, 4805); (4808, 4822); (4824, 4880); (4882, 4885); (4888, 4954); (4969, 4988);
   (4992, 5007); (5024, 5109); (5112, 5117); (5121, 5740); (5743, 5759); (5761, 5786);
   (5792, 5866); (5870, 5880); (5888, 5905); (5919, 5937); (5952, 5969); (5984, 5996);
   (5998, 6000); (6016, 6067); (6103, 6103); (6108, 6108); (6112, 6121); (6128, 6137);
   (6160, 6169); (6176, 6264); (6272, 6276); (6279, 6312); (6314, 6314); (6320, 6389);
   (6400, 6430); (6470, 6509); (6512, 6516); (6528, 6571); (6576, 6601); (6608, 6618);
   (6656, 6678); (6688, 6740); (6784, 6793); (6800, 6809); (6823, 6823); (6917, 6963);
   (6981, 6988); (6992, 7001); (7043, 7072); (7086, 7141); (7168, 7203); (7232, 7241);
   (7245, 7293); (7296, 7304); (7312, 7354); (7357, 7359); (7401, 7404); (7406, 7411);
   (7413, 7414); (7418, 7418); (7424, 7615); (7680, 7957); (7960, 7965); (7968, 8005);
   (8008, 8013); (8016, 8023); (8025, 8025); (8027, 8027); (8029, 8029); (8031, 8061);
   (8064, 8116); (8118, 8124); (8126, 8126); (8130, 8132); (8134, 8140); (8144, 8147);
   (8150, 8155); (8160, 8172); (8178, 8180); (8182, 8188); (8304, 8305); (8308, 8313);
   (8319, 8329); (8336, 8348); (8450, 8450); (8455, 8455); (8458, 8467); (8469, 8469);
   (8473, 8477); (8484, 8484); (8486, 8486); (8488, 8488); (8490, 8493); (8495, 8505);
   (8508, 8511); (8517, 8521); (8526, 8526); (8528, 8585); (9312, 9371); (9450, 9471);
   (10102, 10131); (11264, 11492); (11499, 11502); (11506, 11507); (11517, 11517);
   (11520, 11557); (11559, 11559); (11565, 11565); (11568, 11623); (11631, 11631);
   (11648, 11670); (11680, 11686); (11688, 11694); (11696, 11702); (11704, 11710);
   (11712, 11718); (11720, 11726); (11728, 11734); (11736, 11742); (11823, 11823);
   (12293, 12295); (12321, 12329); (12337, 12341); (12344, 12348); (12353, 12438);
   (12445, 12447); (12449, 12538); (12540, 12543); (12549, 12591); (12593, 12686);
   (12690, 12693); (12704, 12735); (12784, 12799); (12832, 12841); (12872, 12879);
   (12881, 12895); (12928, 12937); (12977, 12991); (13312, 19903); (19968, 42124);
   (42192, 42237); (42240, 42508); (42512, 42539); (42560, 42606); (42623, 42653);
   (42656, 42735); (42775, 42783); (42786, 42888); (42891, 42954); (42960, 42961);
   (42963, 42963); (42965, 42969); (42994, 43009); (43011, 43013); (43015, 43018);
   (43020, 43042); (43056, 43061); (43072, 43123); (43138, 43187); (43216, 43225);
   (43250, 43255); (43259, 43259); (43261, 43262); (43264, 43301); (43312, 43334);
   (43360, 43388); (43396, 43442); (43471, 43481); (43488, 43492); (43494, 43518);
   (43520, 43560); (43584, 43586); (43588, 43595); (43600, 43609); (43616, 43638);
   (43642, 43642); (43646, 43695); (43697, 43697); (43701, 43702); (43705, 43709);
   (43712, 43712); (43714, 43714); (43739, 43741); (43744, 43754); (43762, 43764);
   (43777, 43782); (43785, 43790); (43793, 43798); (43808, 43814); (43816, 43822);
   (43824, 43866); (43868, 43881); (43888, 44002); (44016, 44025); (44032, 55203);
   (55216, 55238); (55243, 55291); (63744, 64109); (64112, 64217); (64256, 64262);
   (64275, 64279); (64285, 64285); (64287, 64296); (64298, 64310); (64312, 64316);
   (64318, 64318); (64320, 64321); (64323, 64324); (64326, 64433); (64467, 64829);
   (64848, 64911); (64914, 64967); (65008, 65019); (65136, 65140); (65142, 65276);
   (65296, 65305); (65313, 65338); (65345, 65370); (65382, 65470); (65474, 65479);
   (65482, 65487); (65490, 65495); (65498, 65500); (65536, 65547); (65549, 65574);
   (65576, 65594); (65596, 65597); (65599, 65613); (65616, 65629); (65664, 65786);
   (65799, 65843); (65856, 65912); (65930, 65931); (66176, 66204); (66208, 66256);
   (66273, 66299); (66304, 66339); (66349, 66378); (66384, 66421); (66432, 66461);
   (66464, 66499); (66504, 66511); (66513, 66517); (66560, 66717); (66720, 66729);
   (66736, 66771); (66776, 66811); (66816, 66855); (66864, 66915); (66928, 66938);
   (66940, 66954); (66956, 66962); (66964, 66965); (66967, 66977); (66979, 66993);
   (66995, 67001); (67003, 67004); (67072, 67382); (67392, 67413); (67424, 67431);
   (67456, 67461); (67463, 67504); (67506, 67514); (67584, 67589); (67592, 67592);
   (67594, 67637); (67639, 67640); (67644, 67644); (67647, 67669); (67672, 67702);
   (67705, 67742); (67751, 67759); (67808, 67826); (67828, 67829); (67835, 67867);
   (67872, 67897); (67968, 68023); (68028, 68047); (68050, 68096); (68112, 68115);
   (68117, 68119); (68121, 68149); (68160, 68168); (68192, 68222); (68224, 68255);
   (68288, 68295); (68297, 68324); (68331, 68335); (68352, 68405); (68416, 68437);
   (68440, 68466); (68472, 68497); (68521, 68527); (68608, 68680); (68736, 68786);
   (68800, 68850); (68858, 68899); (68912, 68921); (69216, 69246); (69248, 69289);
   (69296, 69297); (69376, 69415); (69424, 69445); (69457, 69460); (69488, 69505);
   (69552, 69579); (69600, 69622); (69635, 69687); (69714, 69743); (69745, 69746);
   (69749, 69749); (69763, 69807); (69840, 69864); (69872, 69881); (69891, 69926);
   (69942, 69951); (69956, 69956); (69959, 69959); (69968, 70002); (70006, 70006);
   (70019, 70066); (70081, 70084); (70096, 70106); (70108, 70108); (70113, 70132);
   (70144, 70161); (70163, 70187); (70272, 70278); (70280, 70280); (70282, 70285);
   (70287, 70301); (70303, 70312); (70320, 70366); (70384, 70393); (70405, 70412);
   (70415, 70416); (70419, 70440); (70442, 70448); (70450, 70451); (70453, 70457);
   (70461, 70461); (70480, 70480); (70493, 70497); (70656, 70708); (70727, 70730);
   (70736, 70745); (70751, 70753); (70784, 70831); (70852, 70853); (70855, 70855);
   (70864, 70873); (71040, 71086); (71128, 71131); (71168, 71215); (71236, 71236);
   (71248, 71257); (71296, 71338); (71352, 71352); (71360, 71369); (71424, 71450);
   (71472, 71483); (71488, 71494); (71680, 71723); (71840, 71922); (71935, 71942);
   (71945, 71945); (71948, 71955); (71957, 71958); (71960, 71983); (71999, 71999);
   (72001, 72001); (72016, 72025); (72096, 72103); (72106, 72144); (72161, 72161);
   (72163, 72163); (72192, 72192); (72203, 72242); (72250, 72250); (72272, 72272);
   (72284, 72329); (72349, 72349); (72368, 72440); (72704, 72712); (72714, 72750);
   (72768, 72768); (72784, 72812); (72818, 72847); (72960, 72966); (72968, 72969);
   (72971, 73008); (73030, 73030); (73040, 73049); (73056, 73061); (73063, 73064);
   (73066, 73097); (73112, 73112); (73120, 73129); (73440, 73458); (73648, 73648);
   (73664, 73684); (73728, 74649); (74752, 74862); (74880, 75075); (77712, 77808);
   (77824, 78894); (82944, 83526); (92160, 92728); (92736, 92766); (92768, 92777);
   (92784, 92862); (92864, 92873); (92880, 92909); (92928, 92975); (92992, 92995);
   (93008, 93017); (93019, 93025); (93027, 93047); (93053, 93071); (93760, 93846);
   (93952, 94026); (94032, 94032); (94099, 94111); (94176, 94177); (94179, 94179);
   (94208, 100343); (100352, 101589); (101632, 101640); (110576, 110579); (110581,
   110587); (110589, 110590); (110592, 110882); (110928, 110930); (110948, 110951);
   (110960, 111355); (113664, 113770); (113776, 113788); (113792, 113800); (113808,
   113817); (119520, 119539); (119648, 119672); (119808, 119892); (119894, 119964);
   (119966, 119967); (119970, 119970); (119973, 119974); (119977, 119980); (119982,
   119993); (119995, 119995); (119997, 120003); (120005, 120069); (120071, 120074);
   (120077, 120084); (120086, 120092); (120094, 120121); (120123, 120126); (120128,
   120132); (120134, 120134); (120138, 120144); (120146, 120485); (120488, 120512);
   (120514, 120538); (120540, 120570); (120572, 120596); (120598, 120628); (120630,
   120654); (120656, 120686); (120688, 120712); (120714, 120744); (120746, 120770);
   (120772, 120779); (120782, 120831); (122624, 122654); (123136, 123180); (123191,
   123197); (123200, 123209); (123214, 123214); (123536, 123565); (123584, 123627);
   (123632, 123641); (124896, 124902); (124904, 124907); (124909, 124910); (124912,
   124926); (124928, 125124); (125127, 125135); (125184, 125251); (125259, 125259);
   (125264, 125273); (126065, 126123); (126125, 126127); (126129, 126132); (126209,
   126253); (126255, 126269); (126464, 126467); (126469, 126495); (126497, 126498);
   (126500, 126500); (126503, 126503); (126505, 126514); (126516, 126519); (126521,
   126521); (126523, 126523); (126530, 126530); (126535, 126535); (126537, 126537);
   (126539, 126539); (126541, 126543); (126545, 126546); (126548, 126548); (126551,
   126551); (126553, 126553); (126555, 126555); (126557, 126557); (126559, 126559);
   (126561, 126562); (126564, 126564); (126567, 126570); (126572, 126578); (126580,
   126583); (126585, 126588); (126590, 126590); (126592, 126601); (126603, 126619);
   (126625, 126627); (126629, 126633); (126635, 126651); (127232, 127244); (130032,
   130041); (131072, 173791); (173824, 177976); (177984, 178205); (178208, 183969);
   (183984, 191456); (194560, 195101); (196608, 201546)
  ].

(** The class [\w] of a [str] pattern. *)
Definition is_word (c : char) : bool :=
  existsb (fun r => (fst r <=? c) && (c <=? snd r)) word_ranges.

(** The code points that [str.upper] maps to one other code point
    (Unicode 14.0), as runs [(first, last, step, to)]: every [step]-th
    code point from [first] to [last] has an upper case, [first] has
    the upper case [to], and the distance is the same along the run. *)
Definition upper_runs : list (char * char * N * char) :=
  [
   (97, 122, 1, 65); (181, 181, 1, 924); (224, 246, 1, 192); (248, 254, 1, 216); (255,
   255, 1, 376); (257, 303, 2, 256); (305, 305, 1, 73); (307, 311, 2, 306); (314, 328,
   2, 313); (331, 375, 2, 330); (378, 382, 2, 377); (383, 383, 1, 83); (384, 384, 1,
   579); (387, 389, 2, 386); (392, 392, 1, 391); (396, 396, 1, 395); (402, 402, 1, 401);
   (405, 405, 1, 502); (409, 409, 1, 408); (410, 410, 1, 573); (414, 414, 1, 544); (417,
   421, 2, 416); (424, 424, 1, 423); (429, 429, 1, 428); (432, 432, 1, 431); (436, 438,
   2, 435); (441, 441, 1, 440); (445, 445, 1, 444); (447, 447, 1, 503); (453, 453, 1,
   452); (454, 454, 1, 452); (456, 456, 1, 455); (457, 457, 1, 455); (459, 459, 1, 458);
   (460, 460, 1, 458); (462, 476, 2, 461); (477, 477, 1, 398); (479, 495, 2, 478); (498,
   498, 1, 497); (499, 499, 1, 497); (501, 501, 1, 500); (505, 543, 2, 504); (547, 563,
   2, 546); (572, 572, 1, 571); (575, 576, 1, 11390); (578, 578, 1, 577); (583, 591, 2,
   582); (592, 592, 1, 11375); (593, 593, 1, 11373); (594, 594, 1, 11376); (595, 595, 1,
   385); (596, 596, 1, 390); (598, 599, 1, 393); (601, 601, 1, 399); (603, 603, 1, 400);
   (604, 604, 1, 42923); (608, 608, 1, 403); (609, 609, 1, 42924); (611, 611, 1, 404);
   (613, 613, 1, 42893); (614, 614, 1, 42922); (616, 616, 1, 407); (617, 617, 1, 406);
   (618, 618, 1, 42926); (619, 619, 1, 11362); (620, 620, 1, 42925); (623, 623, 1, 412);
   (625, 625, 1, 11374); (626, 626, 1, 413); (629, 629, 1, 415); (637, 637, 1, 11364);
   (640, 640, 1, 422); (642, 642, 1, 42949); (643, 643, 1, 425); (647, 647, 1, 42929);
   (648, 648, 1, 430); (649, 649, 1, 580); (650, 651, 1, 433); (652, 652, 1, 581); (658,
   658, 1, 439); (669, 669, 1, 42930); (670, 670, 1, 42928); (837, 837, 1, 921); (881,
   883, 2, 880); (887, 887, 1, 886); (891, 893, 1, 1021); (940, 940, 1, 902); (941, 943,
   1, 904); (945, 961, 1, 913); (962, 962, 1, 931); (963, 971, 1, 931); (972, 972, 1,
   908); (973, 974, 1, 910); (976, 976, 1, 914); (977, 977, 1, 920); (981, 981, 1, 934);
   (982, 982, 1, 928); (983, 983, 1, 975); (985, 1007, 2, 984); (1008, 1008, 1, 922);
   (1009, 1009, 1, 929); (1010, 1010, 1, 1017); (1011, 1011, 1, 895); (1013, 1013, 1,
   917); (1016, 1016, 1, 1015); (1019, 1019, 1, 1018); (1072, 1103, 1, 1040); (1104,
   1119, 1, 1024); (1121, 1153, 2, 1120); (1163, 1215, 2, 1162); (1218, 1230, 2, 1217);
   (1231, 1231, 1, 1216); (1233, 1327, 2, 1232); (1377, 1414, 1, 1329); (4304, 4346, 1,
   7312); (4349, 4351, 1, 7357); (5112, 5117, 1, 5104); (7296, 7296, 1, 1042); (7297,
   7297, 1, 1044); (7298, 7298, 1, 1054); (7299, 7300, 1, 1057); (7301, 7301, 1, 1058);
   (7302, 7302, 1, 1066); (7303, 7303, 1, 1122); (7304, 7304, 1, 42570); (7545, 7545, 1,
   42877); (7549, 7549, 1, 11363); (7566, 7566, 1, 42950); (7681, 7829, 2, 7680); (7835,
   7835, 1, 7776); (7841, 7935, 2, 7840); (7936, 7943, 1, 7944); (7952, 7957, 1, 7960);
   (7968, 7975, 1, 7976); (7984, 7991, 1, 7992); (8000, 8005, 1, 8008); (8017, 8023, 2,
   8025); (8032, 8039, 1, 8040); (8048, 8049, 1, 8122); (8050, 8053, 1, 8136); (8054,
   8055, 1, 8154); (8056, 8057, 1, 8184); (8058, 8059, 1, 8170); (8060, 8061, 1, 8186);
   (8112, 8113, 1, 8120); (8126, 8126, 1, 921); (8144, 8145, 1, 8152); (8160, 8161, 1,
   8168); (8165, 8165, 1, 8172); (8526, 8526, 1, 8498); (8560, 8575, 1, 8544); (8580,
   8580, 1, 8579); (9424, 9449, 1, 9398); (11312, 11359, 1, 11264); (11361, 11361, 1,
   11360); (11365, 11365, 1, 570); (11366, 11366, 1, 574); (11368, 11372, 2, 11367);
   (11379, 11379, 1, 11378); (11382, 11382, 1, 11381); (11393, 11491, 2, 11392); (11500,
   11502, 2, 11499); (11507, 11507, 1, 11506); (11520, 11557, 1, 4256); (11559, 11559,
   1, 4295); (11565, 11565, 1, 4301); (42561, 42605, 2, 42560); (42625, 42651, 2,
   42624); (42787, 42799, 2, 42786); (42803, 42863, 2, 42802); (42874, 42876, 2, 42873);
   (42879, 42887, 2, 42878); (42892, 42892, 1, 42891); (42897, 42899, 2, 42896); (42900,
   42900, 1, 42948); (42903, 42921, 2, 42902); (42933, 42947, 2, 42932); (42952, 42954,
   2, 42951); (42961, 42961, 1, 42960); (42967, 42969, 2, 42966); (42998, 42998, 1,
   42997); (43859, 43859, 1, 42931); (43888, 43967, 1, 5024); (65345, 65370, 1, 65313);
   (66600, 66639, 1, 66560); (66776, 66811, 1, 66736); (66967, 66977, 1, 66928); (66979,
   66993, 1, 66940); (66995, 67001, 1, 66956); (67003, 67004, 1, 66964); (68800, 68850,
   1, 68736); (71872, 71903, 1, 71840); (93792, 93823, 1, 93760); (125218, 125251, 1,
   125184)
  ].

(** The code points that [str.upper] maps to several code points. *)
Definition upper_special : list (char * pystr) :=
  [
   (223, [83; 83]); (329, [700; 78]); (496, [74; 780]); (912, [921; 776; 769]); (944,
   [933; 776; 769]); (1415, [1333; 1362]); (7830, [72; 817]); (7831, [84; 776]); (7832,
   [87; 778]); (7833, [89; 778]); (7834, [65; 702]); (8016, [933; 787]); (8018, [933;
   787; 768]); (8020, [933; 787; 769]); (8022, [933; 787; 834]); (8064, [7944; 921]);
   (8065, [7945; 921]); (8066, [7946; 921]); (8067, [7947; 921]); (8068, [7948; 921]);
   (8069, [7949; 921]); (8070, [7950; 921]); (8071, [7951; 921]); (8072, [7944; 921]);
   (8073, [7945; 921]); (8074, [7946; 921]); (8075, [7947; 921]); (8076, [7948; 921]);
   (8077, [7949; 921]); (8078, [7950; 921]); (8079, [7951; 921]); (8080, [7976; 921]);
   (8081, [7977; 921]); (8082, [7978; 921]); (8083, [7979; 921]); (8084, [7980; 921]);
   (8085, [7981; 921]); (8086, [7982; 921]); (8087, [7983; 921]); (8088, [7976; 921]);
   (8089, [7977; 921]); (8090, [7978; 921]); (8091, [7979; 921]); (8092, [7980; 921]);
   (8093, [7981; 921]); (8094, [7982; 921]); (8095, [7983; 921]); (8096, [8040; 921]);
   (8097, [8041; 921]); (8098, [8042; 921]); (8099, [8043; 921]); (8100, [8044; 921]);
   (8101, [8045; 921]); (8102, [8046; 921]); (8103, [8047; 921]); (8104, [8040; 921]);
   (8105, [8041; 921]); (8106, [8042; 921]); (8107, [8043; 921]); (8108, [8044; 921]);
   (8109, [8045; 921]); (8110, [8046; 921]); (8111, [8047; 921]); (8114, [8122; 921]);
   (8115, [913; 921]); (8116, [902; 921]); (8118, [913; 834]); (8119, [913; 834; 921]);
   (8124, [913; 921]); (8130, [8138; 921]); (8131, [919; 921]); (8132, [905; 921]);
   (8134, [919; 834]); (8135, [919; 834; 921]); (8140, [919; 921]); (8146, [921; 776;
   768]); (8147, [921; 776; 769]); (8150, [921; 834]); (8151, [921; 776; 834]); (8162,
   [933; 776; 768]); (8163, [933; 776; 769]); (8164, [929; 787]); (8166, [933; 834]);
   (8167, [933; 776; 834]); (8178, [8186; 921]); (8179, [937; 921]); (8180, [911; 921]);
   (8182, [937; 834]); (8183, [937; 834; 921]); (8188, [937; 921]); (64256, [70; 70]);
   (64257, [70; 73]); (64258, [70; 76]); (64259, [70; 70; 73]); (64260, [70; 70; 76]);
   (64261, [83; 84]); (64262, [83; 84]); (64275, [1348; 1350]); (64276, [1348; 1333]);
   (64277, [1348; 1339]); (64278, [1358; 1350]); (64279, [1348; 1341])
  ].

Definition in_upper_run (c : char) (r : char * char * N * char) : bool :=
  let '(first, last, step, _) := r in
  (first <=? c) && (c <=? last) && ((c - first) mod step =? 0).

(** [c.upper()] for one code point *)
Definition upper_char (c : char) : pystr :=
  match find (in_upper_run c) upper_runs with
  | Some (first, _, _, to) => [to + (c - first)]
  | None =>
    match find (fun e => fst e =? c) upper_special with
    | Some e => snd e
    | None => [c]
    end
  end.

(** [s.upper()] *)
Definition upper (s : pystr) : pystr := flat_map upper_char s.

(** The lower case of a letter of the ASCII range; any other code
    point is kept. *)
Definition lower_char (c : char) : char := if is_upper_letter c then c + 32 else c.

(** [s.lower()], for the comparisons this program makes: the lowered
    text is only compared with the texts tel, email, site, www, http
    and the English month names. A code point outside the ASCII range
    is kept here; in Python none of them has an ASCII letter in its
    lower case except U+0130 (i followed by U+0307) and U+212A (k),
    and no i of those texts is followed by U+0307 and none of them
    has a k, so every such comparison comes out as in Python. *)
Definition lower (s : pystr) : pystr := map lower_char s.

(** [s.lstrip()], [s.rstrip()], [s.strip()] *)
Fixpoint lstrip (s : pystr) : pystr :=
  match s with
  | c :: s' => if is_space c then lstrip s' else s
  | [] => []
  end.

Definition rstrip (s : pystr) : pystr := rev (lstrip (rev s)).
Definition strip (s : pystr) : pystr := rstrip (lstrip s).

(** [s.startswith(p)] *)
Fixpoint startswith (s p : pystr) : bool :=
  match p, s with
  | [], _ => true
  | x :: p', c :: s' => char_eqb c x && startswith s' p'
  | _ :: _, [] => false
  end.

(** [p in s] *)
Fixpoint contains (s p : pystr) : bool :=
  startswith s p || match s with [] => false | _ :: s' => contains s' p end.

(** [s.split(sep, 1)] for a one-character separator: the text before
    the first separator and, when there is one, the text after it. *)
Fixpoint split1 (sep : char) (s : pystr) : pystr * option pystr :=
  match s with
  | [] => ([], None)
  | c :: s' =>
    if char_eqb c sep then ([], Some s')
    else let '(a, b) := split1 sep s' in (c :: a, b)
  end.

(** [s.replace(c, "")] for a one-character [c]. *)
Definition remove_char (c : char) (s : pystr) : pystr :=
  List.filter (fun x => negb (char_eqb x c)) s.

(** [sep.join(parts)] *)
Fixpoint join (sep : pystr) (parts : list pystr) : pystr :=
  match parts with
  | [] => []
  | [p] => p
  | p :: ps => p ++ sep ++ join sep ps
  end.

(** Line boundaries of [str.splitlines]. *)
Definition is_linebreak (c : char) : bool :=
  ((10 <=? c) && (c <=? 13)) || ((28 <=? c) && (c <=? 30))
  || (c =? 133) || (c =? 8232) || (c =? 8233).

(** [s.splitlines()]: [cur] is the line being read, reversed;
    a carriage return followed by a line feed is one boundary. *)
Fixpoint splitlines_aux (s : pystr) (cur : pystr) : list pystr :=
  match s with
  | [] => match cur with [] => [] | _ => [rev cur] end
  | c :: s' =>
    if is_linebreak c then
      match s' with
      | d :: s'' =>
        if (c =? 13) && (d =? 10) then rev cur :: splitlines_aux s'' []
        else rev cur :: splitlines_aux s' []
      | [] => [rev cur]
      end
    else splitlines_aux s' (c :: cur)
  end.

Definition splitlines (s : pystr) : list pystr := splitlines_aux s [].

(** [a <= b] on strings: code point by code point, a prefix first. *)
Fixpoint str_leb (a b : pystr) : bool :=
  match a, b with
  | [], _ => true
  | _ :: _, [] => false
  | x :: a', y :: b' => (x <? y) || ((x =? y) && str_leb a' b')
  end.

Fixpoint insert_str (x : pystr) (l : list pystr) : list pystr :=
  match l with
  | [] => [x]
  | y :: l' => if str_leb x y then x :: l else y :: insert_str x l'
  end.

(** [sorted(l)] for a list of strings *)
Definition sorted_str (l : list pystr) : list pystr := fold_right insert_str [] l.

End Text.

Import Text.

(** ** Regular expressions of Python's [re] *)

Module Re.

Inductive regex : Type :=
| Eps
| Class (p : char -> bool)          (* one character of a class *)
| Seq (r1 r2 : regex)
| Alt (r1 r2 : regex)               (* r1|r2, r1 tried first *)
| Star (r : regex)                  (* r*, greedy *)
| WordB                             (* \b *)
| Group (name : string) (r : regex) (* (?P<name>r) *).

(** A position in the subject: the text before it (reversed), the text
    after it, and the groups captured so far (latest first). *)
Record state : Type := mkState {
  pre : pystr;
  post : pystr;
  caps : list (string * pystr)
}.

Definition at_boundary (st : state) : bool :=
  xorb (match pre st with c :: _ => is_word c | [] => false end)
       (match post st with c :: _ => is_word c | [] => false end).

(** Text consumed between two positions of one run. *)
Definition consumed (st st' : state) : pystr :=
  take (length (post st) - length (post st')) (post st).

Definition advanced (st st' : state) : bool :=
  (length (post st') <? length (post st))%nat.

(** Greedy iteration: another round of [step] is preferred to stopping,
    and a round that consumes nothing is not repeated. *)
Fixpoint star (step : state -> list state) (fuel : nat) (st : state) : list state :=
  match fuel with
  | O => [st]
  | S n =>
    flat_map (fun st' => if advanced st st' then star step n st' else []) (step st)
      ++ [st]
  end.

(** All ways of matching [r] at [st], in backtracking order. *)
Fixpoint run (r : regex) (st : state) : list state :=
  match r with
  | Eps => [st]
  | Class p =>
    match post st with
    | c :: s' => if p c then [mkState (c :: pre st) s' (caps st)] else []
    | [] => []
    end
  | Seq r1 r2 => flat_map (run r2) (run r1 st)
  | Alt r1 r2 => run r1 st ++ run r2 st
  | Star r1 => star (run r1) (length (post st)) st
  | WordB => if at_boundary st then [st] else []
  | Group name r1 =>
    map (fun st' => mkState (pre st') (post st') ((name, consumed st st') :: caps st'))
        (run r1 st)
  end.

(** The code points that a lower-case letter of the ASCII range
    matches under [re.I] besides itself and its capital: the ones
    whose lower case is the letter (U+0130 for i, U+212A for k) and
    the ones [re] takes for equivalent to it (U+0131 for i, U+017F
    for s). *)
Definition ignorecase_also (l : char) : list char :=
  if l =? 105 then [304; 305]
  else if l =? 107 then [8490]
  else if l =? 115 then [383]
  else [].

(** Derived forms. [ChrI] and [StrI] are for literals of the ASCII
    range, which is what the patterns of this program hold. *)
Definition Opt (r : regex) : regex := Alt r Eps.             (* r? *)
Definition Plus (r : regex) : regex := Seq r (Star r).       (* r+ *)
Definition Chr (c : char) : regex := Class (char_eqb c).
Definition ChrI (c : char) : regex :=                        (* under re.I *)
  Class (fun x => char_eqb (lower_char x) (lower_char c)
                  || existsb (char_eqb x) (ignorecase_also (lower_char c))).
Definition OneOf (cs : pystr) : regex :=                     (* [...] *)
  Class (fun x => existsb (char_eqb x) cs).
Definition Range (lo hi : char) : regex :=                   (* [lo-hi] *)
  Class (fun x => (lo <=? x) && (x <=? hi)).
Definition Str (s : pystr) : regex := fold_right (fun c r => Seq (Chr c) r) Eps s.
Definition StrI (s : pystr) : regex := fold_right (fun c r => Seq (ChrI c) r) Eps s.
Definition AltL (rs : list regex) (last : regex) : regex := fold_right Alt last rs.

Definition start_at (before after : pystr) : state := mkState before after [].

(** A match object: the matched text and the captured groups. *)
Record match_obj : Type := mkMatch {
  group0 : pystr;
  groups : list (string * pystr)
}.

Definition first_match (r : regex) (st : state) : option (state * match_obj) :=
  match run r st with
  | st' :: _ => Some (st', mkMatch (consumed st st') (caps st'))
  | [] => None
  end.

(** [re.match(r, s)] *)
Definition match_ (r : regex) (s : pystr) : option (state * match_obj) :=
  first_match r (start_at [] s).

(** [re.search(r, s)]: the first match at the leftmost position that
    has one. *)
Fixpoint search_from (r : regex) (before after : pystr) : option match_obj :=
  match first_match r (start_at before after) with
  | Some (_, m) => Some m
  | None =>
    match after with
    | c :: after' => search_from r (c :: before) after'
    | [] => None
    end
  end.

Definition search (r : regex) (s : pystr) : option match_obj := search_from r [] s.

(** [re.findall(r, s)] for a pattern without groups: the matched texts,
    left to right, without overlap. [skip] counts the characters of the
    last match still to be stepped over. *)
Fixpoint findall_from (r : regex) (before after : pystr) (skip : nat) : list pystr :=
  match skip with
  | S k =>
    match after with
    | c :: after' => findall_from r (c :: before) after' k
    | [] => []
    end
  | O =>
    match first_match r (start_at before after) with
    | Some (_, m) =>
      group0 m ::
        match after with
        | c :: after' => findall_from r (c :: before) after' (length (group0 m) - 1)
        | [] => []
        end
    | None =>
      match after with
      | c :: after' => findall_from r (c :: before) after' 0
      | [] => []
      end
    end
  end.

Definition findall (r : regex) (s : pystr) : list pystr := findall_from r [] s 0.

(** [re.sub(r, repl, s)] for a literal replacement. *)
Fixpoint sub_from (r : regex) (repl : pystr) (before after : pystr) (skip : nat) : pystr :=
  match skip with
  | S k =>
    match after with
    | c :: after' => sub_from r repl (c :: before) after' k
    | [] => []
    end
  | O =>
    match first_match r (start_at before after) with
    | Some (_, m) =>
      repl ++
        match after with
        | c :: after' =>
          match group0 m with
          | [] => c :: sub_from r repl (c :: before) after' 0
          | _ :: g => sub_from r repl (c :: before) after' (length g)
          end
        | [] => []
        end
    | None =>
      match after with
      | c :: after' => c :: sub_from r repl (c :: before) after' 0
      | [] => []
      end
    end
  end.

Definition sub (r : regex) (repl s : pystr) : pystr := sub_from r repl [] s 0.

End Re.

Import Re.

(** ** Python floats *)

Module Float.

(** binary64 *)
Definition float := spec_float.
Definition prec : Z := 53.
Definition emax : Z := 1024.

Definition is_ascii_digit (c : char) : bool := (48 <=? c) && (c <=? 57).

(** What [float] and [int] make of a [str] before they read it: a
    code point below 127 is kept, white space becomes a blank, a
    decimal digit of any script becomes the ASCII digit of its value,
    and the text is cut after the first code point that is none of
    these, put as a question mark. *)
Fixpoint ascii_decimal (s : pystr) : pystr :=
  match s with
  | [] => []
  | c :: s' =>
    if c <? 127 then c :: ascii_decimal s'
    else if is_space c then 32 :: ascii_decimal s'
    else
      match decimal_value c with
      | Some v => (48 + v) :: ascii_decimal s'
      | None => [63]
      end
  end.

Definition digit_val (c : char) : N := c - 48.

(** The number written by a string of ASCII digits. *)
Definition int_of_digits (ds : pystr) : N :=
  fold_left (fun acc c => acc * 10 + digit_val c) ds 0.

Fixpoint pow10 (k : nat) : positive :=
  match k with
  | O => 1
  | S k' => 10 * pow10 k'
  end%positive.

(** The binary64 nearest to [(-1)^neg * ip.fp], ties to even: the
    integer [ip fp] divided by [10 ^ len(fp)] with one rounding. *)
Definition of_decimal (neg : bool) (ip fp : pystr) : float :=
  match int_of_digits (ip ++ fp) with
  | N0 => S754_zero neg
  | Npos m =>
    SFdiv prec emax (S754_finite neg m 0)
          (S754_finite false (pow10 (length fp)) 0)
  end.

Definition split_sign (s : pystr) : bool * pystr :=
  match s with
  | 45 :: r => (true, r)
  | 43 :: r => (false, r)
  | _ => (false, s)
  end.

(** The float written by an ASCII literal of the form sign, digits,
    optional point and digits. *)
Definition float_of_ascii (s : pystr) : option float :=
  let '(neg, body) := split_sign s in
  let '(ip, rest) := split1 46 body in
  let fp := match rest with Some f => f | None => [] end in
  if forallb is_ascii_digit ip && forallb is_ascii_digit fp
     && negb (match ip, fp with [], [] => true | _, _ => false end)
  then Some (of_decimal neg ip fp)
  else None.

(** [float(s)] on literals of the form sign, digits of any script,
    optional point and digits; [None] is [ValueError]. Exponents,
    [inf], [nan], digit separators and surrounding blanks, which
    [float] also reads, are outside this embedding and yield [None]
    here. *)
Definition py_float (s : pystr) : option float := float_of_ascii (ascii_decimal s).

(** [abs(x)], [-x] *)
Definition fabs (x : float) : float := SFabs x.
Definition fneg (x : float) : float := SFopp x.

(** [x < y], [x == y] *)
Definition flt (x y : float) : bool := SFltb x y.
Definition feq (x y : float) : bool := SFeqb x y.

Definition zero : float := S754_zero false.

(** [math.copysign(1.0, x) < 0]: the sign bit. *)
Definition sign_bit (x : float) : bool :=
  match x with
  | S754_zero s | S754_infinity s | S754_finite s _ _ => s
  | S754_nan => false
  end.

Definition float_eqb (x y : float) : bool :=
  match x, y with
  | S754_zero a, S754_zero b => Bool.eqb a b
  | S754_infinity a, S754_infinity b => Bool.eqb a b
  | S754_nan, S754_nan => true
  | S754_finite a m e, S754_finite b n f => Bool.eqb a b && Pos.eqb m n && Z.eqb e f
  | _, _ => false
  end.

(** *** [repr] of a float: the shortest decimal that reads back *)

(** The binary64 nearest to [(-1)^neg * c * 10^e10]. *)
Definition of_scaled (neg : bool) (c : positive) (e10 : Z) : float :=
  if (0 <=? e10)%Z
  then SFdiv prec emax (S754_finite neg (c * pow10 (Z.to_nat e10)) 0) (S754_finite false 1 0)
  else SFdiv prec emax (S754_finite neg c 0) (S754_finite false (pow10 (Z.to_nat (- e10))) 0).

(** [m * 2^e] as a fraction. *)
Definition fraction_of (m : positive) (e : Z) : positive * positive :=
  if (0 <=? e)%Z then (Pos.shiftl m (Z.to_N e), 1%positive)
  else (m, Pos.shiftl 1%positive (Z.to_N (- e))).

(** [num/den * 10^k] as a fraction. *)
Definition scale10 (q : positive * positive) (k : Z) : positive * positive :=
  if (0 <=? k)%Z then ((fst q * pow10 (Z.to_nat k))%positive, snd q)
  else (fst q, (snd q * pow10 (Z.to_nat (- k)))%positive).

(** The least [k] from [k0] on with [q < 10^k]. *)
Fixpoint find_decpt (fuel : nat) (q : positive * positive) (k : Z) : Z :=
  match fuel with
  | O => k
  | S fuel' =>
    let q' := scale10 q (- k) in
    if (fst q' <? snd q')%positive then k else find_decpt fuel' q (k + 1)
  end.

(** A lower bound of the decimal exponent of [m * 2^e], from its
    binary exponent. *)
Definition decpt_floor (m : positive) (e : Z) : Z :=
  ((Zpos (digits2_pos m) + e - 1) * 30102 / 100000)%Z.

(** The [p]-digit decimal next to [q] that reads back as [x], if any:
    its integer and its power of ten. *)
Definition candidate (x : float) (neg : bool) (q : positive * positive) (k : Z) (p : nat)
  : option (positive * Z) :=
  let e10 := (k - Z.of_nat p)%Z in
  let q' := scale10 q (- e10) in
  let lo := (Npos (fst q') / Npos (snd q'))%N in
  let r := (Npos (fst q') mod Npos (snd q'))%N in
  let hi := N.succ_pos lo in
  let ok_lo := match lo with Npos l => float_eqb (of_scaled neg l e10) x | N0 => false end in
  let ok_hi := float_eqb (of_scaled neg hi e10) x in
  let lo_first := (2 * r <? Npos (snd q'))%N || ((2 * r =? Npos (snd q'))%N && N.even lo) in
  match lo with
  | Npos l =>
    if lo_first then (if ok_lo then Some (l, e10) else if ok_hi then Some (hi, e10) else None)
    else (if ok_hi then Some (hi, e10) else if ok_lo then Some (l, e10) else None)
  | N0 => if ok_hi then Some (hi, e10) else None
  end.

Fixpoint shortest (x : float) (neg : bool) (q : positive * positive) (k : Z)
    (fuel : nat) (p : nat) : positive * Z :=
  match fuel with
  | O => (fst q, 0%Z)
  | S fuel' =>
    match candidate x neg q k p with
    | Some c => c
    | None => shortest x neg q k fuel' (S p)
    end
  end.

Fixpoint uint_chars (u : Decimal.uint) : pystr :=
  match u with
  | Decimal.Nil => []
  | Decimal.D0 u' => 48 :: uint_chars u'
  | Decimal.D1 u' => 49 :: uint_chars u'
  | Decimal.D2 u' => 50 :: uint_chars u'
  | Decimal.D3 u' => 51 :: uint_chars u'
  | Decimal.D4 u' => 52 :: uint_chars u'
  | Decimal.D5 u' => 53 :: uint_chars u'
  | Decimal.D6 u' => 54 :: uint_chars u'
  | Decimal.D7 u' => 55 :: uint_chars u'
  | Decimal.D8 u' => 56 :: uint_chars u'
  | Decimal.D9 u' => 57 :: uint_chars u'
  end.

(** [str(n)] for a natural number. *)
Definition str_N (n : N) : pystr := uint_chars (N.to_uint n).

(** [str(z)] for an integer. *)
Definition str_Z (z : Z) : pystr :=
  match z with
  | Zneg p => 45 :: str_N (Npos p)
  | _ => str_N (Z.to_N z)
  end.

Fixpoint drop_zeros (s : pystr) : pystr :=
  match s with
  | 48 :: s' => drop_zeros s'
  | _ => s
  end.

Definition zeros (n : nat) : pystr := repeat 48 n.

(** The digits [ds] with the decimal point after the first [decpt] of
    them, laid out as [repr] does: plain notation for
    [-4 < decpt <= 16], exponent notation otherwise. *)
Definition layout (ds : pystr) (decpt : Z) : pystr :=
  let n := Z.of_nat (length ds) in
  if ((decpt <=? -4) || (16 <? decpt))%Z then
    let e := (decpt - 1)%Z in
    let ex := str_N (Z.to_N (Z.abs e)) in
    take 1 ds ++ (match drop 1 ds with [] => [] | tl => 46 :: tl end)
      ++ [101; if (e <? 0)%Z then 45 else 43]
      ++ (match ex with [_] => 48 :: ex | _ => ex end)
  else if (decpt <=? 0)%Z then [48; 46] ++ zeros (Z.to_nat (- decpt)) ++ ds
  else if (n <=? decpt)%Z then ds ++ zeros (Z.to_nat (decpt - n)) ++ [46; 48]
  else take (Z.to_nat decpt) ds ++ 46 :: drop (Z.to_nat decpt) ds.

Definition sign_prefix (neg : bool) (s : pystr) : pystr := if neg then 45 :: s else s.

(** [repr(x)], which is also [str(x)]. *)
Definition float_repr (x : float) : pystr :=
  match x with
  | S754_zero s => sign_prefix s [48; 46; 48]
  | S754_infinity s => sign_prefix s [105; 110; 102]
  | S754_nan => [110; 97; 110]
  | S754_finite s m e =>
    let q := fraction_of m e in
    let k := find_decpt 8 q (decpt_floor m e) in
    let '(c, e10) := shortest x s q k 17 1 in
    let all := str_N (Npos c) in
    let ds := rev (drop_zeros (rev all)) in
    sign_prefix s (layout ds (Z.of_nat (length all) + e10))
  end.

End Float.

Import Float.

(** ** Values of a cell *)

Module Value.

(** What a cell of a frame holds: [None], a string, an integer or a
    float ([NaN] is [VFloat S754_nan]). *)
Inductive value : Type :=
| VNone
| VStr (s : pystr)
| VInt (z : Z)
| VFloat (x : float).

(** [str(v)] *)
Definition py_str (v : value) : pystr :=
  match v with
  | VNone => py "None"
  | VStr s => s
  | VInt z => str_Z z
  | VFloat x => float_repr x
  end.

(** [x is None or (isinstance(x, float) and pd.isna(x))] *)
Definition is_missing (x : value) : bool :=
  match x with
  | VNone => true
  | VFloat S754_nan => true
  | _ => false
  end.

Definition of_amount (a : option float) : value :=
  match a with Some x => VFloat x | None => VNone end.

Definition of_text (t : option pystr) : value :=
  match t with Some s => VStr s | None => VNone end.

End Value.

Import Value.

(** ** Paths and the environment *)

Module Os.

(** *** [os.path] on POSIX *)

Definition ends_with_sep (p : pystr) : bool :=
  match last p with Some c => c =? 47 | None => false end.

(** [os.path.join(a, b)] *)
Definition path_join (a b : pystr) : pystr :=
  if startswith b [47] then b
  else match a with
       | [] => b
       | _ :: _ => if ends_with_sep a then a ++ b else a ++ 47 :: b
       end.

(** [p.rfind("/") + 1] *)
Fixpoint rfind_sep_succ (p : pystr) : nat :=
  match p with
  | [] => O
  | c :: p' =>
    match rfind_sep_succ p' with
    | O => if c =? 47 then 1%nat else O
    | S i => S (S i)
    end
  end.

(** [os.path.basename(p)] *)
Definition basename (p : pystr) : pystr := drop (rfind_sep_succ p) p.

Fixpoint lstrip_sep (s : pystr) : pystr :=
  match s with
  | c :: s' => if c =? 47 then lstrip_sep s' else s
  | [] => []
  end.

(** [head.rstrip("/")] *)
Definition rstrip_sep (head : pystr) : pystr := rev (lstrip_sep (rev head)).

(** [os.path.dirname(p)] *)
Definition dirname (p : pystr) : pystr :=
  let head := take (rfind_sep_succ p) p in
  match head with
  | [] => head
  | _ :: _ => if forallb (N.eqb 47) head then head else rstrip_sep head
  end.

(** *** What a run does to its environment *)

(** The effects that last: a call of [os.makedirs] that succeeded (it
    makes the named directory and the directories above it that are
    missing), a frame written as CSV, a line printed. [F] is the type
    of the frames. *)
Inductive event (F : Type) : Type :=
| Makedirs (name : pystr)
| ToCsv (path : pystr) (df : F)
| Print (line : pystr).

Arguments Makedirs {F} name.
Arguments ToCsv {F} path df.
Arguments Print {F} line.

(** The exceptions: the two classes the program raises itself, with
    their messages, and [EnvError] for any other failure of a call on
    the environment at a path (a file that cannot be read or decoded,
    a directory that cannot be made, a file that cannot be written). *)
Inductive exn : Type :=
| ValueError (msg : pystr)
| FileNotFoundError (msg : pystr)
| EnvError (path : pystr).

Inductive result (A : Type) : Type :=
| Ok (a : A)
| Raised (e : exn).

Arguments Ok {A} a.
Arguments Raised {A} e.

(** A computation: from the effects so far to the effects after it
    and its outcome. *)
Definition M (F A : Type) : Type := list (event F) → list (event F) * result A.

#[global] Instance M_ret {F : Type} : MRet (M F) := fun A a h => (h, Ok a).

#[global] Instance M_bind {F : Type} : MBind (M F) :=
  fun A B f m h =>
    match m h with
    | (h', Ok a) => f a h'
    | (h', Raised e) => (h', Raised e)
    end.

Definition raise {F A : Type} (e : exn) : M F A := fun h => (h, Raised e).

Definition emit {F : Type} (ev : event F) : M F unit := fun h => (h ++ [ev], Ok tt).

(** What the environment answers. Every answer may depend on the
    effects so far. [R] is what reading a file yields; [None] is an
    exception. *)
Record env (F R : Type) : Type := mkEnv {
  env_glob : list (event F) → pystr → list pystr;
  env_isdir : list (event F) → pystr → bool;
  env_isfile : list (event F) → pystr → bool;
  env_read : list (event F) → pystr → option R;
  env_makedirs : list (event F) → pystr → bool;
  env_to_csv : list (event F) → pystr → F → bool
}.

Arguments env_glob {F R} e h pattern.
Arguments env_isdir {F R} e h path.
Arguments env_isfile {F R} e h path.
Arguments env_read {F R} e h path.
Arguments env_makedirs {F R} e h name.
Arguments env_to_csv {F R} e h path df.

Section calls.

Context {F R : Type}.
Variable w : env F R.

(** [glob.glob(pattern)] *)
Definition glob_glob (pattern : pystr) : M F (list pystr) :=
  fun h => (h, Ok (env_glob w h pattern)).

(** [os.path.isdir(path)], [os.path.isfile(path)] *)
Definition isdir (path : pystr) : M F bool := fun h => (h, Ok (env_isdir w h path)).
Definition isfile (path : pystr) : M F bool := fun h => (h, Ok (env_isfile w h path)).

(** Opening and decoding a file: [json.load] on an opened file,
    [pd.read_csv]. *)
Definition read (path : pystr) : M F R :=
  fun h =>
    match env_read w h path with
    | Some v => (h, Ok v)
    | None => (h, Raised (EnvError path))
    end.

(** [os.makedirs(name, exist_ok=True)]; the empty name is never a
    directory. *)
Definition makedirs (name : pystr) : M F unit :=
  fun h =>
    match name with
    | [] => (h, Raised (FileNotFoundError (py "[Errno 2] No such file or directory: ''")))
    | _ :: _ =>
      if env_makedirs w h name then (h ++ [Makedirs name], Ok tt)
      else (h, Raised (EnvError name))
    end.

(** [df.to_csv(path, index=False, encoding="utf-8")] *)
Definition to_csv (path : pystr) (df : F) : M F unit :=
  fun h =>
    if env_to_csv w h path df then (h ++ [ToCsv path df], Ok tt)
    else (h, Raised (EnvError path)).

(** [print(line)] *)
Definition print (line : pystr) : M F unit := emit (Print line).

End calls.

End Os.

Import Os.

(** ** src/data_cleaning.py *)

Module data_cleaning.

(** The first code point of a literal. *)
Definition chr (s : string) : char := hd 0 (py s).

Definition _CURRENCY_MAP : list (pystr * pystr) :=
  [(py "€", py "EUR"); (py "$", py "USD"); (py "₹", py "INR"); (py "£", py "GBP")].

(** [d.get(k)] *)
Fixpoint dict_get (d : list (pystr * pystr)) (k : pystr) : option pystr :=
  match d with
  | [] => None
  | (k', v) :: d' => if str_eqb k' k then Some v else dict_get d' k
  end.

(** [\s+] *)
Definition ws_re : regex := Plus (Class is_space).

Definition clean_spaces (x : value) : pystr :=
  if is_missing x then []
  else strip (sub ws_re (py " ") (py_str x)).

(** [\b(USD|EUR|INR|GBP|AED|SGD|AUD|CAD|JPY|CNY)\b] under [re.I] *)
Definition code_re : regex :=
  Seq WordB
    (Seq (Group "1"
            (AltL [StrI (py "USD"); StrI (py "EUR"); StrI (py "INR"); StrI (py "GBP");
                   StrI (py "AED"); StrI (py "SGD"); StrI (py "AUD"); StrI (py "CAD");
                   StrI (py "JPY")]
                  (StrI (py "CNY"))))
         WordB).

(** [[€$₹£]] *)
Definition symbol_re : regex := OneOf (py "€$₹£").

Definition sign_re : regex := Opt (OneOf (py "-+")).     (* [-+]? *)
Definition d_re : regex := Class is_digit.               (* \d *)
Definition d3_re : regex := Seq d_re (Seq d_re d_re).    (* \d{3} *)
Definition d1_3_re : regex :=                            (* \d{1,3} *)
  Seq d_re (Opt (Seq d_re (Opt d_re))).
Definition frac_re : regex :=                            (* (?:\.\d+)? *)
  Opt (Seq (Chr (chr ".")) (Plus d_re)).

(** [[-+]?\d{1,3}(?:,\d{3})*(?:\.\d+)?] *)
Definition grouped_re : regex :=
  Seq sign_re (Seq d1_3_re (Seq (Star (Seq (Chr (chr ",")) d3_re)) frac_re)).

(** [[-+]?\d+(?:\.\d+)?] *)
Definition plain_re : regex := Seq sign_re (Seq (Plus d_re) frac_re).

Definition num_re : regex := Alt grouped_re plain_re.

(** [\(\s*-\s*\)] *)
Definition paren_minus_re : regex :=
  Seq (Chr (chr "("))
    (Seq (Star (Class is_space))
       (Seq (Chr (chr "-")) (Seq (Star (Class is_space)) (Chr (chr ")"))))).

(** [m.group(1)] *)
Definition group (name : string) (m : match_obj) : pystr :=
  match find (fun kv => String.eqb (fst kv) name) (groups m) with
  | Some kv => snd kv
  | None => []
  end.

Definition is_match (m : option match_obj) : bool :=
  match m with Some _ => true | None => false end.

(** The test of the discount policy on the normalised text. *)
Definition discount_marked (t : pystr) : bool :=
  contains (upper t) (py "DISCOUNT") || contains t (py "(-)")
  || is_match (search paren_minus_re t).

Definition detect_currency (t : pystr) : option pystr :=
  match search code_re t with
  | Some code => Some (upper (group "1" code))
  | None =>
    match search symbol_re t with
    | Some symbol => dict_get _CURRENCY_MAP (group0 symbol)
    | None => None
    end
  end.

Definition parse_amount_and_currency (text : value) : option float * option pystr :=
  if is_missing text then (None, None)
  else
    let t := clean_spaces text in
    match t with
    | [] => (None, None)
    | _ :: _ =>
      let currency := detect_currency t in
      let nums := findall num_re t in
      match last nums with
      | None => (None, currency)
      | Some tok =>
        match py_float (remove_char (chr ",") tok) with
        | None => (None, currency)
        | Some amount =>
          let amount := if discount_marked t then fneg (fabs amount) else amount in
          (Some amount, currency)
        end
      end
    end.

(** *** [datetime.strptime] and [strftime] *)

Record date : Type := mkDate { year : N; month : N; day : N }.

Definition is_leap (y : N) : bool :=
  ((y mod 4 =? 0) && negb (y mod 100 =? 0)) || (y mod 400 =? 0).

Definition days_in_month (y m : N) : N :=
  match m with
  | 2 => if is_leap y then 29 else 28
  | 4 | 6 | 9 | 11 => 30
  | _ => 31
  end.

(** The check of the [date] constructor. *)
Definition valid_date (d : date) : bool :=
  (1 <=? year d) && (year d <=? 9999) && (1 <=? month d) && (month d <=? 12)
  && (1 <=? day d) && (day d <=? days_in_month (year d) (month d)).

Definition a_month : list pystr :=
  map py ["jan"; "feb"; "mar"; "apr"; "may"; "jun";
          "jul"; "aug"; "sep"; "oct"; "nov"; "dec"]%string.

Definition f_month : list pystr :=
  map py ["january"; "february"; "march"; "april"; "may"; "june"; "july";
          "august"; "september"; "october"; "november"; "december"]%string.

(** [names.index(x) + 1], or [None] *)
Fixpoint index1 (names : list pystr) (x : pystr) : option N :=
  match names with
  | [] => None
  | n :: rest => if str_eqb n x then Some 1 else option_map N.succ (index1 rest x)
  end.

(** Names as alternatives; the caller lists them longest first, as
    [_strptime] does. *)
Definition names_re (names : list pystr) : regex :=
  match rev names with
  | [] => Eps
  | l :: rinit => AltL (map StrI (rev rinit)) (StrI l)
  end.

Definition digit_range (lo hi : string) : regex := Range (chr lo) (chr hi).

(** The pattern of one directive, as in [_strptime.TimeRE]. *)
Definition directive_re (d : char) : option regex :=
  if char_eqb d (chr "d") then
    (* 3[0-1]|[1-2]\d|0[1-9]|[1-9]| [1-9] *)
    Some (Group "d"
      (AltL [Seq (Chr (chr "3")) (digit_range "0" "1");
             Seq (digit_range "1" "2") d_re;
             Seq (Chr (chr "0")) (digit_range "1" "9");
             digit_range "1" "9"]
            (Seq (Chr (chr " ")) (digit_range "1" "9"))))
  else if char_eqb d (chr "m") then
    (* 1[0-2]|0[1-9]|[1-9] *)
    Some (Group "m"
      (AltL [Seq (Chr (chr "1")) (digit_range "0" "2");
             Seq (Chr (chr "0")) (digit_range "1" "9")]
            (digit_range "1" "9")))
  else if char_eqb d (chr "Y") then
    (* \d\d\d\d *)
    Some (Group "Y" (Seq d_re (Seq d_re (Seq d_re d_re))))
  else if char_eqb d (chr "b") then
    Some (Group "b" (names_re a_month))
  else if char_eqb d (chr "B") then
    Some (Group "B"
      (names_re (map py ["september"; "february"; "november"; "december";
                         "january"; "october"; "august"; "march"; "april";
                         "june"; "july"; "may"]%string)))
  else None.

(** The pattern of a format: directives replaced, other characters
    literal; compiled under [re.IGNORECASE]. The formats of this
    program contain no blank and no directive other than d, m, Y, b, B;
    [None] is the [ValueError] of an unknown directive. *)
Fixpoint format_re (f : pystr) : option regex :=
  match f with
  | [] => Some Eps
  | c :: f' =>
    if char_eqb c (chr "%") then
      match f' with
      | d :: f'' =>
        match directive_re d, format_re f'' with
        | Some r1, Some r2 => Some (Seq r1 r2)
        | _, _ => None
        end
      | [] => None
      end
    else option_map (Seq (ChrI c)) (format_re f')
  end.

(** [int(s)] on the digits captured by a directive, of any script (a
    leading blank of [%d] is skipped, as [int] does). *)
Definition int_of (s : pystr) : N := int_of_digits (lstrip (ascii_decimal s)).

Definition has_group (name : string) (m : match_obj) : bool :=
  existsb (fun kv => String.eqb (fst kv) name) (groups m).

Definition month_of (m : match_obj) : option N :=
  if has_group "m" m then Some (int_of (group "m" m))
  else if has_group "B" m then index1 f_month (lower (group "B" m))
  else if has_group "b" m then index1 a_month (lower (group "b" m))
  else Some 1.

(** [datetime.strptime(s, f)]: the pattern must match at the start and
    leave nothing unconverted, and the fields must form a date. *)
Definition strptime (s f : pystr) : option date :=
  match format_re f with
  | None => None
  | Some r =>
    match match_ r s with
    | None => None
    | Some (st', m) =>
      match post st', month_of m with
      | [], Some mo =>
        let d := mkDate (if has_group "Y" m then int_of (group "Y" m) else 1900)
                        mo
                        (if has_group "d" m then int_of (group "d" m) else 1) in
        if valid_date d then Some d else None
      | _, _ => None
      end
    end
  end.

Definition digit_char (n : N) : char := 48 + n mod 10.

Definition two_digits (n : N) : pystr := [digit_char (n / 10); digit_char n].

(** [d.strftime("%Y-%m-%d")]: [%Y] is the year as the C library of
    Linux writes it, a decimal number without zero fill, so a year
    below 1000 has fewer than four digits; [%m] and [%d] have two
    digits. *)
Definition strftime_iso (d : date) : pystr :=
  str_N (year d) ++ py "-" ++ two_digits (month d) ++ py "-" ++ two_digits (day d).

Definition formats : list pystr :=
  map py ["%d-%b-%Y"; "%d-%B-%Y"; "%d/%m/%Y"; "%d-%m-%Y"; "%Y-%m-%d"; "%m/%d/%Y"]%string.

(** The loop over [formats]: the first format that parses wins. *)
Fixpoint try_formats (t : pystr) (fs : list pystr) : option pystr :=
  match fs with
  | [] => None
  | f :: fs' =>
    match strptime t f with
    | Some d => Some (strftime_iso d)
    | None => try_formats t fs'
    end
  end.

(** [t.split(":", 1)[1].strip()] when [":" in t], else [t] *)
Definition after_colon (t : pystr) : pystr :=
  match snd (split1 (chr ":") t) with
  | Some v => strip v
  | None => t
  end.

Definition normalize_date (text : value) : option pystr :=
  if is_missing text then None
  else
    let t := clean_spaces text in
    match t with
    | [] => None
    | _ :: _ => try_formats (after_colon t) formats
    end.

(** *** The address-block splitter *)

Record address : Type := mkAddress {
  name : option pystr;
  addr_line1 : option pystr;
  addr_line2 : option pystr;
  city_state_postal_country : option pystr;
  tel : option pystr;
  email : option pystr;
  site : option pystr;
  raw : option pystr
}.

Definition empty_address : address :=
  mkAddress None None None None None None None None.

(** [line.split(":", 1)[-1].strip() if ":" in line else line] *)
Definition contact_value (line : pystr) : pystr :=
  match snd (split1 (chr ":") line) with
  | Some v => strip v
  | None => line
  end.

(** One round of the loop over the lines. *)
Definition classify (result : address) (line : pystr) : address :=
  let low := lower line in
  if startswith low (py "tel") then
    mkAddress (name result) (addr_line1 result) (addr_line2 result)
              (city_state_postal_country result)
              (Some (contact_value line)) (email result) (site result) (raw result)
  else if startswith low (py "email") then
    mkAddress (name result) (addr_line1 result) (addr_line2 result)
              (city_state_postal_country result)
              (tel result) (Some (contact_value line)) (site result) (raw result)
  else if startswith low (py "site") || contains low (py "http")
          || startswith low (py "www") then
    mkAddress (name result) (addr_line1 result) (addr_line2 result)
              (city_state_postal_country result)
              (tel result) (email result) (Some (contact_value line)) (raw result)
  else result.

(** [l.lower().startswith(("tel", "email", "site"))] *)
Definition contact_prefixed (l : pystr) : bool :=
  existsb (startswith (lower l)) [py "tel"; py "email"; py "site"].

(** [[l.strip() for l in str(text).splitlines() if l.strip()]] *)
Definition block_lines (text : value) : list pystr :=
  map strip (List.filter (fun l => match strip l with [] => false | _ => true end)
                    (splitlines (py_str text))).

(** [[l for l in lines if not l.lower().startswith(("tel", "email", "site"))]] *)
Definition address_candidates (lines : list pystr) : list pystr :=
  List.filter (fun l => negb (contact_prefixed l)) lines.

Definition split_address_block (text : value) : address :=
  if is_missing text then empty_address
  else
    let lines := block_lines text in
    match lines with
    | [] => empty_address
    | _ :: _ =>
      let result :=
        mkAddress None None None None None None None (Some (join (py " | ") lines)) in
      let result := fold_left classify lines result in
      let addr := address_candidates lines in
      mkAddress (nth_error addr 0) (nth_error addr 1) (nth_error addr 2) (nth_error addr 3)
                (tel result) (email result) (site result) (raw result)
    end.

(** *** Frames *)

(** A [DataFrame] with the default row index: the number of rows and
    the columns, in order, each with its label. *)
Record DataFrame : Type := mkDF {
  nrows : nat;
  columns : list (string * list value)
}.

Definition labels (df : DataFrame) : list string := map fst (columns df).

(** [c in df.columns] *)
Definition has_column (df : DataFrame) (c : string) : bool :=
  existsb (String.eqb c) (labels df).

(** [df[c]] for a label that is present *)
Definition get_column (df : DataFrame) (c : string) : list value :=
  match find (fun kv => String.eqb (fst kv) c) (columns df) with
  | Some kv => snd kv
  | None => []
  end.

(** [df.drop(columns=c, inplace=True)] *)
Definition drop_column (df : DataFrame) (c : string) : DataFrame :=
  mkDF (nrows df) (List.filter (fun kv => negb (String.eqb (fst kv) c)) (columns df)).

(** [df[c] = vals]: in place for a label that is present, a new last
    column otherwise. *)
Definition set_column (df : DataFrame) (c : string) (vals : list value) : DataFrame :=
  if has_column df c
  then mkDF (nrows df)
            (map (fun kv => if String.eqb (fst kv) c then (c, vals) else kv) (columns df))
  else mkDF (nrows df) (columns df ++ [(c, vals)]).

(** [df[c] = None] *)
Definition set_column_none (df : DataFrame) (c : string) : DataFrame :=
  set_column df c (repeat VNone (nrows df)).

(** [pd.concat([df, other], axis=1)] for frames of equal index *)
Definition concat_columns (df : DataFrame) (other : list (string * list value)) : DataFrame :=
  mkDF (nrows df) (columns df ++ other).

Definition amount_map : list (string * string) :=
  [("TOTAL", "TOTAL_AMOUNT"); ("SUB_TOTAL", "SUB_TOTAL_AMOUNT");
   ("TAX", "TAX_AMOUNT"); ("DISCOUNT", "DISCOUNT_AMOUNT")]%string.

(** One round of the loop over [amount_map.items()]. *)
Definition amount_step (acc : DataFrame * list (list value)) (st : string * string)
  : DataFrame * list (list value) :=
  let '(df, currency_series) := acc in
  let '(src, tgt) := st in
  if has_column df src then
    let parsed := map parse_amount_and_currency (get_column df src) in
    (set_column df tgt (map (fun x => of_amount (fst x)) parsed),
     currency_series ++ [map (fun x => of_text (snd x)) parsed])
  else (set_column_none df tgt, currency_series).

Definition coalesce (a b : value) : value := if is_missing a then b else a.

(** [pd.concat(series, axis=1).bfill(axis=1).iloc[:, 0]]: per row, the
    first value that is not missing, from left to right. *)
Fixpoint bfill_first (series : list (list value)) : list value :=
  match series with
  | [] => []
  | s :: rest =>
    match rest with
    | [] => s
    | _ :: _ => zip_with coalesce s (bfill_first rest)
    end
  end.

Definition address_fields : list (string * (address -> option pystr)) :=
  [("name", name); ("addr_line1", addr_line1); ("addr_line2", addr_line2);
   ("city_state_postal_country", city_state_postal_country);
   ("tel", tel); ("email", email); ("site", site); ("raw", raw)]%string.

(** [pd.json_normalize(records).add_prefix(prefix)]: one column per
    key of the records; no column at all for an empty sequence. *)
Definition json_normalize (records : list address) (prefix : string)
  : list (string * list value) :=
  match records with
  | [] => []
  | _ :: _ =>
    map (fun kf => (String.append prefix (fst kf), map (fun r => of_text (snd kf r)) records))
        address_fields
  end.

Fixpoint insert_sorted (x : string) (l : list string) : list string :=
  match l with
  | [] => [x]
  | y :: l' => if String.leb x y then x :: l else y :: insert_sorted x l'
  end.

(** [sorted(names)] *)
Definition sorted (names : list string) : list string :=
  fold_right insert_sorted [] names.

Fixpoint distinct (l : list string) : bool :=
  match l with
  | [] => true
  | x :: l' => negb (existsb (String.eqb x) l') && distinct l'
  end.

(** [df.reindex(sorted(df.columns), axis=1)]; [None] is the
    [ValueError] pandas raises for duplicate labels. *)
Definition reindex_sorted (df : DataFrame) : option DataFrame :=
  if distinct (labels df)
  then Some (mkDF (nrows df) (map (fun c => (c, get_column df c)) (sorted (labels df))))
  else None.

Definition add_date (src tgt : string) (df : DataFrame) : DataFrame :=
  if has_column df src
  then set_column df tgt (map (fun v => of_text (normalize_date v)) (get_column df src))
  else df.

Definition add_address (src prefix : string) (df : DataFrame) : DataFrame :=
  if has_column df src
  then concat_columns df (json_normalize (map split_address_block (get_column df src)) prefix)
  else df.

Definition clean_template_df (df : DataFrame) : option DataFrame :=
  (* Drop noisy columns *)
  let df := fold_left (fun d col => if has_column d col then drop_column d col else d)
                      ["OTHER"; "LOGO"]%string df in
  (* Amount parsing + currency *)
  let '(df, currency_series) := fold_left amount_step amount_map (df, []) in
  let df :=
    match currency_series with
    | _ :: _ => set_column df "CURRENCY" (bfill_first currency_series)
    | [] => set_column_none df "CURRENCY"
    end in
  (* Date normalization *)
  let df := add_date "DATE" "DATE_NORM" df in
  let df := add_date "DUE_DATE" "DUE_DATE_NORM" df in
  (* Address parsing *)
  let df := add_address "BUYER" "BUYER_" df in
  let df := add_address "SELLER_ADDRESS" "SELLER_" df in
  reindex_sorted df.

(** *** The main execution *)

Definition RAW_DIR : pystr :=
  path_join (path_join (path_join (py "../") (py "data")) (py "csv_files")) (py "raw_data").

Definition CLEAN_DIR : pystr :=
  path_join (path_join (path_join (py "../") (py "data")) (py "csv_files")) (py "cleaned_data").

Section main.

(** The environment: frames are written, and [pd.read_csv] reads
    frames. *)
Variable w : env DataFrame DataFrame.

(** The body of the loop of [main], for the indices still to come. *)
Fixpoint main_loop (indices : list N) : M DataFrame unit :=
  match indices with
  | [] => mret tt
  | i :: rest =>
    let raw_path := path_join RAW_DIR (py "template" ++ str_N i ++ py ".csv") in
    let out_path := path_join CLEAN_DIR (py "template" ++ str_N i ++ py "_clean.csv") in
    present ← isfile w raw_path;
    if negb present then main_loop rest
    else
      df ← read w raw_path;
      match clean_template_df df with
      | None => raise (ValueError (py "cannot reindex on an axis with duplicate labels"))
      | Some clean_df => to_csv w out_path clean_df;; main_loop rest
      end
  end.

Definition main : M DataFrame unit :=
  makedirs w CLEAN_DIR;; main_loop [1; 2; 3; 4; 5].

End main.

End data_cleaning.

Import data_cleaning.

(** ** src/json_to_csv.py *)

Module json_to_csv.

(** A decoded JSON document. *)
Inductive json : Type :=
| JNull
| JBool (b : bool)
| JInt (z : Z)
| JFloat (x : float)
| JStr (s : pystr)
| JArr (l : list json)
| JObj (o : gmap string json).

Section flatten.

(** What [str] prints for a list; it depends on the [repr] of the
    elements, which is not needed here. *)
Variable str_list : list json -> pystr.

(** [str(value)] for a value that is not a [dict] *)
Definition str_json (v : json) : pystr :=
  match v with
  | JNull => py "None"
  | JBool true => py "True"
  | JBool false => py "False"
  | JInt z => str_Z z
  | JFloat x => float_repr x
  | JStr s => s
  | JArr l => str_list l
  | JObj _ => []
  end.

(** The body of the loop: the value stored under [key]. *)
Definition flat_value (v : json) : json :=
  match v with
  | JObj o =>
    match o !! "text"%string with
    | Some t => t
    | None => JStr []
    end
  | _ => JStr (str_json v)
  end.

Definition extract_text_fields (invoice_json : gmap string json) : gmap string json :=
  map_fold (fun key v flat => <[key := flat_value v]> flat) ∅ invoice_json.

End flatten.

(** *** From the folders of records to CSV files *)

(** A frame built from rows: its column labels, in order, and the
    rows; a cell is the row's value under the column's label, and it
    is missing where the row has no such key. *)
Record table : Type := mkTable {
  t_columns : list string;
  t_rows : list (gmap string json)
}.

(** [pd.DataFrame(rows)] reindexed by [sorted(df.columns)]: one
    column per key of some row. *)
Definition frame_of_rows (rows : list (gmap string json)) : table :=
  mkTable (sorted (elements (⋃ (dom <$> rows) : gset string))) rows.

(** [type(v)], as an f-string prints it *)
Definition type_repr (v : json) : pystr :=
  py "<class '"
  ++ match v with
     | JNull => py "NoneType"
     | JBool _ => py "bool"
     | JInt _ => py "int"
     | JFloat _ => py "float"
     | JStr _ => py "str"
     | JArr _ => py "list"
     | JObj _ => py "dict"
     end
  ++ py "'>".

Section drivers.

Variable str_list : list json -> pystr.

(** The environment: tables are written, and [json.load] reads JSON
    documents. *)
Variable w : env table json.

(** The loop over [json_paths]; [rows] are the rows so far. *)
Fixpoint read_rows (include_source_filename : bool) (json_paths : list pystr)
    (rows : list (gmap string json)) : M table (list (gmap string json)) :=
  match json_paths with
  | [] => mret rows
  | path :: rest =>
    invoice ← read w path;
    match invoice with
    | JObj o =>
      let row := extract_text_fields str_list o in
      let row := if include_source_filename
                 then <["_source_file"%string := JStr (basename path)]> row
                 else row in
      read_rows include_source_filename rest (rows ++ [row])
    | _ =>
      raise (ValueError (py "Expected top-level dict (A1), got " ++ type_repr invoice
                         ++ py " in: " ++ path))
    end
  end.

Definition template_folder_to_csv (template_folder output_csv_path pattern : pystr)
    (include_source_filename : bool) : M table unit :=
  paths ← glob_glob w (path_join template_folder pattern);
  let json_paths := sorted_str paths in
  match json_paths with
  | [] => print (py "[SKIP] No JSON files found in: " ++ template_folder)
  | _ :: _ =>
    rows ← read_rows include_source_filename json_paths [];
    let df := frame_of_rows rows in
    makedirs w (dirname output_csv_path);;
    to_csv w output_csv_path df;;
    print (py "[OK] " ++ basename template_folder ++ py " → "
           ++ str_N (N.of_nat (length (t_rows df))) ++ py " rows × "
           ++ str_N (N.of_nat (length (t_columns df))) ++ py " cols → "
           ++ output_csv_path)
  end.

(** [d for d in paths if os.path.isdir(d)] *)
Fixpoint only_dirs (paths : list pystr) : M table (list pystr) :=
  match paths with
  | [] => mret []
  | d :: rest =>
    b ← isdir w d;
    dirs ← only_dirs rest;
    mret (if (b : bool) then d :: dirs else dirs)
  end.

(** The loop over [template_dirs]. *)
Fixpoint each_template (output_folder json_pattern : pystr) (include_source_filename : bool)
    (template_dirs : list pystr) : M table unit :=
  match template_dirs with
  | [] => mret tt
  | template_path :: rest =>
    let template_name := basename template_path in
    let output_csv_path := path_join output_folder (template_name ++ py ".csv") in
    template_folder_to_csv template_path output_csv_path json_pattern
                           include_source_filename;;
    each_template output_folder json_pattern include_source_filename rest
  end.

Definition json_templates_to_csv (base_folder output_folder template_glob json_pattern : pystr)
    (include_source_filename : bool) : M table unit :=
  makedirs w output_folder;;
  paths ← glob_glob w (path_join base_folder template_glob);
  dirs ← only_dirs paths;
  let template_dirs := sorted_str dirs in
  match template_dirs with
  | [] =>
    raise (FileNotFoundError (py "No template folders matching '" ++ template_glob
                              ++ py "' found under: " ++ base_folder))
  | _ :: _ => each_template output_folder json_pattern include_source_filename template_dirs
  end.

End drivers.

End json_to_csv.

Import json_to_csv.

(** * Vocabulary of the properties *)

(** ** Texts *)

(** The [n] numbers from [lo] on. *)
Definition N_range (lo n : N) : list N :=
  map (fun i => lo + N.of_nat i) (seq 0 (N.to_nat n)).

(** The line feed, for block literals. *)
Definition LF : pystr := [10%N].

(** The leading white space of a text. *)
Fixpoint ws_prefix (s : pystr) : pystr :=
  match s with
  | c :: s' => if is_space c then c :: ws_prefix s' else []
  | [] => []
  end.

(** Every run of white space replaced by one blank; [in_run] tells
    that the text read so far ends in white space. *)
Fixpoint squeeze (s : pystr) (in_run : bool) : pystr :=
  match s with
  | [] => []
  | c :: s' =>
    if is_space c then (if in_run then squeeze s' true else 32 :: squeeze s' true)
    else c :: squeeze s' false
  end.

(** White space occurs in [s] only as single blanks, and not at the
    start when [prev_space] is set. *)
Fixpoint single_blanks (s : pystr) (prev_space : bool) : bool :=
  match s with
  | [] => true
  | c :: s' =>
    if is_space c then negb prev_space && (c =? 32) && single_blanks s' true
    else single_blanks s' false
  end.

(** A text in normal form: no white space at either end, and inside
    only single blanks. *)
Definition normalised (s : pystr) : bool :=
  single_blanks s true
  && match last s with Some c => negb (is_space c) | None => true end.

(** The characters of a text that are not white space. *)
Definition visible (s : pystr) : pystr := List.filter (fun c => negb (is_space c)) s.

(** The text at a position does not start with a digit. *)
Definition no_digit_head (st : state) : Prop :=
  match post st with
  | c :: _ => is_digit c = false
  | [] => True
  end.

(** A parenthesised minus sign, white space allowed inside. *)
Definition paren_minus (w1 w2 : pystr) : pystr :=
  chr "(" :: w1 ++ chr "-" :: w2 ++ [chr ")"].

(** The text contains a parenthesised minus sign with optional
    white space inside. *)
Definition has_paren_minus (s : pystr) : Prop :=
  ∃ a b w1 w2 : pystr,
    s = a ++ paren_minus w1 w2 ++ b
    ∧ Forall (fun c => is_space c = true) w1 ∧ Forall (fun c => is_space c = true) w2.

(** [p] is in [s], whatever the case of the letters. *)
Definition contains_ci (s p : pystr) : bool := contains (lower s) (lower p).

(** What marks a text as a discount. *)
Definition discount_text (s : pystr) : Prop :=
  contains_ci s (py "discount") = true ∨ contains s (py "(-)") = true ∨ has_paren_minus s.

(** The re-stringification of a parsed pair that the specification
    speaks of (section 8): [str(amount)], then a blank and the
    currency code when there is one. The amount is printed by [str],
    hence without thousands separators. It is not part of the source. *)
Definition restringify (amount : float) (currency : option pystr) : pystr :=
  float_repr amount ++ match currency with Some c => py " " ++ c | None => [] end.

(** The ten currency codes of the pattern. *)
Definition currency_codes : list pystr :=
  map py ["USD"; "EUR"; "INR"; "GBP"; "AED"; "SGD"; "AUD"; "CAD"; "JPY"; "CNY"]%string.

(** The code points that a literal [c] of the ASCII range matches
    under [re.I]. *)
Definition ignorecase_chars (c : char) : list char :=
  let l := lower_char c in
  (if is_lower_letter l then [l; l - 32] else [l]) ++ ignorecase_also l.

(** The texts that a literal text matches under [re.I]. *)
Fixpoint ignorecase_texts (s : pystr) : list pystr :=
  match s with
  | [] => [[]]
  | c :: s' => flat_map (fun x => map (cons x) (ignorecase_texts s')) (ignorecase_chars c)
  end.

(** U+0130, the capital I with a dot above. *)
Definition dotted_I : char := 304.

(** "INR" written with U+0130 for its I. *)
Definition dotted_INR : pystr := dotted_I :: py "NR".

(** The upper case of [w] is a known code, or it is [dotted_INR] and
    [w] has the dotted capital I. *)
Definition code_ok (w : pystr) : bool :=
  existsb (str_eqb (upper w)) currency_codes
  || (str_eqb (upper w) dotted_INR && existsb (N.eqb dotted_I) w).

(** ** Patterns *)

(** The language of a pattern: the texts it can consume, positions
    and captures left aside. *)
Fixpoint lang (r : regex) (w : pystr) : Prop :=
  match r with
  | Eps => w = []
  | Class p => ∃ c, w = [c] ∧ p c = true
  | Seq r1 r2 => ∃ a b, w = a ++ b ∧ lang r1 a ∧ lang r2 b
  | Alt r1 r2 => lang r1 w ∨ lang r2 w
  | Star r1 => ∃ ws, w = concat ws ∧ Forall (lang r1) ws
  | WordB => w = []
  | Group _ r1 => lang r1 w
  end.

(** From [st] the matcher reaches [st'] by reading [w]. *)
Definition reads (st st' : state) (w : pystr) : Prop :=
  post st = w ++ post st' ∧ pre st' = rev w ++ pre st.

(** The pattern has no [\b]. *)
Fixpoint wordb_free (r : regex) : bool :=
  match r with
  | Eps | Class _ => true
  | Seq r1 r2 | Alt r1 r2 => wordb_free r1 && wordb_free r2
  | Star r1 | Group _ r1 => wordb_free r1
  | WordB => false
  end.

(** The position [st] seen after a longer history: more text before
    it, and earlier captures. *)
Definition lift (p : pystr) (c : list (string * pystr)) (st : state) : state :=
  mkState (pre st ++ p) (post st) (caps st ++ c).

(** ** Floats *)

(** Not a number. *)
Definition is_nan (x : float) : bool :=
  match x with S754_nan => true | _ => false end.

(** One of the two zeros, [0.0] and [-0.0]. *)
Definition is_zero (x : float) : bool :=
  match x with S754_zero _ => true | _ => false end.

(** ** Dates *)

(** A year written with four digits. *)
Definition four_digits (n : N) : pystr :=
  [digit_char (n / 1000); digit_char (n / 100); digit_char (n / 10); digit_char n].

(** [s] is the ISO form YYYY-MM-DD of the date [d]. *)
Definition iso_of (d : date) (s : pystr) : Prop :=
  ∃ y m dd : pystr,
    s = y ++ py "-" ++ m ++ py "-" ++ dd
    ∧ length y = 4%nat ∧ length m = 2%nat ∧ length dd = 2%nat
    ∧ forallb is_ascii_digit (y ++ m ++ dd) = true
    ∧ int_of_digits y = year d ∧ int_of_digits m = month d ∧ int_of_digits dd = day d.

(** The pattern of a directive of this program. *)
Definition dir (d : string) : regex :=
  match directive_re (chr d) with Some r => r | None => Eps end.

(** What follows the year in an ISO date. *)
Definition iso_tail (mo dy : N) : pystr := 45 :: two_digits mo ++ 45 :: two_digits dy.

(** The pattern of ["-%m-%d"]. *)
Definition iso_tail_re : regex :=
  Seq (ChrI 45) (Seq (dir "m") (Seq (ChrI 45) (Seq (dir "d") Eps))).

(** On the tail of the ISO date of month [mo] and day [dy] the first
    match of [iso_tail_re] reads all of it and captures the two
    fields. *)
Definition iso_tail_ok (mo dy : N) : bool :=
  bool_decide (head (map (fun st => (post st, caps st))
                         (run iso_tail_re (mkState [] (iso_tail mo dy) [])))
               = Some ([], [("d"%string, two_digits dy); ("m"%string, two_digits mo)])).

Definition months : list N := [1; 2; 3; 4; 5; 6; 7; 8; 9; 10; 11; 12].

Definition days : list N :=
  [1; 2; 3; 4; 5; 6; 7; 8; 9; 10; 11; 12; 13; 14; 15; 16; 17; 18; 19; 20;
   21; 22; 23; 24; 25; 26; 27; 28; 29; 30; 31].

(** Whatever the case, the first letter of a name is matched by
    letters only. *)
Definition letter_head (name : pystr) : bool :=
  match name with
  | c :: _ => forallb (fun x => 65 <=? x) (ignorecase_chars c)
  | [] => false
  end.

(** ** Address blocks *)

(** The lines that start with "tel", whatever the case. *)
Definition tel_lines (lines : list pystr) : list pystr :=
  List.filter (fun l => startswith (lower l) (py "tel")) lines.

(** The block of the specification's example. *)
Definition acme_block : pystr :=
  py "Acme Corp" ++ LF ++ py "123 Main St" ++ LF ++ py "Tel: 555-1234" ++ LF
  ++ py "Email: a@acme.com".

(** The lines that start with "email", whatever the case. *)
Definition email_lines (lines : list pystr) : list pystr :=
  List.filter (fun l => startswith (lower l) (py "email")) lines.

(** The lines taken for a site: they start with "site" or "www" or
    contain "http", whatever the case, and are not taken for a
    telephone or an e-mail. *)
Definition site_lines (lines : list pystr) : list pystr :=
  List.filter (fun l => negb (startswith (lower l) (py "tel"))
                        && negb (startswith (lower l) (py "email"))
                        && (startswith (lower l) (py "site") || contains (lower l) (py "http")
                            || startswith (lower l) (py "www")))
              lines.

(** A block with a telephone line that contains "http", a site, a
    line that does not start with "email", and an e-mail. *)
Definition contact_block : value :=
  VStr (py "Tel: http://a" ++ LF ++ py "WWW.ACME.COM" ++ LF
        ++ py "E-mail: x@y" ++ LF ++ py "Email : b@c").

(** ** Frames *)

(** The column stored under a label, if any (the first one, should a
    label occur twice). *)
Definition lookup_col (df : DataFrame) (c : string) : option (list value) :=
  option_map snd (find (fun kv => String.eqb (fst kv) c) (columns df)).

(** Every column has one entry per row. *)
Definition columns_wf (df : DataFrame) : Prop :=
  Forall (fun kv => length (snd kv) = nrows df) (columns df).

(** The amount column derived from one monetary source. *)
Definition amount_column (df : DataFrame) (src : string) : list value :=
  if has_column df src
  then map (fun v => of_amount (fst (parse_amount_and_currency v))) (get_column df src)
  else repeat VNone (nrows df).

(** The currency guesses of one monetary source: one series when the
    source is present, none otherwise. *)
Definition currency_guesses (df : DataFrame) (src : string) : list (list value) :=
  if has_column df src
  then [map (fun v => of_text (snd (parse_amount_and_currency v))) (get_column df src)]
  else [].

(** Two frames with the same rows and the same columns under the
    given labels. *)
Definition agree_on (ls : list string) (d d0 : DataFrame) : Prop :=
  nrows d = nrows d0 ∧ ∀ s, In s ls → lookup_col d s = lookup_col d0 s.

(** The CURRENCY column: the first guess that is not missing, per
    row; all missing when no monetary source is present. *)
Definition currency_column (df : DataFrame) : list value :=
  match flat_map (fun st => currency_guesses df (fst st)) amount_map with
  | [] => repeat VNone (nrows df)
  | cs => bfill_first cs
  end.

(** The normalised dates of the column [src], row by row. *)
Definition date_column (df : DataFrame) (src : string) : list value :=
  map (fun v => of_text (normalize_date v)) (get_column df src).

(** The columns an address source contributes. *)
Definition address_columns (df : DataFrame) (src prefix : string)
  : list (string * list value) :=
  if has_column df src
  then json_normalize (map split_address_block (get_column df src)) prefix
  else [].

(** The first column with the label [c] in a list of labelled columns. *)
Definition assoc (cols : list (string * list value)) (c : string) : option (list value) :=
  option_map snd (find (fun kv => String.eqb (fst kv) c) cols).

(** What the frame holds under the label [c] once the amounts, the
    currency and the dates are derived: the assigned columns first,
    then the input's own columns without the noise columns. *)
Definition derived_col (df : DataFrame) (c : string) : option (list value) :=
  if String.eqb "DUE_DATE_NORM" c && has_column df "DUE_DATE"
  then Some (date_column df "DUE_DATE")
  else if String.eqb "DATE_NORM" c && has_column df "DATE"
  then Some (date_column df "DATE")
  else if String.eqb "CURRENCY" c then Some (currency_column df)
  else if String.eqb "DISCOUNT_AMOUNT" c then Some (amount_column df "DISCOUNT")
  else if String.eqb "TAX_AMOUNT" c then Some (amount_column df "TAX")
  else if String.eqb "SUB_TOTAL_AMOUNT" c then Some (amount_column df "SUB_TOTAL")
  else if String.eqb "TOTAL_AMOUNT" c then Some (amount_column df "TOTAL")
  else if String.eqb "LOGO" c || String.eqb "OTHER" c then None
  else lookup_col df c.

(** What the cleaned frame holds under the label [c]: a derived or
    input column, else a column of the buyer's address, else a
    column of the seller's address. *)
Definition final_col (df : DataFrame) (c : string) : option (list value) :=
  match derived_col df c with
  | Some v => Some v
  | None =>
    match assoc (address_columns df "BUYER" "BUYER_") c with
    | Some v => Some v
    | None => assoc (address_columns df "SELLER_ADDRESS" "SELLER_") c
    end
  end.

(** [df.drop(columns=[col])] guarded by [col in df.columns]. *)
Definition drop_if_present (d : DataFrame) (col : string) : DataFrame :=
  if has_column d col then drop_column d col else d.

(** The frame after the amounts, the currency and the dates. *)
Definition staged (df : DataFrame) : DataFrame :=
  let df1 := fold_left drop_if_present ["OTHER"; "LOGO"]%string df in
  let df2 := fold_left (fun d' st => set_column d' (snd st) (amount_column df1 (fst st)))
                       amount_map df1 in
  let df3 := set_column df2 "CURRENCY" (currency_column df1) in
  add_date "DUE_DATE" "DUE_DATE_NORM" (add_date "DATE" "DATE_NORM" df3).

(** The frame handed to [reindex_sorted]. *)
Definition assembled (df : DataFrame) : DataFrame :=
  add_address "SELLER_ADDRESS" "SELLER_" (add_address "BUYER" "BUYER_" (staged df)).

(** The labels that an address source with the prefix [prefix] adds. *)
Definition address_labels (prefix : string) : list string :=
  map (fun kf => String.append prefix (fst kf)) address_fields.

(** An address source that contributes columns: it is present and
    the frame has a row. *)
Definition adds_address (df : DataFrame) (src : string) : bool :=
  has_column df src && negb (Nat.eqb (length (get_column df src)) 0).

(** The labels of the input are distinct, and none of them is the
    label of an address column that the pipeline is going to add. *)
Definition clash_free (df : DataFrame) : bool :=
  distinct (labels df)
  && (negb (adds_address df "BUYER")
      || forallb (fun l => negb (has_column df l)) (address_labels "BUYER_"))
  && (negb (adds_address df "SELLER_ADDRESS")
      || forallb (fun l => negb (has_column df l)) (address_labels "SELLER_")).

(** The first element that is not absent. *)
Fixpoint first_some {A : Type} (l : list (option A)) : option A :=
  match l with
  | [] => None
  | Some x :: _ => Some x
  | None :: l' => first_some l'
  end.

(** TOTAL, SUB_TOTAL, TAX, DISCOUNT, in the order of [amount_map]. *)
Definition monetary_sources : list string := map fst amount_map.

(** The currency parsed from row [i] of the source [src]; no guess
    when the frame has no such column. *)
Definition currency_guess (df : DataFrame) (i : nat) (src : string) : option pystr :=
  if has_column df src
  then match get_column df src !! i with
       | Some v => snd (parse_amount_and_currency v)
       | None => None
       end
  else None.

(** The first currency guess of row [i] over the monetary sources. *)
Definition row_currency (df : DataFrame) (i : nat) : option pystr :=
  first_some (map (currency_guess df i) monetary_sources).

(** The labels the pipeline assigns: the four amounts and the
    currency always, a normalised date when its source is present. *)
Definition assigned_labels (df : DataFrame) : list string :=
  ["TOTAL_AMOUNT"; "SUB_TOTAL_AMOUNT"; "TAX_AMOUNT"; "DISCOUNT_AMOUNT"; "CURRENCY"]%string
  ++ (if has_column df "DATE" then ["DATE_NORM"%string] else [])
  ++ (if has_column df "DUE_DATE" then ["DUE_DATE_NORM"%string] else []).

(** Every label is at most the one that follows it. *)
Fixpoint ascending (l : list string) : bool :=
  match l with
  | [] => true
  | x :: l' =>
    match l' with
    | [] => true
    | y :: _ => String.leb x y && ascending l'
    end
  end.

(** A frame of two rows with two monetary sources. *)
Definition frame_two_rows : DataFrame :=
  mkDF 2 [("TOTAL"%string, [VStr (py "USD 1,234.56"); VStr (py "12")]);
          ("DISCOUNT"%string, [VStr (py "(-) 5 €"); VStr (py "3 GBP")])].

(** A frame of one row whose only column is none of the sources. *)
Definition frame_X : DataFrame := mkDF 1 [("X"%string, [VInt 1])].

(** A frame of one row that already has a CURRENCY column. *)
Definition frame_with_currency : DataFrame :=
  mkDF 1 [("CURRENCY"%string, [VStr (py "x")])].

(** A frame with a noise column and a column of its own. *)
Definition frame_with_logo : DataFrame :=
  mkDF 1 [("LOGO"%string, [VStr (py "l")]); ("NOTE"%string, [VStr (py "n")])].

(** A frame in which the BUYER column has a row and a column already
    bears the label of one of the buyer's address fields. *)
Definition frame_buyer_clash : DataFrame :=
  mkDF 1 [("BUYER"%string, [VStr (py "Acme")]); ("BUYER_name"%string, [VStr (py "x")])].

(** A frame with a BUYER column of one row. *)
Definition frame_buyer : DataFrame := mkDF 1 [("BUYER"%string, [VStr (py "Acme")])].

(** ** The main execution *)

(** The raw file and the cleaned file of template [i]. *)
Definition raw_path (i : N) : pystr :=
  path_join RAW_DIR (py "template" ++ str_N i ++ py ".csv").

Definition clean_path (i : N) : pystr :=
  path_join CLEAN_DIR (py "template" ++ str_N i ++ py "_clean.csv").

(** An effect of [main]: the call of [os.makedirs] for the output
    directory, or the writing of the cleaned frame of one of the five
    templates, read from its raw file. *)
Definition main_effect (w : env DataFrame DataFrame) (ev : event DataFrame) : Prop :=
  match ev with
  | Makedirs name => name = CLEAN_DIR
  | ToCsv path clean_df =>
    ∃ (i : N) (h0 : list (event DataFrame)) (df : DataFrame),
      In i [1; 2; 3; 4; 5] ∧ path = clean_path i
      ∧ env_isfile w h0 (raw_path i) = true
      ∧ env_read w h0 (raw_path i) = Some df
      ∧ clean_template_df df = Some clean_df
  | Print _ => False
  end.

(** The raw data: only template2.csv exists; it holds [frame_two_rows]. *)
Definition env_raw : env DataFrame DataFrame :=
  mkEnv DataFrame DataFrame
    (fun _ _ => [])
    (fun _ _ => false)
    (fun _ path => str_eqb path (raw_path 2))
    (fun _ path => if str_eqb path (raw_path 2) then Some frame_two_rows else None)
    (fun _ _ => true)
    (fun _ _ _ => true).

(** No raw data at all. *)
Definition env_no_raw : env DataFrame DataFrame :=
  mkEnv DataFrame DataFrame
    (fun _ _ => []) (fun _ _ => false) (fun _ _ => false) (fun _ _ => None)
    (fun _ _ => true) (fun _ _ _ => true).

(** ** Records and tables *)

(** [isinstance(v, dict)]. *)
Definition is_dict (v : json) : bool :=
  match v with JObj _ => true | _ => false end.

(** The record of one key bound to an empty mapping. *)
Definition record_C : gmap string json := {[ "C"%string := JObj ∅ ]}.

(** The record of the specification's example:
    A is an annotation with text "foo", B is the number 5. *)
Definition record_AB : gmap string json :=
  <["A"%string := JObj (<["text"%string := JStr (py "foo")]>
                          (<["bbox"%string := JArr [JInt 0; JInt 0; JInt 1; JInt 1]]> ∅))]>
    (<["B"%string := JInt 5]> ∅).

(** The row of one record, as the loop builds it. *)
Definition row_of (str_list : list json → pystr) (include_source_filename : bool)
    (path : pystr) (o : gmap string json) : gmap string json :=
  if include_source_filename
  then <["_source_file"%string := JStr (basename path)]> (extract_text_fields str_list o)
  else extract_text_fields str_list o.

(** The message of the [ValueError] for a document that is no dict. *)
Definition not_dict_message (v : json) (path : pystr) : pystr :=
  py "Expected top-level dict (A1), got " ++ type_repr v ++ py " in: " ++ path.

(** What reading the file at [path] gives, when it fails: the
    exception raised for it. *)
Definition rejected (w : env table json) (h : list (event table)) (path : pystr) (e : exn) : Prop :=
  (env_read w h path = None ∧ e = EnvError path)
  ∨ (∃ v, env_read w h path = Some v ∧ is_dict v = false
          ∧ e = ValueError (not_dict_message v path)).

(** The line printed after a table has been written. *)
Definition ok_message (template_folder output_csv_path : pystr) (df : table) : pystr :=
  py "[OK] " ++ basename template_folder ++ py " → "
  ++ str_N (N.of_nat (length (t_rows df))) ++ py " rows × "
  ++ str_N (N.of_nat (length (t_columns df))) ++ py " cols → " ++ output_csv_path.

(** An effect of a run into [output_folder]: a call of [os.makedirs]
    for that folder or for the directory of an output file, the
    writing of the output file of a template directory, or a printed
    line. *)
Definition into_folder (output_folder : pystr) (ev : event table) : Prop :=
  match ev with
  | Makedirs name =>
    name = output_folder
    ∨ ∃ d, name = dirname (path_join output_folder (basename d ++ py ".csv"))
  | ToCsv path _ =>
    startswith path output_folder = true
    ∧ ∃ d, path = path_join output_folder (basename d ++ py ".csv")
  | Print _ => True
  end.

(** The message of [json_templates_to_csv] without template folder. *)
Definition no_template_message (template_glob base_folder : pystr) : pystr :=
  py "No template folders matching '" ++ template_glob ++ py "' found under: " ++ base_folder.

(** A stand-in for [str] on lists. *)
Definition str_list_sample : list json → pystr := fun _ => py "[...]".

(** A file tree: the folder "in" holds the template folders template1,
    with a.json (a record) and b.json (a list), and template2, with
    c.json (a record), and a file readme.txt; every directory can be
    made and every file written. *)
Definition env_sample : env table json :=
  mkEnv table json
    (fun _ pattern =>
       if str_eqb pattern (py "in/template*")
       then [py "in/template2"; py "in/readme.txt"; py "in/template1"]
       else if str_eqb pattern (py "in/template1/*.json")
       then [py "in/template1/b.json"; py "in/template1/a.json"]
       else if str_eqb pattern (py "in/template2/*.json")
       then [py "in/template2/c.json"]
       else [])
    (fun _ path => str_eqb path (py "in/template1") || str_eqb path (py "in/template2"))
    (fun _ path => false)
    (fun _ path =>
       if str_eqb path (py "in/template1/a.json") then Some (JObj record_AB)
       else if str_eqb path (py "in/template1/b.json") then Some (JArr [])
       else if str_eqb path (py "in/template2/c.json") then Some (JObj record_C)
       else None)
    (fun _ _ => true)
    (fun _ _ _ => true).

(** * Properties *)

(** ** Code points: digits, letters and their cases *)

Lemma N_range_In (lo n x : N) :
  lo <= x → x < lo + n → In x (N_range lo n).
Proof.
  intros H1 H2. unfold N_range. apply in_map_iff.
  exists (N.to_nat (x - lo)). split; [lia|]. apply in_seq. lia.
Qed.

Lemma str_eqb_eq (a b : pystr) : str_eqb a b = true → a = b.
Proof.
  revert b. induction a as [|x a IH]; intros [|y b] H; try discriminate H; [reflexivity|].
  cbn [str_eqb] in H. apply andb_prop in H. destruct H as [H1 H2].
  apply N.eqb_eq in H1. subst y. f_equal. apply IH, H2.
Qed.

Lemma decimal_zeros_bounds :
  forallb (fun z => (z =? 48) || (1632 <=? z)) decimal_zeros = true.
Proof. vm_compute. reflexivity. Qed.

Lemma in_decimal_run_bounds (c z : char) :
  in_decimal_run c z = true → z <= c ∧ c <= z + 9.
Proof.
  unfold in_decimal_run. intros H. apply andb_prop in H. destruct H as [H1 H2].
  apply N.leb_le in H1, H2. split; assumption.
Qed.

(** A decimal digit is an ASCII digit or lies beyond the Latin
    scripts. *)
Lemma digit_cases (c : char) :
  is_digit c = true → (48 <= c ∧ c <= 57) ∨ 1632 <= c.
Proof.
  unfold is_digit. intros H. apply existsb_exists in H. destruct H as (z & Hz & Hr).
  pose proof decimal_zeros_bounds as Hb. rewrite forallb_forall in Hb.
  specialize (Hb z Hz). apply in_decimal_run_bounds in Hr.
  apply orb_prop in Hb. destruct Hb as [Hb|Hb].
  - apply N.eqb_eq in Hb. subst z. left. lia.
  - apply N.leb_le in Hb. right. lia.
Qed.

Lemma is_ascii_digit_bounds (c : char) : is_ascii_digit c = true ↔ 48 <= c ∧ c <= 57.
Proof. unfold is_ascii_digit. rewrite andb_true_iff, !N.leb_le. reflexivity. Qed.

Lemma is_digit_ascii (c : char) : is_ascii_digit c = true → is_digit c = true.
Proof.
  intros H. apply is_ascii_digit_bounds in H. unfold is_digit. apply existsb_exists.
  exists 48. split; [left; reflexivity|].
  unfold in_decimal_run. apply andb_true_intro. split; apply N.leb_le; lia.
Qed.

Lemma is_digit_below_127 (c : char) : c < 127 → is_digit c = is_ascii_digit c.
Proof.
  intros Hc. destruct (is_digit c) eqn:E.
  - apply digit_cases in E. symmetry. apply is_ascii_digit_bounds. lia.
  - destruct (is_ascii_digit c) eqn:E2; [|reflexivity].
    apply is_digit_ascii in E2. congruence.
Qed.

Lemma digits_no_space :
  forallb (fun z => forallb (fun i => negb (is_space (z + i))) (N_range 0 10))
          decimal_zeros = true.
Proof. vm_compute. reflexivity. Qed.

Lemma digit_not_space (c : char) : is_digit c = true → is_space c = false.
Proof.
  unfold is_digit. intros H. apply existsb_exists in H. destruct H as (z & Hz & Hr).
  apply in_decimal_run_bounds in Hr.
  pose proof digits_no_space as Hb. rewrite forallb_forall in Hb.
  specialize (Hb z Hz). rewrite forallb_forall in Hb.
  specialize (Hb (c - z) (N_range_In 0 10 (c - z) ltac:(lia) ltac:(lia))).
  replace (z + (c - z)) with c in Hb by lia.
  apply negb_true_iff in Hb. exact Hb.
Qed.

Lemma decimal_value_digit (c : char) :
  is_digit c = true → ∃ v, decimal_value c = Some v ∧ v <= 9.
Proof.
  unfold is_digit, decimal_value.
  induction decimal_zeros as [|z l IH]; cbn [existsb find]; [discriminate|].
  destruct (in_decimal_run c z) eqn:E.
  - intros _. exists (c - z). split; [reflexivity|].
    apply in_decimal_run_bounds in E. lia.
  - exact IH.
Qed.

(** *** What [float] and [int] read *)

Lemma ascii_decimal_digit (c : char) (s : pystr) :
  is_digit c = true →
  ∃ a, is_ascii_digit a = true ∧ ascii_decimal (c :: s) = a :: ascii_decimal s.
Proof.
  intros H. cbn [ascii_decimal]. destruct (c <? 127) eqn:E.
  - exists c. split; [|reflexivity]. apply N.ltb_lt in E.
    rewrite <- (is_digit_below_127 c E). exact H.
  - rewrite (digit_not_space c H).
    destruct (decimal_value_digit c H) as (v & -> & Hv).
    exists (48 + v). split; [|reflexivity]. apply is_ascii_digit_bounds. lia.
Qed.

Lemma ascii_decimal_ascii (s : pystr) :
  Forall (fun c => c < 127) s → ascii_decimal s = s.
Proof.
  induction 1 as [|c s Hc _ IH]; [reflexivity|].
  cbn [ascii_decimal]. apply N.ltb_lt in Hc. rewrite Hc, IH. reflexivity.
Qed.

Lemma ascii_decimal_app (a b : pystr) :
  Forall (fun c => c < 127 ∨ is_digit c = true) a →
  ascii_decimal (a ++ b) = ascii_decimal a ++ ascii_decimal b.
Proof.
  induction 1 as [|c a Hc _ IH]; [reflexivity|]. cbn [app ascii_decimal].
  destruct (c <? 127) eqn:E; [rewrite IH; reflexivity|].
  destruct (is_space c); [rewrite IH; reflexivity|].
  destruct Hc as [Hc|Hc]; [apply N.ltb_lt in Hc; congruence|].
  destruct (decimal_value_digit c Hc) as (v & -> & _). rewrite IH. reflexivity.
Qed.

Lemma ascii_decimal_digits (w : pystr) :
  Forall (fun c => is_digit c = true) w →
  Forall (fun c => is_ascii_digit c = true) (ascii_decimal w)
  ∧ length (ascii_decimal w) = length w.
Proof.
  induction 1 as [|c w Hc _ [IH1 IH2]]; [split; [constructor|reflexivity]|].
  destruct (ascii_decimal_digit c w Hc) as (a & Ha & ->).
  split; [constructor; assumption|]. cbn [length]. rewrite IH2. reflexivity.
Qed.

(** *** Letters of the ASCII range *)

Lemma upper_char_letters :
  forallb (fun x => str_eqb (upper_char x) [x - 32] && str_eqb (upper_char (x - 32)) [x - 32])
          (N_range 97 26) = true.
Proof. vm_compute. reflexivity. Qed.

(** The upper case of a letter of the ASCII range is its capital. *)
Lemma upper_char_letter (x : char) :
  is_lower_letter x = true → upper_char x = [x - 32] ∧ upper_char (x - 32) = [x - 32].
Proof.
  unfold is_lower_letter. intros H. apply andb_prop in H. destruct H as [H1 H2].
  apply N.leb_le in H1, H2.
  pose proof upper_char_letters as Hb. rewrite forallb_forall in Hb.
  specialize (Hb x (N_range_In 97 26 x ltac:(lia) ltac:(lia))).
  apply andb_prop in Hb. destruct Hb as [Ha Hb].
  split; apply str_eqb_eq; assumption.
Qed.

Lemma lower_char_cases (c x : char) :
  lower_char c = x → c = x ∨ (is_lower_letter x = true ∧ c = x - 32).
Proof.
  unfold lower_char, is_upper_letter, is_lower_letter.
  destruct ((65 <=? c) && (c <=? 90)) eqn:E; intros <-; [|left; reflexivity].
  apply andb_prop in E. rewrite !N.leb_le in E. right.
  split; [apply andb_true_intro; rewrite !N.leb_le|]; lia.
Qed.

(** ** White space: [clean_spaces] without the pattern *)

Lemma ws_prefix_lstrip (s : pystr) : s = ws_prefix s ++ lstrip s.
Proof.
  induction s as [|c s IH]; simpl; [reflexivity|].
  destruct (is_space c); simpl; [f_equal; exact IH|reflexivity].
Qed.

Lemma lstrip_length (s : pystr) : (length (lstrip s) <= length s)%nat.
Proof.
  induction s as [|c s IH]; simpl; [lia|]. destruct (is_space c); simpl; lia.
Qed.

Lemma squeeze_in_run (s : pystr) : squeeze s true = squeeze (lstrip s) false.
Proof.
  induction s as [|c s IH]; simpl; [reflexivity|].
  destruct (is_space c) eqn:E; [exact IH|]. simpl. rewrite E. reflexivity.
Qed.

(** The greedy iteration of [\s] consumes the whole leading white space
    first. *)
Lemma star_space (rest pre : pystr) (cs : list (string * pystr)) :
  ∃ tl, star (run (Class is_space)) (length rest) (mkState pre rest cs)
        = mkState (rev (ws_prefix rest) ++ pre) (lstrip rest) cs :: tl.
Proof.
  revert pre. induction rest as [|c r IH]; intros pre.
  - exists []. reflexivity.
  - cbn [length star ws_prefix lstrip].
    change (run (Class is_space) (mkState pre (c :: r) cs))
      with (if is_space c then [mkState (c :: pre) r cs] else []).
    destruct (is_space c) eqn:E.
    + cbn [flat_map]. unfold advanced at 1. cbn [post length].
      assert (Hlt : (length r <? S (length r))%nat = true) by (apply Nat.ltb_lt; lia).
      rewrite Hlt. destruct (IH (c :: pre)) as [tl Htl]. rewrite Htl.
      eexists. cbn [rev app]. rewrite <- !app_assoc. reflexivity.
    + exists []. reflexivity.
Qed.

Lemma take_consumed (w r : pystr) : take (length (w ++ r) - length r) (w ++ r) = w.
Proof.
  rewrite length_app. replace (length w + length r - length r)%nat with (length w) by lia.
  apply take_app_length.
Qed.

Lemma first_match_ws_space (before rest : pystr) (c : char) :
  is_space c = true →
  ∃ st', first_match ws_re (start_at before (c :: rest))
         = Some (st', mkMatch (c :: ws_prefix rest) []).
Proof.
  intros E. unfold first_match, ws_re, Plus, start_at.
  change (run (Seq (Class is_space) (Star (Class is_space))) (mkState before (c :: rest) []))
    with (flat_map (run (Star (Class is_space)))
                   (if is_space c then [mkState (c :: before) rest []] else [])).
  rewrite E. cbn [flat_map].
  change (run (Star (Class is_space)) (mkState (c :: before) rest []))
    with (star (run (Class is_space)) (length rest) (mkState (c :: before) rest [])).
  destruct (star_space rest (c :: before) []) as [tl Htl].
  rewrite Htl. cbn [app].
  eexists. f_equal. f_equal. f_equal.
  unfold consumed. cbn [post].
  pose proof (ws_prefix_lstrip rest) as Hr.
  set (w := ws_prefix rest) in *. set (r' := lstrip rest) in *.
  clearbody w r'. subst rest.
  exact (take_consumed (c :: w) r').
Qed.

Lemma first_match_ws_other (before rest : pystr) (c : char) :
  is_space c = false → first_match ws_re (start_at before (c :: rest)) = None.
Proof.
  intros E. unfold first_match, ws_re, Plus, start_at.
  change (run (Seq (Class is_space) (Star (Class is_space))) (mkState before (c :: rest) []))
    with (flat_map (run (Star (Class is_space)))
                   (if is_space c then [mkState (c :: before) rest []] else [])).
  rewrite E. reflexivity.
Qed.

Lemma sub_from_skip (r : regex) (repl w rest before : pystr) :
  sub_from r repl before (w ++ rest) (length w) = sub_from r repl (rev w ++ before) rest 0.
Proof.
  revert before. induction w as [|c w IH]; intros before; [reflexivity|].
  cbn [length app sub_from]. rewrite IH. cbn [rev]. rewrite <- app_assoc. reflexivity.
Qed.

(** [re.sub(r"\s+", " ", s)] squeezes every run of white space. *)
Lemma sub_ws_squeeze (s before : pystr) :
  sub_from ws_re (py " ") before s 0 = squeeze s false.
Proof.
  remember (length s) as n eqn:Hn. revert s before Hn.
  induction n as [n IH] using lt_wf_ind. intros s before Hn.
  destruct s as [|c s']; [reflexivity|].
  cbn [sub_from squeeze]. destruct (is_space c) eqn:E.
  - destruct (first_match_ws_space before s' c E) as [st' Hst]. rewrite Hst.
    cbn [group0]. rewrite (ws_prefix_lstrip s') at 1. rewrite sub_from_skip.
    rewrite (IH (length (lstrip s'))); [|pose proof (lstrip_length s'); simpl in Hn; lia
                                          |reflexivity].
    rewrite squeeze_in_run. reflexivity.
  - rewrite (first_match_ws_other before s' c E).
    rewrite (IH (length s')); [reflexivity|simpl in Hn; lia|reflexivity].
Qed.

Lemma clean_spaces_squeeze (x : value) :
  is_missing x = false → clean_spaces x = strip (squeeze (py_str x) false).
Proof.
  intros H. unfold clean_spaces, sub. rewrite H, sub_ws_squeeze. reflexivity.
Qed.

(** ** White space: the normal form of [clean_spaces] *)

Lemma single_blanks_squeeze (s : pystr) (f : bool) : single_blanks (squeeze s f) f = true.
Proof.
  revert f. induction s as [|c s IH]; intros f; [reflexivity|].
  cbn [squeeze]. destruct (is_space c) eqn:Hc.
  - destruct f; [apply IH|]. cbn [single_blanks].
    change (is_space 32) with true. cbn. apply IH.
  - cbn [single_blanks]. rewrite Hc. apply IH.
Qed.

Lemma squeeze_single_blanks (s : pystr) (f : bool) :
  single_blanks s f = true → squeeze s f = s.
Proof.
  revert f. induction s as [|c s IH]; intros f H; [reflexivity|].
  cbn [single_blanks squeeze] in *. destruct (is_space c) eqn:Hc.
  - apply andb_prop in H. destruct H as [H H2]. apply andb_prop in H. destruct H as [Hf H1].
    destruct f; [discriminate|]. apply N.eqb_eq in H1. subst c.
    f_equal. apply IH, H2.
  - f_equal. apply IH, H.
Qed.

Lemma single_blanks_weaken (s : pystr) (f : bool) :
  single_blanks s true = true → single_blanks s f = true.
Proof.
  destruct s as [|c s]; [reflexivity|]. cbn [single_blanks].
  destruct (is_space c); [discriminate|]. intros H; exact H.
Qed.

Lemma single_blanks_lstrip (s : pystr) (f : bool) :
  single_blanks s f = true → single_blanks (lstrip s) true = true.
Proof.
  destruct s as [|c s]; [reflexivity|]. cbn [single_blanks lstrip].
  destruct (is_space c) eqn:Hc.
  - intros H. apply andb_prop in H. destruct H as [_ H].
    destruct s as [|d s]; [reflexivity|]. cbn [single_blanks lstrip] in *.
    destruct (is_space d) eqn:Hd; [discriminate|]. cbn [single_blanks]. rewrite Hd. exact H.
  - intros H. cbn [single_blanks]. rewrite Hc. exact H.
Qed.

Lemma single_blanks_prefix (a b : pystr) (f : bool) :
  single_blanks (a ++ b) f = true → single_blanks a f = true.
Proof.
  revert f. induction a as [|c a IH]; intros f H; [reflexivity|].
  cbn [app single_blanks] in *. destruct (is_space c).
  - apply andb_prop in H. destruct H as [H H2]. rewrite H. apply (IH _ H2).
  - apply (IH _ H).
Qed.

Lemma lstrip_app (a b : pystr) :
  lstrip (a ++ b) = match lstrip a with [] => lstrip b | _ => lstrip a ++ b end.
Proof.
  induction a as [|c a IH]; [reflexivity|].
  cbn [app lstrip]. destruct (is_space c); [exact IH|reflexivity].
Qed.

(** [rstrip] drops a suffix of white space. *)
Lemma rstrip_suffix (s : pystr) :
  ∃ w, s = rstrip s ++ w ∧ Forall (fun c => is_space c = true) w.
Proof.
  unfold rstrip. exists (rev (ws_prefix (rev s))). split.
  - rewrite <- rev_app_distr, <- ws_prefix_lstrip, rev_involutive. reflexivity.
  - apply Forall_rev. generalize (rev s). intros l.
    induction l as [|c l IH]; [constructor|]. cbn [ws_prefix].
    destruct (is_space c) eqn:Hc; constructor; assumption.
Qed.

Lemma lstrip_head (s : pystr) :
  match lstrip s with c :: _ => is_space c = false | [] => True end.
Proof.
  induction s as [|c s IH]; [exact I|]. cbn [lstrip].
  destruct (is_space c) eqn:Hc; [exact IH|exact Hc].
Qed.

Lemma last_rev {A : Type} (l : list A) : last (rev l) = head l.
Proof.
  destruct l as [|x l]; [reflexivity|]. cbn [rev]. apply last_snoc.
Qed.

Lemma rstrip_last (s : pystr) :
  match last (rstrip s) with Some c => negb (is_space c) | None => true end = true.
Proof.
  unfold rstrip. rewrite last_rev. pose proof (lstrip_head (rev s)) as H.
  destruct (lstrip (rev s)) as [|c l]; [reflexivity|]. cbn. rewrite H. reflexivity.
Qed.

Lemma normalised_strip_squeeze (s : pystr) : normalised (strip (squeeze s false)) = true.
Proof.
  unfold normalised, strip. rewrite rstrip_last, andb_true_r.
  pose proof (single_blanks_lstrip _ _ (single_blanks_squeeze s false)) as H.
  destruct (rstrip_suffix (lstrip (squeeze s false))) as (w & Hw & _).
  rewrite Hw in H. apply (single_blanks_prefix _ _ _ H).
Qed.

Lemma lstrip_nonspace_head (s : pystr) :
  single_blanks s true = true → lstrip s = s.
Proof.
  destruct s as [|c s]; [reflexivity|]. cbn [single_blanks lstrip].
  destruct (is_space c); [discriminate|reflexivity].
Qed.

Lemma rstrip_nonspace_last (s : pystr) :
  match last s with Some c => negb (is_space c) | None => true end = true → rstrip s = s.
Proof.
  intros H. unfold rstrip.
  assert (E0 : last s = head (rev s)) by (rewrite <- last_rev, rev_involutive; reflexivity).
  rewrite E0 in H. clear E0.
  destruct (rev s) as [|c l] eqn:E.
  - apply (f_equal (@rev _)) in E. rewrite rev_involutive in E. subst s. reflexivity.
  - cbn [lstrip]. cbn in H. apply negb_true_iff in H. rewrite H.
    rewrite <- E. apply rev_involutive.
Qed.

Lemma strip_squeeze_normalised (s : pystr) :
  normalised s = true → strip (squeeze s false) = s.
Proof.
  unfold normalised. intros H. apply andb_prop in H. destruct H as [H1 H2].
  rewrite (squeeze_single_blanks s false (single_blanks_weaken s false H1)).
  unfold strip. rewrite (lstrip_nonspace_head s H1). apply rstrip_nonspace_last, H2.
Qed.

Lemma visible_squeeze (s : pystr) (f : bool) : visible (squeeze s f) = visible s.
Proof.
  revert f. induction s as [|c s IH]; intros f; [reflexivity|].
  cbn [squeeze]. unfold visible in *. cbn [List.filter]. destruct (is_space c) eqn:Hc; cbn [negb].
  - destruct f; [apply IH|]. cbn [List.filter]. change (is_space 32) with true. cbn [negb]. apply IH.
  - cbn [List.filter]. rewrite Hc. cbn [negb]. f_equal. apply IH.
Qed.

Lemma visible_lstrip (s : pystr) : visible (lstrip s) = visible s.
Proof.
  induction s as [|c s IH]; [reflexivity|]. cbn [lstrip].
  destruct (is_space c) eqn:Hc; [|reflexivity].
  unfold visible in *. cbn [List.filter]. rewrite Hc. exact IH.
Qed.

Lemma visible_spaces (w : pystr) : Forall (fun c => is_space c = true) w → visible w = [].
Proof.
  induction 1 as [|c w Hc _ IH]; [reflexivity|].
  unfold visible in *. cbn [List.filter]. rewrite Hc. exact IH.
Qed.

Lemma visible_strip (s : pystr) : visible (strip s) = visible s.
Proof.
  unfold strip. destruct (rstrip_suffix (lstrip s)) as (w & Hw & Hs).
  rewrite <- (visible_lstrip s). rewrite Hw at 2.
  unfold visible. rewrite List.filter_app. fold (visible w).
  rewrite (visible_spaces w Hs), app_nil_r. reflexivity.
Qed.

Lemma clean_spaces_VStr (s : pystr) : clean_spaces (VStr s) = strip (squeeze s false).
Proof. apply clean_spaces_squeeze. reflexivity. Qed.

(** The text [clean_spaces] returns is in normal form, whatever the
    input, and it has the input's characters other than white space,
    in their order. *)
Theorem clean_spaces_normal_form (x : value) :
  normalised (clean_spaces x) = true
  ∧ visible (clean_spaces x) = (if is_missing x then [] else visible (py_str x)).
Proof.
  destruct (is_missing x) eqn:Hx.
  - unfold clean_spaces. rewrite Hx. split; reflexivity.
  - rewrite (clean_spaces_squeeze x Hx). split.
    + apply normalised_strip_squeeze.
    + rewrite visible_strip. apply visible_squeeze.
Qed.

(** [clean_spaces] leaves exactly the texts in normal form unchanged;
    hence cleaning a cleaned text changes nothing. *)
Theorem clean_spaces_idempotent :
  (∀ s : pystr, clean_spaces (VStr s) = s ↔ normalised s = true)
  ∧ ∀ x : value, clean_spaces (VStr (clean_spaces x)) = clean_spaces x.
Proof.
  assert (Hfix : ∀ s, clean_spaces (VStr s) = s ↔ normalised s = true).
  { intros s. rewrite clean_spaces_VStr. split.
    - intros H. rewrite <- H. apply normalised_strip_squeeze.
    - apply strip_squeeze_normalised. }
  split; [exact Hfix|]. intros x. apply Hfix.
  destruct (is_missing x) eqn:Hx.
  - unfold clean_spaces. rewrite Hx. reflexivity.
  - rewrite (clean_spaces_squeeze x Hx). apply normalised_strip_squeeze.
Qed.

(** ** Substrings through normalisation *)

Lemma startswith_spec (s p : pystr) : startswith s p = true ↔ ∃ b, s = p ++ b.
Proof.
  revert s. induction p as [|x p IH]; intros s; simpl.
  - split; [intros _; exists s; reflexivity|intros _; destruct s; reflexivity].
  - destruct s as [|c s].
    + split; [discriminate|]. intros [b Hb]. discriminate Hb.
    + cbn [startswith]. rewrite andb_true_iff, IH. unfold char_eqb. rewrite N.eqb_eq. split.
      * intros [-> [b ->]]. exists b. reflexivity.
      * intros [b [= -> ->]]. split; [reflexivity|]. exists b. reflexivity.
Qed.

Lemma contains_spec (s p : pystr) : contains s p = true ↔ ∃ a b, s = a ++ p ++ b.
Proof.
  induction s as [|c s IH].
  - cbn [contains]. rewrite orb_false_r, startswith_spec. split.
    + intros [b Hb]. exists [], b. exact Hb.
    + intros (a & b & H). destruct a; [exists b; exact H|discriminate H].
  - cbn [contains]. rewrite orb_true_iff, startswith_spec, IH. split.
    + intros [[b Hb]|(a & b & ->)].
      * exists [], b. exact Hb.
      * exists (c :: a), b. reflexivity.
    + intros (a & b & H). destruct a as [|x a].
      * left. exists b. exact H.
      * right. injection H as -> ->. exists a, b. reflexivity.
Qed.

Lemma squeeze_app_nonspace (a r : pystr) (c : char) (f : bool) :
  is_space c = false → squeeze (a ++ c :: r) f = squeeze a f ++ c :: squeeze r false.
Proof.
  intros E. revert f. induction a as [|x a IH]; intros f; simpl.
  - rewrite E. reflexivity.
  - destruct (is_space x), f; simpl; rewrite IH; reflexivity.
Qed.

Lemma squeeze_nonspace (w : pystr) :
  Forall (fun c => is_space c = false) w → squeeze w false = w.
Proof.
  induction w as [|c w IH]; intros H; [reflexivity|].
  inversion H as [|? ? Hc Hw]; subst. simpl. rewrite Hc, IH by exact Hw. reflexivity.
Qed.

Lemma squeeze_space (w : pystr) (f : bool) :
  Forall (fun c => is_space c = true) (squeeze w f) ↔ Forall (fun c => is_space c = true) w.
Proof.
  revert f. induction w as [|c w IH]; intros f; simpl; [reflexivity|].
  destruct (is_space c) eqn:E.
  - destruct f; rewrite ?Forall_cons, IH; intuition.
  - rewrite !Forall_cons. rewrite E. intuition discriminate.
Qed.

Lemma lstrip_keeps (x r : pystr) (c : char) :
  is_space c = false → ∃ x', lstrip (x ++ c :: r) = x' ++ c :: r.
Proof.
  intros E. induction x as [|y x IH]; simpl.
  - exists []. rewrite E. reflexivity.
  - destruct (is_space y); [exact IH|]. exists (y :: x). reflexivity.
Qed.

Lemma rstrip_keeps (l y : pystr) (c : char) :
  is_space c = false → ∃ y', rstrip (l ++ c :: y) = l ++ c :: y'.
Proof.
  intros E. unfold rstrip. rewrite rev_app_distr. cbn [rev]. rewrite <- app_assoc.
  cbn [app]. destruct (lstrip_keeps (rev y) (rev l) c E) as [y' Hy']. rewrite Hy'.
  exists (rev y'). rewrite rev_app_distr. cbn [rev]. rewrite rev_involutive, <- app_assoc.
  reflexivity.
Qed.

(** Normalisation keeps a piece of text that starts and ends with
    characters other than white space, squeezing its inside. *)
Lemma normalize_infix (a m b : pystr) (c1 c2 : char) :
  is_space c1 = false → is_space c2 = false →
  ∃ a' b', strip (squeeze (a ++ c1 :: m ++ c2 :: b) false)
           = a' ++ c1 :: squeeze m false ++ c2 :: b'.
Proof.
  intros E1 E2. rewrite (squeeze_app_nonspace a _ c1 false E1).
  rewrite (squeeze_app_nonspace m b c2 false E2).
  unfold strip.
  destruct (lstrip_keeps (squeeze a false) (squeeze m false ++ c2 :: squeeze b false) c1 E1)
    as [a' Ha']. rewrite Ha'.
  replace (a' ++ c1 :: squeeze m false ++ c2 :: squeeze b false)
    with ((a' ++ c1 :: squeeze m false) ++ c2 :: squeeze b false)
    by (rewrite <- app_assoc; reflexivity).
  destruct (rstrip_keeps (a' ++ c1 :: squeeze m false) (squeeze b false) c2 E2) as [b' Hb'].
  rewrite Hb'. exists a', b'. rewrite <- app_assoc. reflexivity.
Qed.

Lemma map_app_inv {A B : Type} (f : A → B) (l : list A) (k1 k2 : list B) :
  map f l = k1 ++ k2 → ∃ l1 l2, l = l1 ++ l2 ∧ map f l1 = k1 ∧ map f l2 = k2.
Proof.
  revert l. induction k1 as [|y k1 IH]; intros l H.
  - exists [], l. auto.
  - destruct l as [|x l]; [discriminate H|]. simpl in H. injection H as Hy H.
    destruct (IH l H) as (l1 & l2 & -> & H1 & H2).
    exists (x :: l1), l2. simpl. rewrite Hy, H1. auto.
Qed.

Lemma is_space_range (c : char) : is_space c = true → c < 65 ∨ 122 < c.
Proof.
  unfold is_space. rewrite !orb_true_iff, !andb_true_iff, !N.leb_le, !N.eqb_eq. lia.
Qed.

(** A character whose lower case is a small letter is that letter in
    either case: it is no white space and its upper case is the
    capital letter. *)
Lemma lower_char_letter (c x : char) :
  lower_char c = x → is_lower_letter x = true →
  is_space c = false ∧ upper_char c = [x - 32].
Proof.
  intros Hl Hx. destruct (upper_char_letter x Hx) as [U1 U2].
  assert (Hr : 97 <= x ∧ x <= 122).
  { unfold is_lower_letter in Hx. apply andb_prop in Hx. rewrite !N.leb_le in Hx. exact Hx. }
  split.
  - destruct (is_space c) eqn:E; [|reflexivity]. apply is_space_range in E.
    destruct (lower_char_cases c x Hl) as [-> | [_ ->]]; lia.
  - destruct (lower_char_cases c x Hl) as [-> | [_ ->]]; assumption.
Qed.

Lemma split1_no_sep (sep : char) (s : pystr) :
  sep ∉ s → split1 sep s = (s, None).
Proof.
  induction s as [|c s IH]; intros Hs; simpl; [reflexivity|].
  unfold char_eqb. destruct (N.eqb_spec c sep) as [->|Hne].
  - exfalso. apply Hs. left.
  - rewrite IH; [reflexivity|]. intros H. apply Hs. right. exact H.
Qed.

Lemma split1_at_first (sep : char) (a b : pystr) :
  sep ∉ a → split1 sep (a ++ sep :: b) = (a, Some b).
Proof.
  induction a as [|c a IH]; intros Ha; simpl.
  - unfold char_eqb. rewrite N.eqb_refl. reflexivity.
  - unfold char_eqb. destruct (N.eqb_spec c sep) as [->|Hne].
    + exfalso. apply Ha. left.
    + rewrite IH; [reflexivity|]. intros H. apply Ha. right. exact H.
Qed.

(** ** The matcher on sequences, alternatives and repetitions *)

Lemma run_Seq (r1 r2 : regex) (st : state) :
  run (Seq r1 r2) st = flat_map (run r2) (run r1 st).
Proof. reflexivity. Qed.

Lemma run_Alt (r1 r2 : regex) (st : state) : run (Alt r1 r2) st = run r1 st ++ run r2 st.
Proof. reflexivity. Qed.

Lemma run_Opt (r : regex) (st : state) : run (Opt r) st = run r st ++ [st].
Proof. reflexivity. Qed.

Lemma run_Class_cases (p : char → bool) (st : state) :
  run (Class p) st = []
  ∨ ∃ c rest, post st = c :: rest ∧ p c = true
              ∧ run (Class p) st = [mkState (c :: pre st) rest (caps st)].
Proof.
  cbn [run]. destruct (post st) as [|c rest]; [left; reflexivity|].
  destruct (p c) eqn:E; [right; exists c, rest; auto|left; reflexivity].
Qed.

Lemma in_run_Seq (r1 r2 : regex) (st st1 st2 : state) :
  In st1 (run r1 st) → In st2 (run r2 st1) → In st2 (run (Seq r1 r2) st).
Proof. intros H1 H2. rewrite run_Seq. apply in_flat_map. exists st1. auto. Qed.

Lemma in_run_Chr (c : char) (p rest : pystr) (cs : list (string * pystr)) :
  In (mkState (c :: p) rest cs) (run (Chr c) (mkState p (c :: rest) cs)).
Proof.
  unfold Chr. cbn [run post pre caps]. unfold char_eqb. rewrite N.eqb_refl. left. reflexivity.
Qed.

Lemma star_self (step : state → list state) (fuel : nat) (st : state) :
  In st (star step fuel st).
Proof.
  destruct fuel; cbn [star]; [left; reflexivity|].
  apply in_or_app. right. left. reflexivity.
Qed.

(** [\s*] can consume any run of white space. *)
Lemma in_run_Star_space (w rest p : pystr) (cs : list (string * pystr)) :
  Forall (fun c => is_space c = true) w →
  In (mkState (rev w ++ p) rest cs)
     (run (Star (Class is_space)) (mkState p (w ++ rest) cs)).
Proof.
  intros Hw. change (run (Star (Class is_space)) (mkState p (w ++ rest) cs))
    with (star (run (Class is_space)) (length (w ++ rest)) (mkState p (w ++ rest) cs)).
  assert (Hgen : ∀ fuel p, (length w <= fuel)%nat →
            In (mkState (rev w ++ p) rest cs)
               (star (run (Class is_space)) fuel (mkState p (w ++ rest) cs))).
  { clear p. induction Hw as [|x w Hx Hw IH]; intros fuel p Hfuel.
    - apply star_self.
    - destruct fuel as [|fuel]; [simpl in Hfuel; lia|].
      cbn [star app].
      change (run (Class is_space) (mkState p (x :: w ++ rest) cs))
        with (if is_space x then [mkState (x :: p) (w ++ rest) cs] else []).
      rewrite Hx. cbn [flat_map]. unfold advanced at 1. cbn [post length].
      assert (Hlt : (length (w ++ rest) <? S (length (w ++ rest)))%nat = true)
        by (apply Nat.ltb_lt; lia).
      rewrite Hlt. apply in_or_app. left. apply in_or_app. left.
      cbn [rev]. rewrite <- app_assoc. apply IH. simpl in Hfuel. lia. }
  apply Hgen. rewrite length_app. lia.
Qed.

Lemma search_from_found (r : regex) (a rest before : pystr) :
  first_match r (start_at (rev a ++ before) rest) ≠ None →
  search_from r before (a ++ rest) ≠ None.
Proof.
  revert before. induction a as [|x a IH]; intros before H.
  - cbn [app rev] in *. destruct rest; cbn [search_from];
      destruct (first_match r _) as [[st m]|]; congruence.
  - cbn [app search_from].
    destruct (first_match r (start_at before (x :: a ++ rest))) as [[st m]|];
      [discriminate|].
    apply IH. cbn [rev] in H. rewrite <- app_assoc in H. exact H.
Qed.

Lemma first_match_of_In (r : regex) (st st' : state) :
  In st' (run r st) → first_match r st ≠ None.
Proof.
  unfold first_match. destruct (run r st); [intros []|discriminate].
Qed.

(** ** The texts a pattern matches *)

Lemma reads_nil (st : state) : reads st st [].
Proof. split; reflexivity. Qed.

Lemma reads_app (st st1 st2 : state) (a b : pystr) :
  reads st st1 a → reads st1 st2 b → reads st st2 (a ++ b).
Proof.
  intros [H1 H2] [H3 H4]. split.
  - rewrite H1, H3, app_assoc. reflexivity.
  - rewrite H4, H2, rev_app_distr, app_assoc. reflexivity.
Qed.

Lemma reads_consumed (st st' : state) (w : pystr) : reads st st' w → consumed st st' = w.
Proof. intros [H _]. unfold consumed. rewrite H. apply take_consumed. Qed.

Lemma star_reads (L : pystr → Prop) (step : state → list state) :
  (∀ st st', In st' (step st) → ∃ w, reads st st' w ∧ L w) →
  ∀ fuel st st', In st' (star step fuel st) →
    ∃ ws, reads st st' (concat ws) ∧ Forall L ws.
Proof.
  intros Hstep fuel. induction fuel as [|n IH]; intros st st' Hin; cbn [star] in Hin.
  - destruct Hin as [<-|[]]. exists []. split; [apply reads_nil|constructor].
  - apply in_app_or in Hin. destruct Hin as [Hin|[<-|[]]].
    + apply in_flat_map in Hin. destruct Hin as (st1 & H1 & H2).
      destruct (advanced st st1); [|destruct H2].
      destruct (Hstep _ _ H1) as (w & Hr & Hw).
      destruct (IH _ _ H2) as (ws & Hrs & Hws).
      exists (w :: ws). split; [apply (reads_app _ _ _ _ _ Hr Hrs)|constructor; assumption].
    + exists []. split; [apply reads_nil|constructor].
Qed.

(** Whatever the matcher reads for a pattern is in its language. *)
Lemma run_lang (r : regex) :
  ∀ st st', In st' (run r st) → ∃ w, reads st st' w ∧ lang r w.
Proof.
  induction r as [|p|r1 IH1 r2 IH2|r1 IH1 r2 IH2|r1 IH1| |name r1 IH1]; intros st st' Hin.
  - destruct Hin as [<-|[]]. exists []. split; [apply reads_nil|reflexivity].
  - cbn [run] in Hin. destruct (post st) as [|c s'] eqn:E; [destruct Hin|].
    destruct (p c) eqn:Hp; [|destruct Hin]. destruct Hin as [<-|[]].
    exists [c]. split; [split; cbn; [exact E|reflexivity]|]. exists c. split; [reflexivity|exact Hp].
  - cbn [run] in Hin. apply in_flat_map in Hin. destruct Hin as (st1 & H1 & H2).
    destruct (IH1 _ _ H1) as (a & Ha & La). destruct (IH2 _ _ H2) as (b & Hb & Lb).
    exists (a ++ b). split; [apply (reads_app _ _ _ _ _ Ha Hb)|]. exists a, b. auto.
  - cbn [run] in Hin. apply in_app_or in Hin. destruct Hin as [Hin|Hin].
    + destruct (IH1 _ _ Hin) as (w & Hw & Lw). exists w. split; [exact Hw|left; exact Lw].
    + destruct (IH2 _ _ Hin) as (w & Hw & Lw). exists w. split; [exact Hw|right; exact Lw].
  - cbn [run] in Hin. destruct (star_reads (lang r1) (run r1) IH1 _ _ _ Hin) as (ws & Hr & Hws).
    exists (concat ws). split; [exact Hr|]. exists ws. auto.
  - cbn [run] in Hin. destruct (at_boundary st); [|destruct Hin]. destruct Hin as [<-|[]].
    exists []. split; [apply reads_nil|reflexivity].
  - cbn [run] in Hin. apply in_map_iff in Hin. destruct Hin as (s1 & <- & H1).
    destruct (IH1 _ _ H1) as (w & [Hw1 Hw2] & Lw). exists w. split; [split; assumption|exact Lw].
Qed.

Lemma first_match_lang (r : regex) (st st' : state) (m : match_obj) :
  first_match r st = Some (st', m) →
  In st' (run r st) ∧ m = mkMatch (consumed st st') (caps st').
Proof.
  unfold first_match. destruct (run r st) as [|s1 l] eqn:E; [discriminate|].
  intros [= <- <-]. split; [left; reflexivity|reflexivity].
Qed.

(** Every text [findall] returns is in the language of the pattern. *)
Lemma findall_from_lang (r : regex) (after : pystr) :
  ∀ before skip tok, In tok (findall_from r before after skip) → lang r tok.
Proof.
  induction after as [|c after IH]; intros before skip tok Hin.
  - destruct skip as [|k]; cbn [findall_from] in Hin; [|destruct Hin].
    destruct (first_match r (start_at before [])) as [[st' m]|] eqn:E; [|destruct Hin].
    destruct Hin as [<-|[]]. apply first_match_lang in E. destruct E as [Hin ->].
    cbn [group0]. destruct (run_lang r _ _ Hin) as (w & Hw & Lw).
    rewrite (reads_consumed _ _ _ Hw). exact Lw.
  - destruct skip as [|k]; cbn [findall_from] in Hin; [|apply (IH _ _ _ Hin)].
    destruct (first_match r (start_at before (c :: after))) as [[st' m]|] eqn:E.
    + destruct Hin as [<-|Hin]; [|apply (IH _ _ _ Hin)].
      apply first_match_lang in E. destruct E as [Hin ->].
      cbn [group0]. destruct (run_lang r _ _ Hin) as (w & Hw & Lw).
      rewrite (reads_consumed _ _ _ Hw). exact Lw.
    + apply (IH _ _ _ Hin).
Qed.

(** A match object returned by [search] comes from a run of the
    pattern at some position. *)
Lemma search_from_run (r : regex) (after : pystr) :
  ∀ before m, search_from r before after = Some m →
    ∃ st st', In st' (run r st) ∧ caps st = [] ∧ m = mkMatch (consumed st st') (caps st').
Proof.
  induction after as [|c after IH]; intros before m H; cbn [search_from] in H.
  - destruct (first_match r (start_at before [])) as [[st' m']|] eqn:E; [|discriminate].
    injection H as <-. apply first_match_lang in E. destruct E as [Hin ->].
    exists (start_at before []), st'. auto.
  - destruct (first_match r (start_at before (c :: after))) as [[st' m']|] eqn:E.
    + injection H as <-. apply first_match_lang in E. destruct E as [Hin ->].
      exists (start_at before (c :: after)), st'. auto.
    + apply (IH _ _ H).
Qed.

(** ** The numeric pattern needs a digit *)

Lemma run_digit_nil (st : state) : no_digit_head st → run d_re st = [].
Proof.
  unfold no_digit_head, d_re. cbn [run]. destruct (post st) as [|c rest]; [reflexivity|].
  intros ->. reflexivity.
Qed.

Lemma run_unsigned_nil (st : state) :
  no_digit_head st →
  run (Seq d1_3_re (Seq (Star (Seq (Chr (chr ",")) d3_re)) frac_re)) st = []
  ∧ run (Seq (Plus d_re) frac_re) st = [].
Proof.
  intros H. unfold d1_3_re, Plus.
  rewrite !run_Seq, (run_digit_nil st H). split; reflexivity.
Qed.

Lemma no_digit_head_of_Forall (p cs' : pystr) (cs : list (string * pystr)) :
  Forall (fun c => is_digit c = false) cs' → no_digit_head (mkState p cs' cs).
Proof. intros H. unfold no_digit_head. cbn [post]. destruct H; [exact I|assumption]. Qed.

Lemma run_signed_nil (body : regex) (st : state) :
  (∀ st', no_digit_head st' → run body st' = []) →
  Forall (fun c => is_digit c = false) (post st) →
  run (Seq sign_re body) st = [].
Proof.
  intros Hbody Hst. unfold sign_re. rewrite run_Seq, run_Opt, flat_map_app.
  cbn [flat_map]. rewrite (Hbody st), app_nil_r.
  - unfold OneOf. destruct (run_Class_cases (fun x => existsb (char_eqb x) (py "-+")) st)
      as [->|(c & rest & Hpost & _ & ->)]; [reflexivity|].
    cbn [flat_map]. rewrite Hbody; [reflexivity|].
    apply no_digit_head_of_Forall. rewrite Hpost in Hst. inversion Hst; assumption.
  - destruct st as [p cs' cs]. apply no_digit_head_of_Forall. exact Hst.
Qed.

(** At a position followed by no digit the numeric pattern has no
    match. *)
Lemma run_num_re_nil (st : state) :
  Forall (fun c => is_digit c = false) (post st) → run num_re st = [].
Proof.
  intros H. unfold num_re, grouped_re, plain_re. rewrite run_Alt.
  rewrite !run_signed_nil; try assumption; try reflexivity.
  - intros st' Hst'. apply (run_unsigned_nil st' Hst').
  - intros st' Hst'. apply (run_unsigned_nil st' Hst').
Qed.

Lemma findall_num_re_nil (before after : pystr) :
  Forall (fun c => is_digit c = false) after → findall_from num_re before after 0 = [].
Proof.
  revert before. induction after as [|c after IH]; intros before H.
  - cbn [findall_from]. unfold first_match. rewrite run_num_re_nil by exact H. reflexivity.
  - cbn [findall_from]. unfold first_match. rewrite run_num_re_nil by exact H.
    apply IH. inversion H; assumption.
Qed.

Lemma Forall_lstrip (P : char → Prop) (s : pystr) : Forall P s → Forall P (lstrip s).
Proof.
  induction s as [|c s IH]; intros H; simpl; [constructor|].
  destruct (is_space c); [apply IH; inversion H; assumption|exact H].
Qed.

Lemma Forall_strip (P : char → Prop) (s : pystr) : Forall P s → Forall P (strip s).
Proof.
  intros H. unfold strip, rstrip.
  apply List.Forall_rev, Forall_lstrip, List.Forall_rev, Forall_lstrip, H.
Qed.

Lemma Forall_squeeze (P : char → Prop) (s : pystr) (f : bool) :
  P 32 → Forall P s → Forall P (squeeze s f).
Proof.
  intros Hsp. revert f. induction s as [|c s IH]; intros f H; simpl; [constructor|].
  inversion H; subst.
  destruct (is_space c), f; repeat constructor; try assumption; apply IH; assumption.
Qed.

(** C8. For a text without any digit the parser returns no amount,
    and with it the currency found in the normalised text, by a
    whole-word ISO code or else by a currency symbol: "abc €" gives
    (absent, EUR), "paid in usd" gives (absent, USD), "n/a" gives
    neither. *)
Theorem C8_no_digit_no_amount :
  (∀ text : value,
     Forall (fun c => is_digit c = false) (py_str text) →
     parse_amount_and_currency text = (None, detect_currency (clean_spaces text)))
  ∧ parse_amount_and_currency (VStr (py "abc €")) = (None, Some (py "EUR"))
  ∧ parse_amount_and_currency (VStr (py "paid in usd")) = (None, Some (py "USD"))
  ∧ parse_amount_and_currency (VStr (py "n/a")) = (None, None).
Proof.
  split; [|repeat split; vm_compute; reflexivity].
  intros text H. unfold parse_amount_and_currency.
  destruct (is_missing text) eqn:Hm.
  - unfold clean_spaces. rewrite Hm. reflexivity.
  - assert (Ht : Forall (fun c => is_digit c = false) (clean_spaces text)).
    { rewrite clean_spaces_squeeze by exact Hm.
      apply Forall_strip, Forall_squeeze; [reflexivity|exact H]. }
    destruct (clean_spaces text) as [|c t] eqn:E; [reflexivity|].
    unfold findall. rewrite findall_num_re_nil by exact Ht. reflexivity.
Qed.

(** An instance of the preceding theorem, on a concrete input. *)
Lemma C8_no_digit_no_amount_witness :
  Forall (fun c => is_digit c = false) (py_str (VStr (py "abc €")))
  ∧ parse_amount_and_currency (VStr (py "abc €"))
    = (None, detect_currency (clean_spaces (VStr (py "abc €")))).
Proof.
  assert (H : Forall (fun c => is_digit c = false) (py_str (VStr (py "abc €")))).
  { change (py_str (VStr (py "abc €"))) with [97; 98; 99; 32; 8364].
    repeat (apply Forall_cons_2; [vm_compute; reflexivity|]). apply Forall_nil_2. }
  split; [exact H|].
  exact (proj1 C8_no_digit_no_amount (VStr (py "abc €")) H).
Defined.

(** ** The second alternative of the numeric pattern *)

Lemma flat_map_nonempty {A B : Type} (f : A → list B) (l : list A) :
  flat_map f l ≠ [] → ∃ x, In x l ∧ f x ≠ [].
Proof.
  induction l as [|x l IH]; cbn [flat_map]; [congruence|].
  destruct (f x) as [|y ys] eqn:E.
  - intros H. destruct (IH H) as (x' & Hin & Hx'). exists x'. split; [right|]; assumption.
  - intros _. exists x. split; [left; reflexivity|congruence].
Qed.

Lemma nonempty_of_In {A : Type} (x : A) (l : list A) : In x l → l ≠ [].
Proof. destruct l; [intros []|discriminate]. Qed.

Lemma in_run_Opt_skip (r : regex) (st : state) : In st (run (Opt r) st).
Proof. rewrite run_Opt. apply in_or_app. right. left. reflexivity. Qed.

Lemma in_run_Star_skip (r : regex) (st : state) : In st (run (Star r) st).
Proof. cbn [run]. apply star_self. Qed.

(** Where the body of the second alternative matches, so does the
    body of the first. *)
Lemma grouped_body_covers_plain (st : state) :
  run (Seq (Plus d_re) frac_re) st ≠ [] →
  run (Seq d1_3_re (Seq (Star (Seq (Chr (chr ",")) d3_re)) frac_re)) st ≠ [].
Proof.
  intros H. unfold Plus in H. rewrite !run_Seq in H.
  destruct (run_Class_cases is_digit st) as [Hnil|(c & rest & Hpost & Hc & Hrun)].
  - exfalso. apply H. unfold d_re. rewrite Hnil. reflexivity.
  - apply (nonempty_of_In (mkState (c :: pre st) rest (caps st))).
    eapply in_run_Seq.
    + unfold d1_3_re. eapply in_run_Seq.
      * unfold d_re. rewrite Hrun. left. reflexivity.
      * apply in_run_Opt_skip.
    + eapply in_run_Seq; [apply in_run_Star_skip|apply in_run_Opt_skip].
Qed.

Lemma signed_covers (b1 b2 : regex) (st : state) :
  (∀ st', run b1 st' ≠ [] → run b2 st' ≠ []) →
  run (Seq sign_re b1) st ≠ [] → run (Seq sign_re b2) st ≠ [].
Proof.
  intros Hb H. rewrite run_Seq in H. apply flat_map_nonempty in H.
  destruct H as (st' & Hin & Hst'). apply Hb in Hst'.
  destruct (run b2 st') as [|y ys] eqn:E; [congruence|].
  apply (nonempty_of_In y). rewrite run_Seq. apply in_flat_map. exists st'.
  split; [exact Hin|]. rewrite E. left. reflexivity.
Qed.

(** The numeric pattern matches as its first alternative alone: the
    second one never decides a match. *)
Lemma num_re_first_alternative (st : state) :
  first_match num_re st = first_match grouped_re st.
Proof.
  unfold first_match, num_re. rewrite run_Alt.
  destruct (run grouped_re st) as [|y ys] eqn:E; [|reflexivity].
  destruct (run plain_re st) as [|z zs] eqn:P; [reflexivity|].
  exfalso. assert (Hp : run plain_re st ≠ []) by (rewrite P; discriminate).
  unfold plain_re in Hp.
  apply (signed_covers _ _ st grouped_body_covers_plain) in Hp.
  apply Hp. exact E.
Qed.

Lemma findall_from_ext (r1 r2 : regex) :
  (∀ st, first_match r1 st = first_match r2 st) →
  ∀ after before skip, findall_from r1 before after skip = findall_from r2 before after skip.
Proof.
  intros H. induction after as [|c after IH]; intros before skip.
  - destruct skip; cbn [findall_from]; [rewrite H|]; reflexivity.
  - destruct skip; cbn [findall_from].
    + rewrite H. destruct (first_match r2 _) as [[st m]|]; rewrite ?IH; reflexivity.
    + apply IH.
Qed.

(** C1. The numeric pattern matches as its first alternative alone, so
    on the text "1234.56", whose only numeric content is one ungrouped
    number, it finds the two tokens "123" and "4.56": the first
    alternative stops after three digits and the second alternative,
    written for ungrouped numbers, is never used. The amount returned
    is float("4.56"), which differs from float("1234.56"). *)
Theorem C1_ungrouped_number_is_split :
  (∀ s : pystr, findall num_re s = findall grouped_re s)
  ∧ findall num_re (py "1234.56") = [py "123"; py "4.56"]
  ∧ parse_amount_and_currency (VStr (py "1234.56")) = (py_float (py "4.56"), None)
  ∧ py_float (py "4.56") ≠ py_float (py "1234.56").
Proof.
  split; [|split; [|split]].
  - intros s. unfold findall. apply findall_from_ext. exact num_re_first_alternative.
  - vm_compute. reflexivity.
  - vm_compute. reflexivity.
  - vm_compute. intros H. discriminate H.
Qed.

(** C4. The pair parsed from "USD 45.50" survives the round trip: it
    is written back as "45.5 USD", which parses to the same pair. The
    pair parsed from "USD 1,234.56" is (1234.56, "USD"); written back
    without thousands separators it reads "1234.56 USD", and parsing
    that text gives the amount 4.56: this pair does not survive. *)
Theorem C4_round_trip_fails_from_1000 :
  (∃ x : float,
     parse_amount_and_currency (VStr (py "USD 45.50")) = (Some x, Some (py "USD"))
     ∧ restringify x (Some (py "USD")) = py "45.5 USD"
     ∧ parse_amount_and_currency (VStr (restringify x (Some (py "USD"))))
       = (Some x, Some (py "USD")))
  ∧ ∃ x y : float,
      parse_amount_and_currency (VStr (py "USD 1,234.56")) = (Some x, Some (py "USD"))
      ∧ py_float (py "1234.56") = Some x
      ∧ restringify x (Some (py "USD")) = py "1234.56 USD"
      ∧ parse_amount_and_currency (VStr (restringify x (Some (py "USD"))))
        = (Some y, Some (py "USD"))
      ∧ py_float (py "4.56") = Some y
      ∧ x ≠ y.
Proof.
  split.
  - eexists. split; [vm_compute; reflexivity|]. split; vm_compute; reflexivity.
  - eexists. eexists.
    split; [vm_compute; reflexivity|].
    split; [vm_compute; reflexivity|].
    split; [vm_compute; reflexivity|].
    split; [vm_compute; reflexivity|].
    split; [vm_compute; reflexivity|].
    intros H. discriminate H.
Qed.

(** ** Floats read from a decimal literal are numbers *)

Lemma shr_1_nonneg (mrs : shr_record) : (0 <= shr_m mrs → 0 <= shr_m (shr_1 mrs))%Z.
Proof.
  destruct mrs as [m r s]. simpl. intros H.
  destruct m as [|[p|p|]|p]; simpl; lia.
Qed.

Lemma iter_shr_1_nonneg (p : positive) (mrs : shr_record) :
  (0 <= shr_m mrs → 0 <= shr_m (SpecFloat.iter_pos shr_1 p mrs))%Z.
Proof.
  revert mrs. induction p as [p IH|p IH|]; intros mrs H; simpl.
  - apply IH, IH, shr_1_nonneg, H.
  - apply IH, IH, H.
  - apply shr_1_nonneg, H.
Qed.

Lemma shr_fexp_nonneg (m e : Z) (l : location) :
  (0 <= m → 0 <= shr_m (fst (shr_fexp prec emax m e l)))%Z.
Proof.
  intros H. unfold shr_fexp, shr.
  assert (H0 : (0 <= shr_m (shr_record_of_loc m l))%Z).
  { destruct l as [|[]]; exact H. }
  destruct (_ - e)%Z; simpl; try exact H0. apply iter_shr_1_nonneg, H0.
Qed.

Lemma round_nearest_even_nonneg (m : Z) (l : location) :
  (0 <= m → 0 <= round_nearest_even m l)%Z.
Proof.
  intros H. unfold round_nearest_even.
  destruct l as [|[]]; try destruct (Z.even m); lia.
Qed.

(** Rounding a non-negative mantissa gives a number of the given sign. *)
Lemma binary_round_aux_number (s : bool) (m e : Z) (l : location) :
  (0 <= m)%Z →
  is_nan (binary_round_aux prec emax s m e l) = false
  ∧ sign_bit (binary_round_aux prec emax s m e l) = s.
Proof.
  intros H. unfold binary_round_aux.
  pose proof (shr_fexp_nonneg m e l H) as H1.
  destruct (shr_fexp prec emax m e l) as [mrs' e']. cbn [fst] in H1.
  pose proof (shr_fexp_nonneg _ e' loc_Exact
                (round_nearest_even_nonneg _ (loc_of_shr_record mrs') H1)) as H2.
  destruct (shr_fexp prec emax _ e' loc_Exact) as [mrs'' e'']. cbn [fst] in H2.
  destruct (shr_m mrs'') as [|p|p]; [split; reflexivity| |lia].
  destruct (Z.leb e'' (emax - prec)); split; reflexivity.
Qed.

Lemma SFdiv_finite_number (s : bool) (m d : positive) :
  is_nan (SFdiv prec emax (S754_finite s m 0) (S754_finite false d 0)) = false
  ∧ sign_bit (SFdiv prec emax (S754_finite s m 0) (S754_finite false d 0)) = s.
Proof.
  unfold SFdiv, SFdiv_core_binary.
  match goal with
  | |- context [Z.div_eucl ?a ?b] =>
      pose proof (Z.div_pos a b) as Hq; unfold Z.div in Hq;
      assert (Ha : (0 <= a)%Z) by (destruct (_ - _ - _)%Z; simpl; try lia;
                                    apply Z.shiftl_nonneg; lia);
      specialize (Hq Ha ltac:(lia));
      destruct (Z.div_eucl a b) as [q r]
  end.
  rewrite xorb_false_r. apply binary_round_aux_number, Hq.
Qed.

Lemma of_decimal_number (neg : bool) (ip fp : pystr) :
  is_nan (of_decimal neg ip fp) = false ∧ sign_bit (of_decimal neg ip fp) = neg.
Proof.
  unfold of_decimal. destruct (int_of_digits (ip ++ fp)); [split; reflexivity|].
  apply SFdiv_finite_number.
Qed.

(** [float] never reads a NaN from a decimal literal. *)
Lemma py_float_number (s : pystr) (x : float) : py_float s = Some x → is_nan x = false.
Proof.
  unfold py_float, float_of_ascii. destruct (split_sign (ascii_decimal s)) as [neg body].
  destruct (split1 46 body) as [ip rest].
  destruct (_ && _); [|discriminate]. intros [= <-]. apply of_decimal_number.
Qed.

(** Minus the absolute value of a number: the sign bit is set, the
    value is not above zero, and it is below zero unless the number is
    a zero. *)
Lemma neg_abs_sign (x : float) :
  is_nan x = false →
  sign_bit (fneg (fabs x)) = true
  ∧ flt zero (fneg (fabs x)) = false
  ∧ flt (fneg (fabs x)) zero = negb (is_zero x).
Proof.
  destruct x as [s|s| |s m e]; simpl; intros H; try discriminate; repeat split.
Qed.

(** ** Numeric tokens are read by [float] *)

Lemma lang_sign_re (w : pystr) : lang sign_re w → w = [] ∨ w = [45] ∨ w = [43].
Proof.
  intros [(c & -> & Hc)| ->]; [|left; reflexivity].
  vm_compute in Hc. right.
  destruct c as [|p]; [discriminate|].
  do 6 (try destruct p as [p|p|]); try discriminate; auto.
Qed.

Lemma lang_star_digits (w : pystr) :
  lang (Star d_re) w → Forall (fun c => is_digit c = true) w.
Proof.
  intros (ws & -> & Hws). induction Hws as [|x ws (c & -> & Hc) _ IH]; [constructor|].
  cbn [concat app]. constructor; assumption.
Qed.

Lemma lang_plus_digits (w : pystr) :
  lang (Plus d_re) w →
  ∃ c w', w = c :: w' ∧ is_digit c = true ∧ Forall (fun c => is_digit c = true) w'.
Proof.
  intros (a & b & -> & (c & -> & Hc) & Hb). exists c, b.
  split; [reflexivity|]. split; [exact Hc|apply lang_star_digits, Hb].
Qed.

Lemma lang_d1_3_re (w : pystr) :
  lang d1_3_re w →
  ∃ c w', w = c :: w' ∧ is_digit c = true ∧ Forall (fun c => is_digit c = true) w'.
Proof.
  intros (a & b & -> & (c & -> & Hc) & Hb). exists c, b.
  split; [reflexivity|]. split; [exact Hc|].
  destruct Hb as [(a2 & b2 & -> & (c2 & -> & Hc2) & Hb2)| ->]; [|constructor].
  constructor; [exact Hc2|].
  destruct Hb2 as [(c3 & -> & Hc3)| ->]; [|constructor].
  constructor; [exact Hc3|constructor].
Qed.

Lemma lang_groups (w : pystr) :
  lang (Star (Seq (Chr (chr ",")) d3_re)) w →
  Forall (fun c => is_digit c = true ∨ c = 44) w.
Proof.
  intros (ws & -> & Hws). induction Hws as [|x ws Hx _ IH]; [constructor|].
  cbn [concat]. apply Forall_app. split; [|exact IH].
  destruct Hx as (a & b & -> & (c & -> & Hc) & (d1 & b1 & -> & (c1 & -> & H1)
                    & (d2 & b2 & -> & (c2 & -> & H2) & (c3 & -> & H3)))).
  apply N.eqb_eq in Hc. cbn [app].
  constructor; [right; symmetry; exact Hc|].
  constructor; [left; exact H1|]. constructor; [left; exact H2|].
  constructor; [left; exact H3|constructor].
Qed.

Lemma lang_frac_re (w : pystr) :
  lang frac_re w →
  w = [] ∨ ∃ (c : char) (fp : pystr), w = 46 :: c :: fp ∧ is_digit c = true
                   ∧ Forall (fun c => is_digit c = true) fp.
Proof.
  intros [(a & b & -> & (c & -> & Hc) & Hb)| ->]; [|left; reflexivity].
  right. apply N.eqb_eq in Hc. apply lang_plus_digits in Hb.
  destruct Hb as (d & fp & -> & Hd & Hfp). exists d, fp. rewrite <- Hc. auto.
Qed.

(** The shape of a numeric token: a sign or none, a digit followed
    by digits and commas, and a point with digits or none. *)
Lemma lang_num_re (w : pystr) :
  lang num_re w →
  ∃ sg c ip fr,
    w = sg ++ (c :: ip) ++ fr
    ∧ (sg = [] ∨ sg = [45] ∨ sg = [43])
    ∧ is_digit c = true
    ∧ Forall (fun c => is_digit c = true ∨ c = 44) ip
    ∧ (fr = [] ∨ ∃ (d : char) (fp : pystr), fr = 46 :: d :: fp ∧ is_digit d = true
                        ∧ Forall (fun c => is_digit c = true) fp).
Proof.
  intros [H|H].
  - destruct H as (sg & b & -> & Hsg & (ds & b1 & -> & Hds & (g & fr & -> & Hg & Hfr))).
    apply lang_sign_re in Hsg. apply lang_d1_3_re in Hds. apply lang_groups in Hg.
    apply lang_frac_re in Hfr. destruct Hds as (c & ds' & -> & Hc & Hds').
    exists sg, c, (ds' ++ g), fr. split; [cbn [app]; rewrite <- app_assoc; reflexivity|].
    split; [exact Hsg|]. split; [exact Hc|]. split; [|exact Hfr].
    apply Forall_app. split; [|exact Hg].
    eapply Forall_impl; [exact Hds'|]. intros x Hx. left. exact Hx.
  - destruct H as (sg & b & -> & Hsg & (ds & fr & -> & Hds & Hfr)).
    apply lang_sign_re in Hsg. apply lang_plus_digits in Hds. apply lang_frac_re in Hfr.
    destruct Hds as (c & ds' & -> & Hc & Hds').
    exists sg, c, ds', fr. split; [reflexivity|].
    split; [exact Hsg|]. split; [exact Hc|]. split; [|exact Hfr].
    eapply Forall_impl; [exact Hds'|]. intros x Hx. left. exact Hx.
Qed.

Lemma ascii_digit_values (c : char) :
  is_ascii_digit c = true →
  c = 48 ∨ c = 49 ∨ c = 50 ∨ c = 51 ∨ c = 52 ∨ c = 53 ∨ c = 54 ∨ c = 55 ∨ c = 56 ∨ c = 57.
Proof. intros H. apply is_ascii_digit_bounds in H. lia. Qed.

Lemma split_sign_digit (c : char) (r : pystr) :
  is_ascii_digit c = true → split_sign (c :: r) = (false, c :: r).
Proof.
  intros H. apply ascii_digit_values in H.
  repeat (destruct H as [-> | H]; [reflexivity|]). subst c. reflexivity.
Qed.

Lemma forallb_of_Forall {A : Type} (p : A → bool) (l : list A) :
  Forall (fun x => p x = true) l → forallb p l = true.
Proof.
  induction 1 as [|x l Hx _ IH]; [reflexivity|]. cbn [forallb]. rewrite Hx. exact IH.
Qed.

Lemma remove_comma_digits (ip : pystr) :
  Forall (fun c => is_digit c = true ∨ c = 44) ip →
  Forall (fun c => is_digit c = true) (remove_char 44 ip).
Proof.
  induction 1 as [|x l Hx _ IH]; [constructor|].
  unfold remove_char in *. cbn [List.filter]. unfold char_eqb.
  destruct (N.eqb_spec x 44) as [-> |Hne]; cbn [negb]; [exact IH|].
  constructor; [|exact IH]. destruct Hx as [Hx|Hx]; [exact Hx|contradiction].
Qed.

Lemma remove_comma_keeps (w : pystr) :
  Forall (fun c => c ≠ 44) w → remove_char 44 w = w.
Proof.
  induction 1 as [|x l Hx _ IH]; [reflexivity|].
  unfold remove_char in *. cbn [List.filter]. unfold char_eqb.
  destruct (N.eqb_spec x 44) as [-> |Hne]; [contradiction|]. cbn [negb]. f_equal. exact IH.
Qed.

Lemma digit_not (c x : char) : is_digit c = true → x < 48 → c ≠ x.
Proof. intros H Hx. apply digit_cases in H. lia. Qed.

Lemma digits_not (x : char) (w : pystr) :
  x < 48 → Forall (fun c => is_digit c = true) w → Forall (fun c => c ≠ x) w.
Proof.
  intros Hx H. eapply Forall_impl; [exact H|]. intros c Hc. apply (digit_not c x Hc Hx).
Qed.

Lemma not_elem_of_Forall (x : char) (w : pystr) : Forall (fun c => c ≠ x) w → x ∉ w.
Proof.
  intros H Hin. rewrite Forall_forall in H. apply (H x Hin). reflexivity.
Qed.

(** A literal in ASCII digits: a sign or none, digits, and a point
    with digits or none. *)
Lemma float_of_ascii_plain (sg a fr : pystr) (c : char) :
  (sg = [] ∨ sg = [45] ∨ sg = [43]) →
  is_ascii_digit c = true → Forall (fun c => is_ascii_digit c = true) a →
  (fr = [] ∨ ∃ (d : char) (fp : pystr), fr = 46 :: d :: fp ∧ is_ascii_digit d = true
                     ∧ Forall (fun c => is_ascii_digit c = true) fp) →
  ∃ x, float_of_ascii (sg ++ (c :: a) ++ fr) = Some x.
Proof.
  intros Hsg Hc Ha Hfr. unfold float_of_ascii.
  assert (Hs : ∃ neg, split_sign (sg ++ (c :: a) ++ fr) = (neg, (c :: a) ++ fr)).
  { destruct Hsg as [-> | [-> | ->]].
    - exists false. apply split_sign_digit, Hc.
    - exists true. reflexivity.
    - exists false. reflexivity. }
  destruct Hs as (neg & ->). cbv beta iota.
  assert (Hno : 46 ∉ c :: a).
  { apply not_elem_of_Forall.
    assert (Hca : Forall (fun c => is_ascii_digit c = true) (c :: a))
      by (constructor; assumption).
    eapply Forall_impl; [exact Hca|].
    intros x Hx. apply is_ascii_digit_bounds in Hx. lia. }
  assert (Hall : forallb is_ascii_digit (c :: a) = true).
  { apply forallb_of_Forall. constructor; assumption. }
  destruct Hfr as [-> | (d & fp & -> & Hd & Hfp)].
  - rewrite app_nil_r, (split1_no_sep 46 (c :: a) Hno), Hall. cbn. eexists. reflexivity.
  - pose proof (split1_at_first 46 (c :: a) (d :: fp) Hno) as E. unfold char in E |- *.
    rewrite E. fold char. rewrite Hall.
    rewrite (forallb_of_Forall is_ascii_digit (d :: fp)); [|constructor; assumption].
    cbn. eexists. reflexivity.
Qed.

(** The digits of any script become ASCII digits, one for one. *)
Lemma ascii_decimal_digits_cons (c : char) (a : pystr) :
  is_digit c = true → Forall (fun c => is_digit c = true) a →
  ∃ c' a', ascii_decimal (c :: a) = c' :: a'
           ∧ is_ascii_digit c' = true ∧ Forall (fun c => is_ascii_digit c = true) a'.
Proof.
  intros Hc Ha. destruct (ascii_decimal_digit c a Hc) as (c' & Hc' & E).
  exists c', (ascii_decimal a). split; [exact E|]. split; [exact Hc'|].
  apply (ascii_decimal_digits a Ha).
Qed.

(** [float] reads a sign or none, digits of any script, and a point
    with digits or none. *)
Lemma py_float_plain (sg a fr : pystr) (c : char) :
  (sg = [] ∨ sg = [45] ∨ sg = [43]) →
  is_digit c = true → Forall (fun c => is_digit c = true) a →
  (fr = [] ∨ ∃ (d : char) (fp : pystr), fr = 46 :: d :: fp ∧ is_digit d = true
                     ∧ Forall (fun c => is_digit c = true) fp) →
  ∃ x, py_float (sg ++ (c :: a) ++ fr) = Some x.
Proof.
  intros Hsg Hc Ha Hfr. unfold py_float.
  assert (Hsg' : Forall (fun c => c < 127) sg).
  { destruct Hsg as [-> | [-> | ->]]; repeat constructor; lia. }
  rewrite ascii_decimal_app
    by (eapply Forall_impl; [exact Hsg'|]; intros x Hx; left; exact Hx).
  rewrite (ascii_decimal_ascii sg Hsg').
  assert (Hca : Forall (fun c => is_digit c = true) (c :: a)) by (constructor; assumption).
  rewrite ascii_decimal_app
    by (eapply Forall_impl; [exact Hca|]; intros x Hx; right; exact Hx).
  destruct (ascii_decimal_digits_cons c a Hc Ha) as (c' & a' & -> & Hc' & Ha').
  apply float_of_ascii_plain; try assumption.
  destruct Hfr as [-> | (d & fp & -> & Hd & Hfp)]; [left; reflexivity|]. right.
  change (ascii_decimal (46 :: d :: fp)) with (46 :: ascii_decimal (d :: fp)).
  destruct (ascii_decimal_digits_cons d fp Hd Hfp) as (d' & fp' & -> & Hd' & Hfp').
  exists d', fp'. auto.
Qed.

(** No numeric token makes [float] raise. *)
Lemma py_float_token (w : pystr) :
  lang num_re w → ∃ x, py_float (remove_char (chr ",") w) = Some x.
Proof.
  intros H. apply lang_num_re in H.
  destruct H as (sg & c & ip & fr & -> & Hsg & Hc & Hip & Hfr).
  change (chr ",") with 44. unfold remove_char. rewrite !List.filter_app.
  fold (remove_char 44 sg). fold (remove_char 44 (c :: ip)). fold (remove_char 44 fr).
  rewrite (remove_comma_keeps sg).
  2:{ destruct Hsg as [-> | [-> | ->]]; repeat constructor; lia. }
  rewrite (remove_comma_keeps fr).
  2:{ destruct Hfr as [-> | (d & fp & -> & Hd & Hfp)]; [constructor|].
      constructor; [lia|]. apply (digits_not 44); [lia|]. constructor; assumption. }
  assert (Hcip : remove_char 44 (c :: ip) = c :: remove_char 44 ip).
  { unfold remove_char. cbn [List.filter]. unfold char_eqb.
    destruct (N.eqb_spec c 44) as [-> |_]; [discriminate Hc|reflexivity]. }
  rewrite Hcip. apply py_float_plain; try assumption.
  apply remove_comma_digits, Hip.
Qed.

(** A digit starts a numeric token. *)
Lemma first_match_num_re_digit (before rest : pystr) (c : char) :
  is_digit c = true → first_match num_re (start_at before (c :: rest)) ≠ None.
Proof.
  intros Hc. apply (first_match_of_In _ _ (mkState (c :: before) rest [])).
  unfold num_re. cbn [run]. apply in_or_app. left.
  unfold grouped_re.
  apply (in_run_Seq _ _ _ (start_at before (c :: rest))); [apply in_run_Opt_skip|].
  apply (in_run_Seq _ _ _ (mkState (c :: before) rest [])).
  - unfold d1_3_re. apply (in_run_Seq _ _ _ (mkState (c :: before) rest [])).
    + unfold d_re. cbn [run start_at post pre caps]. rewrite Hc. left. reflexivity.
    + apply in_run_Opt_skip.
  - apply (in_run_Seq _ _ _ (mkState (c :: before) rest [])); [apply in_run_Star_skip|].
    apply in_run_Opt_skip.
Qed.

Lemma findall_num_re_digit (after : pystr) :
  ∀ before, Exists (fun c => is_digit c = true) after →
            findall_from num_re before after 0 ≠ [].
Proof.
  induction after as [|c after IH]; intros before H; [inversion H|].
  cbn [findall_from].
  destruct (first_match num_re (start_at before (c :: after))) as [[st' m]|] eqn:E;
    [discriminate|].
  inversion H as [x l Hc|x l Hrest]; subst.
  - exfalso. apply (first_match_num_re_digit before after c Hc E).
  - apply IH, Hrest.
Qed.

Lemma last_In {A : Type} (l : list A) (x : A) : last l = Some x → In x l.
Proof.
  intros H. apply list_elem_of_In. apply last_Some in H. destruct H as (l' & ->).
  apply list_elem_of_In, in_or_app. right. left. reflexivity.
Qed.

Lemma visible_digits (s : pystr) :
  Exists (fun c => is_digit c = true) (visible s) ↔ Exists (fun c => is_digit c = true) s.
Proof.
  unfold visible. induction s as [|c s IH]; [reflexivity|].
  cbn [List.filter]. destruct (is_space c) eqn:Hc; cbn [negb].
  - rewrite IH. split; [intros H; right; exact H|].
    intros H. inversion H as [x l Hd|x l Hr]; subst; [|exact Hr].
    exfalso. rewrite (digit_not_space c Hd) in Hc. discriminate Hc.
  - split; intros H; inversion H as [x l Hd|x l Hr]; subst;
      try (left; assumption); right; apply IH; assumption.
Qed.

(** The normalised text has a digit exactly when the input has one. *)
Lemma clean_spaces_digit (x : value) :
  is_missing x = false →
  Exists (fun c => is_digit c = true) (clean_spaces x)
  ↔ Exists (fun c => is_digit c = true) (py_str x).
Proof.
  intros Hx. rewrite <- (visible_digits (clean_spaces x)), <- (visible_digits (py_str x)).
  rewrite (clean_spaces_squeeze x Hx), visible_strip, visible_squeeze. reflexivity.
Qed.

Lemma no_digit_not_Exists (s : pystr) :
  Forall (fun c => is_digit c = false) s ↔ ¬ Exists (fun c => is_digit c = true) s.
Proof.
  induction s as [|c s IH].
  - split; [intros _ H; inversion H|constructor].
  - split.
    + intros H Hex. inversion H as [|x l Hc Hs]; subst.
      inversion Hex as [x l Hd|x l Hr]; subst; [congruence|].
      apply IH in Hs. contradiction.
    + intros H. constructor.
      * destruct (is_digit c) eqn:E; [|reflexivity]. exfalso. apply H. left. exact E.
      * apply IH. intros Hex. apply H. right. exact Hex.
Qed.

(** [float] yields a number; so do [abs] and the negation. *)
Lemma neg_abs_number (x : float) : is_nan x = false → is_nan (fneg (fabs x)) = false.
Proof. destruct x; intros H; try reflexivity; discriminate H. Qed.

(** An amount is returned exactly for an input that is not missing
    and whose text has a digit: [float] reads every numeric token, so
    the handler of [ValueError] is never entered. The amount is a
    number, never NaN. A digit is a decimal digit of any script, as
    [\d] has it. *)
Theorem amount_iff_digit (text : value) :
  (fst (parse_amount_and_currency text) = None
   ↔ is_missing text = true ∨ Forall (fun c => is_digit c = false) (py_str text))
  ∧ ∀ a, fst (parse_amount_and_currency text) = Some a → is_nan a = false.
Proof.
  unfold parse_amount_and_currency. destruct (is_missing text) eqn:Hm.
  { split; [split; auto|discriminate]. }
  pose proof (clean_spaces_digit text Hm) as Hd.
  rewrite no_digit_not_Exists, <- Hd.
  destruct (clean_spaces text) as [|c0 t0] eqn:Et.
  { split; [|discriminate]. split; [|reflexivity]. intros _. right. intros H. inversion H. }
  cbv zeta.
  destruct (last (findall num_re (c0 :: t0))) as [tok|] eqn:El.
  - assert (Htok : lang num_re tok).
    { apply last_In in El. unfold findall in El. apply (findall_from_lang _ _ _ _ _ El). }
    destruct (py_float_token tok Htok) as (x & Hx). rewrite Hx. cbn [fst]. split.
    + split; [discriminate|]. intros [H|H]; [discriminate|]. exfalso.
      apply no_digit_not_Exists in H.
      unfold findall in El. rewrite (findall_num_re_nil [] _ H) in El. discriminate.
    + intros a [= <-]. pose proof (py_float_number _ _ Hx) as Hn.
      destruct (discount_marked (c0 :: t0)); [apply neg_abs_number, Hn|exact Hn].
  - cbn [fst]. split; [|discriminate]. split; [|reflexivity]. intros _. right.
    intros Hex. apply (findall_num_re_digit _ [] Hex). apply last_None, El.
Qed.

(** An instance of the preceding theorem, on concrete inputs. *)
Lemma amount_iff_digit_witness :
  fst (parse_amount_and_currency (VStr (py "n/a"))) = None
  ∧ ∃ a, fst (parse_amount_and_currency (VStr (py "12 EUR"))) = Some a ∧ is_nan a = false.
Proof.
  split.
  - apply (proj1 (amount_iff_digit (VStr (py "n/a")))). right.
    change (py_str (VStr (py "n/a"))) with [110; 47; 97].
    repeat (apply Forall_cons_2; [vm_compute; reflexivity|]). apply Forall_nil_2.
  - destruct (fst (parse_amount_and_currency (VStr (py "12 EUR")))) as [a|] eqn:E;
      [|vm_compute in E; discriminate E].
    exists a. split; [reflexivity|].
    exact (proj2 (amount_iff_digit (VStr (py "12 EUR"))) a E).
Defined.

(** ** The currency is one of the known codes *)

Lemma ChrI_chars (c x : char) :
  char_eqb (lower_char x) (lower_char c)
  || existsb (char_eqb x) (ignorecase_also (lower_char c)) = true →
  In x (ignorecase_chars c).
Proof.
  intros H. unfold ignorecase_chars. cbv zeta. apply in_or_app.
  apply orb_prop in H. destruct H as [H|H].
  - left. unfold char_eqb in H. apply N.eqb_eq in H.
    destruct (lower_char_cases x _ H) as [E | [Hl E]]; rewrite E.
    + destruct (is_lower_letter (lower_char c)); left; reflexivity.
    + rewrite Hl. right. left. reflexivity.
  - right. apply existsb_exists in H. destruct H as (y & Hy & E).
    unfold char_eqb in E. apply N.eqb_eq in E. subst y. exact Hy.
Qed.

(** What a literal text matches under [re.I] is one of finitely many
    texts. *)
Lemma lang_StrI (s w : pystr) : lang (StrI s) w → In w (ignorecase_texts s).
Proof.
  revert w. induction s as [|c s IH]; intros w H.
  - cbn in H. subst w. left. reflexivity.
  - change (StrI (c :: s)) with (Seq (ChrI c) (StrI s)) in H.
    destruct H as (a & b & -> & (x & -> & Hx) & Hb).
    cbn [ignorecase_texts app]. apply in_flat_map. exists x.
    split; [apply ChrI_chars, Hx|]. apply in_map, IH, Hb.
Qed.

(** Every text that one of the ten codes matches under [re.I] has a
    known code for its upper case, unless it has the dotted capital I,
    which [str.upper] keeps. *)
Lemma codes_checked :
  forallb (fun code => forallb code_ok (ignorecase_texts code)) currency_codes = true.
Proof. vm_compute. reflexivity. Qed.

Lemma code_ok_spec (w : pystr) :
  code_ok w = true →
  In (upper w) currency_codes ∨ (upper w = dotted_INR ∧ In dotted_I w).
Proof.
  unfold code_ok. intros H. apply orb_prop in H. destruct H as [H|H].
  - left. apply existsb_exists in H. destruct H as (code & Hin & E).
    apply str_eqb_eq in E. rewrite E. exact Hin.
  - right. apply andb_prop in H. destruct H as [H1 H2]. split; [apply str_eqb_eq, H1|].
    apply existsb_exists in H2. destruct H2 as (x & Hx & E).
    apply N.eqb_eq in E. subst x. exact Hx.
Qed.

(** The alternatives of the code pattern, whatever the case. *)
Lemma lang_codes (w : pystr) :
  lang (AltL [StrI (py "USD"); StrI (py "EUR"); StrI (py "INR"); StrI (py "GBP");
              StrI (py "AED"); StrI (py "SGD"); StrI (py "AUD"); StrI (py "CAD");
              StrI (py "JPY")]
             (StrI (py "CNY"))) w →
  In (upper w) currency_codes ∨ (upper w = dotted_INR ∧ In dotted_I w).
Proof.
  intros H. cbn [AltL fold_right] in H. apply code_ok_spec.
  assert (Hone : ∀ code, lang (StrI code) w → In code currency_codes → code_ok w = true).
  { intros code Hl Hin. apply lang_StrI in Hl.
    pose proof codes_checked as Hb. rewrite forallb_forall in Hb.
    specialize (Hb code Hin). rewrite forallb_forall in Hb. exact (Hb w Hl). }
  repeat (destruct H as [H|H];
          [apply (Hone _ H); unfold currency_codes; cbn [map In]; tauto|]).
  apply (Hone _ H); unfold currency_codes; cbn [map In]; tauto.
Qed.

(** What group 1 holds after a run of the code pattern. *)
Lemma run_code_re (st st' : state) :
  In st' (run code_re st) →
  In (upper (group "1" (mkMatch (consumed st st') (caps st')))) currency_codes
  ∨ (upper (group "1" (mkMatch (consumed st st') (caps st'))) = dotted_INR
     ∧ In dotted_I (post st)).
Proof.
  unfold code_re. rewrite run_Seq. intros H.
  apply in_flat_map in H. destruct H as (st1 & H1 & H).
  cbn [run] in H1. destruct (at_boundary st); [|destruct H1]. destruct H1 as [<-|[]].
  rewrite run_Seq in H. apply in_flat_map in H. destruct H as (st2 & H2 & H3).
  change (run WordB st2) with (if at_boundary st2 then [st2] else []) in H3.
  destruct (at_boundary st2); [|destruct H3]. destruct H3 as [<-|[]].
  cbn [run] in H2. apply in_map_iff in H2. destruct H2 as (s' & <- & Hs').
  destruct (run_lang _ _ _ Hs') as (w & Hw & Lw).
  unfold group. cbn [groups caps find fst String.eqb Ascii.eqb Bool.eqb snd].
  rewrite (reads_consumed _ _ _ Hw).
  destruct (lang_codes w Lw) as [Hc|[Hc Hi]]; [left; exact Hc|right].
  split; [exact Hc|]. destruct Hw as [Hw _]. rewrite Hw. apply in_or_app. left. exact Hi.
Qed.

Lemma symbol_code (c : char) :
  existsb (char_eqb c) (py "€$₹£") = true →
  ∃ code, dict_get _CURRENCY_MAP [c] = Some code ∧ In code currency_codes.
Proof.
  intros H. change (py "€$₹£") with [8364; 36; 8377; 163] in H.
  cbn [existsb] in H. unfold char_eqb in H.
  repeat (apply orb_prop in H; destruct H as [H|H];
          [apply N.eqb_eq in H; subst c; eexists; split;
             [vm_compute; reflexivity|vm_compute; tauto]|]).
  discriminate H.
Qed.

(** A match found by [re.search] starts inside the text. *)
Lemma search_from_inside (r : regex) (after : pystr) :
  ∀ before m, search_from r before after = Some m →
    ∃ st st' skipped,
      In st' (run r st) ∧ m = mkMatch (consumed st st') (caps st')
      ∧ after = skipped ++ post st.
Proof.
  induction after as [|c after IH]; intros before m H; cbn [search_from] in H.
  - destruct (first_match r (start_at before [])) as [[st' m']|] eqn:E; [|discriminate].
    injection H as <-. apply first_match_lang in E. destruct E as [Hin ->].
    exists (start_at before []), st', []. auto.
  - destruct (first_match r (start_at before (c :: after))) as [[st' m']|] eqn:E.
    + injection H as <-. apply first_match_lang in E. destruct E as [Hin ->].
      exists (start_at before (c :: after)), st', []. auto.
    + destruct (IH _ _ H) as (st & st' & skipped & Hin & Hm & ->).
      exists st, st', (c :: skipped). auto.
Qed.

Lemma detect_currency_codes (t c : pystr) :
  detect_currency t = Some c →
  In c currency_codes ∨ (c = dotted_INR ∧ In dotted_I t).
Proof.
  unfold detect_currency. destruct (search code_re t) as [m|] eqn:E.
  - intros [= <-]. unfold search in E. apply search_from_inside in E.
    destruct E as (st & st' & skipped & Hin & -> & ->).
    destruct (run_code_re _ _ Hin) as [Hc|[Hc Hi]]; [left; exact Hc|right].
    split; [exact Hc|]. apply in_or_app. right. exact Hi.
  - destruct (search symbol_re t) as [m|] eqn:E2; [|discriminate].
    unfold search in E2. apply search_from_run in E2.
    destruct E2 as (st & st' & Hin & _ & ->). cbn [group0].
    destruct (run_lang _ _ _ Hin) as (w & Hw & (x & -> & Hx)).
    rewrite (reads_consumed _ _ _ Hw).
    destruct (symbol_code x Hx) as (code & -> & Hcode). intros [= <-]. left. exact Hcode.
Qed.

(** A code point of the normalised text that is no white space is a
    code point of the input. *)
Lemma clean_spaces_In (x : value) (c : char) :
  is_missing x = false → is_space c = false → In c (clean_spaces x) → In c (py_str x).
Proof.
  intros Hx Hc Hin.
  assert (Hv : In c (visible (clean_spaces x))).
  { unfold visible. apply filter_In. split; [exact Hin|]. rewrite Hc. reflexivity. }
  rewrite (clean_spaces_squeeze x Hx), visible_strip, visible_squeeze in Hv.
  unfold visible in Hv. apply filter_In in Hv. exact (proj1 Hv).
Qed.

(** Whatever the input, the currency returned is absent, or one of the
    ten codes of the pattern in upper case, or, for a text with the
    capital I with a dot above (U+0130), "INR" written with that
    letter: under [re.I] the letter matches the I of the pattern, and
    [str.upper] leaves it as it is. *)
Theorem currency_is_known_code (text : value) (c : pystr) :
  snd (parse_amount_and_currency text) = Some c →
  In c currency_codes ∨ (c = dotted_INR ∧ In dotted_I (py_str text)).
Proof.
  unfold parse_amount_and_currency. destruct (is_missing text) eqn:Hm; [discriminate|].
  assert (Hd : detect_currency (clean_spaces text) = Some c →
               In c currency_codes ∨ (c = dotted_INR ∧ In dotted_I (py_str text))).
  { intros H. destruct (detect_currency_codes _ _ H) as [Hc|[Hc Hi]]; [left; exact Hc|right].
    split; [exact Hc|]. apply (clean_spaces_In text dotted_I Hm eq_refl Hi). }
  destruct (clean_spaces text) as [|c0 t0]; [discriminate|]. cbv zeta.
  destruct (last (findall num_re (c0 :: t0))) as [tok|]; [|exact Hd].
  destruct (py_float (remove_char (chr ",") tok)); exact Hd.
Qed.

(** An instance of the preceding theorem, on the text "İNR 5": the
    currency returned is none of the ten codes. *)
Lemma currency_is_known_code_witness :
  snd (parse_amount_and_currency (VStr (dotted_INR ++ py " 5"))) = Some dotted_INR
  ∧ (In dotted_INR currency_codes
     ∨ (dotted_INR = dotted_INR ∧ In dotted_I (py_str (VStr (dotted_INR ++ py " 5"))))).
Proof.
  assert (E : snd (parse_amount_and_currency (VStr (dotted_INR ++ py " 5"))) = Some dotted_INR)
    by (vm_compute; reflexivity).
  split; [exact E|].
  exact (currency_is_known_code (VStr (dotted_INR ++ py " 5")) dotted_INR E).
Defined.

(** ** The marks of a discount *)

Lemma search_paren_minus (a b w1 w2 : pystr) :
  Forall (fun c => is_space c = true) w1 → Forall (fun c => is_space c = true) w2 →
  is_match (search paren_minus_re (a ++ paren_minus w1 w2 ++ b)) = true.
Proof.
  intros H1 H2.
  assert (H : search paren_minus_re (a ++ paren_minus w1 w2 ++ b) ≠ None).
  { apply search_from_found. rewrite app_nil_r.
    unfold paren_minus, start_at. cbn [app]. repeat (rewrite <- app_assoc; cbn [app]).
    eapply first_match_of_In. unfold paren_minus_re.
    eapply in_run_Seq; [apply in_run_Chr|].
    eapply in_run_Seq; [apply in_run_Star_space, H1|].
    eapply in_run_Seq; [apply in_run_Chr|].
    eapply in_run_Seq; [apply in_run_Star_space, H2|].
    apply in_run_Chr. }
  destruct (search _ _); [reflexivity|congruence].
Qed.

Lemma marked_paren_minus (s : pystr) :
  has_paren_minus s → discount_marked (strip (squeeze s false)) = true.
Proof.
  intros (a & b & w1 & w2 & -> & H1 & H2). unfold paren_minus. cbn [app].
  repeat (rewrite <- app_assoc; cbn [app]).
  destruct (normalize_infix a (w1 ++ chr "-" :: w2) b (chr "(") (chr ")") eq_refl eq_refl)
    as (a' & b' & Heq).
  rewrite <- app_assoc in Heq. cbn [app] in Heq. rewrite Heq.
  rewrite (squeeze_app_nonspace w1 w2 (chr "-") false eq_refl).
  repeat (rewrite <- app_assoc; cbn [app]).
  unfold discount_marked.
  pose proof (search_paren_minus a' b' (squeeze w1 false) (squeeze w2 false)
                (proj2 (squeeze_space w1 false) H1) (proj2 (squeeze_space w2 false) H2)) as Hs.
  unfold paren_minus in Hs. cbn [app] in Hs.
  repeat (rewrite <- app_assoc in Hs; cbn [app] in Hs).
  rewrite Hs. rewrite !orb_true_r. reflexivity.
Qed.

Lemma marked_literal (s : pystr) :
  contains s (py "(-)") = true → discount_marked (strip (squeeze s false)) = true.
Proof.
  intros H. apply marked_paren_minus. apply contains_spec in H.
  destruct H as (a & b & ->). exists a, b, [], []. repeat split; constructor.
Qed.

Lemma marked_discount (s : pystr) :
  contains_ci s (py "discount") = true → discount_marked (strip (squeeze s false)) = true.
Proof.
  unfold contains_ci. intros H. apply contains_spec in H. destruct H as (a0 & b0 & H).
  unfold lower in H at 1.
  apply map_app_inv in H. destruct H as (a & wb & -> & _ & H).
  apply map_app_inv in H. destruct H as (w & b & -> & Hw & _).
  vm_compute in Hw.
  do 8 (destruct w as [|? w]; [discriminate Hw|]). destruct w; [|discriminate Hw].
  injection Hw as L1 L2 L3 L4 L5 L6 L7 L8.
  destruct (lower_char_letter _ _ L1 eq_refl) as [S1 U1].
  destruct (lower_char_letter _ _ L2 eq_refl) as [S2 U2].
  destruct (lower_char_letter _ _ L3 eq_refl) as [S3 U3].
  destruct (lower_char_letter _ _ L4 eq_refl) as [S4 U4].
  destruct (lower_char_letter _ _ L5 eq_refl) as [S5 U5].
  destruct (lower_char_letter _ _ L6 eq_refl) as [S6 U6].
  destruct (lower_char_letter _ _ L7 eq_refl) as [S7 U7].
  destruct (lower_char_letter _ _ L8 eq_refl) as [S8 U8].
  cbn [app].
  match goal with
  | |- context [a ++ ?c1 :: ?c2 :: ?c3 :: ?c4 :: ?c5 :: ?c6 :: ?c7 :: ?c8 :: b] =>
      destruct (normalize_infix a [c2; c3; c4; c5; c6; c7] b c1 c8 S1 S8) as (a' & b' & Heq);
      cbn [app] in Heq; rewrite Heq;
      rewrite (squeeze_nonspace [c2; c3; c4; c5; c6; c7]) by (repeat constructor; assumption)
  end.
  unfold discount_marked.
  match goal with
  | |- contains (upper ?t) _ || _ || _ = true =>
      assert (Hc : contains (upper t) (py "DISCOUNT") = true)
  end.
  { apply contains_spec. exists (upper a'), (upper b').
    unfold upper. rewrite flat_map_app. cbn [app flat_map].
    rewrite U1, U2, U3, U4, U5, U6, U7, U8. reflexivity. }
  rewrite Hc. reflexivity.
Qed.

Lemma discount_text_marked (s : pystr) :
  discount_text s → discount_marked (strip (squeeze s false)) = true.
Proof.
  intros [H|[H|H]];
    [apply marked_discount|apply marked_literal|apply marked_paren_minus]; exact H.
Qed.

(** C5, as stated, fails: in "DISCOUNT 0" the token 0 is parsed and
    the amount returned is the negative zero, which is not below
    zero. *)
Lemma C5_zero_discount_not_negative :
  contains_ci (py "DISCOUNT 0") (py "discount") = true
  ∧ last (findall num_re (clean_spaces (VStr (py "DISCOUNT 0")))) = Some (py "0")
  ∧ ∃ amount,
      parse_amount_and_currency (VStr (py "DISCOUNT 0")) = (Some amount, None)
      ∧ amount = S754_zero true
      ∧ flt amount zero = false.
Proof.
  split; [vm_compute; reflexivity|]. split; [vm_compute; reflexivity|].
  eexists. split; [vm_compute; reflexivity|]. split; reflexivity.
Qed.

(** C5, amended. For a text that contains "discount" in any case, or
    "(-)", or a parenthesised minus sign with white space inside, and
    whose last numeric token is parsed as the number [x], the amount
    returned is minus the absolute value of [x], whatever the sign of
    the token: its sign bit is set, it is never above zero, and it is
    below zero exactly when [x] is not a zero. *)
Theorem C5_discount_forces_minus_abs (text : value) (tok : pystr) (x : float) :
  is_missing text = false →
  discount_text (py_str text) →
  last (findall num_re (clean_spaces text)) = Some tok →
  py_float (remove_char (chr ",") tok) = Some x →
  fst (parse_amount_and_currency text) = Some (fneg (fabs x))
  ∧ sign_bit (fneg (fabs x)) = true
  ∧ flt zero (fneg (fabs x)) = false
  ∧ flt (fneg (fabs x)) zero = negb (is_zero x).
Proof.
  intros Hm Hd Hlast Hx. split; [|apply neg_abs_sign, (py_float_number _ _ Hx)].
  unfold parse_amount_and_currency. rewrite Hm.
  pose proof (discount_text_marked _ Hd) as Hmark.
  rewrite <- (clean_spaces_squeeze text Hm) in Hmark.
  destruct (clean_spaces text) as [|c t] eqn:E; [discriminate Hlast|].
  rewrite Hlast, Hx, Hmark. reflexivity.
Qed.

(** An instance of the preceding theorem, on a concrete input. *)
Lemma C5_discount_forces_minus_abs_witness :
  is_missing (VStr (py "Discount ( - ) 1,250.50 EUR")) = false
  ∧ discount_text (py_str (VStr (py "Discount ( - ) 1,250.50 EUR")))
  ∧ ∃ x,
      py_float (py "1250.50") = Some x
      ∧ fst (parse_amount_and_currency (VStr (py "Discount ( - ) 1,250.50 EUR")))
        = Some (fneg (fabs x))
      ∧ flt (fneg (fabs x)) zero = true.
Proof.
  assert (Hm : is_missing (VStr (py "Discount ( - ) 1,250.50 EUR")) = false) by reflexivity.
  assert (Hd : discount_text (py_str (VStr (py "Discount ( - ) 1,250.50 EUR")))).
  { left. vm_compute. reflexivity. }
  assert (Hlast : last (findall num_re (clean_spaces (VStr (py "Discount ( - ) 1,250.50 EUR"))))
                  = Some (py "1,250.50")) by (vm_compute; reflexivity).
  destruct (py_float (py "1250.50")) as [x|] eqn:Hx; [|vm_compute in Hx; discriminate Hx].
  split; [exact Hm|]. split; [exact Hd|]. exists x. split; [reflexivity|].
  destruct (C5_discount_forces_minus_abs _ _ x Hm Hd Hlast Hx) as (Ha & _ & _ & Hneg).
  split; [exact Ha|]. rewrite Hneg.
  vm_compute in Hx. injection Hx as <-. reflexivity.
Defined.

(** ** The date normaliser *)

Lemma try_formats_Some (t : pystr) (fs : list pystr) (r : pystr) :
  try_formats t fs = Some r ↔
  ∃ (i : nat) (f : pystr) (d : date),
    fs !! i = Some f ∧ strptime t f = Some d ∧ r = strftime_iso d
    ∧ ∀ (j : nat) (g : pystr), (j < i)%nat → fs !! j = Some g → strptime t g = None.
Proof.
  induction fs as [|f fs IH]; simpl.
  - split; [discriminate|]. intros (i & f & d & Hi & _). destruct i; discriminate Hi.
  - destruct (strptime t f) as [d|] eqn:Hf.
    + split.
      * intros [= <-]. exists 0%nat, f, d. repeat split; try assumption; try reflexivity.
        intros j g Hj. lia.
      * intros (i & g & d' & Hi & Hg & -> & Hbefore). destruct i as [|i].
        -- injection Hi as <-. rewrite Hf in Hg. injection Hg as <-. reflexivity.
        -- specialize (Hbefore 0%nat f ltac:(lia) eq_refl). congruence.
    + rewrite IH. split.
      * intros (i & g & d & Hi & Hg & -> & Hbefore).
        exists (S i), g, d. repeat split; try assumption.
        intros j h Hj Hh. destruct j as [|j].
        -- injection Hh as <-. exact Hf.
        -- apply (Hbefore j h); [lia|exact Hh].
      * intros (i & g & d & Hi & Hg & -> & Hbefore). destruct i as [|i].
        -- injection Hi as <-. congruence.
        -- exists i, g, d. repeat split; try assumption.
           intros j h Hj Hh. apply (Hbefore (S j) h); [lia|exact Hh].
Qed.

Lemma try_formats_None (t : pystr) (fs : list pystr) :
  try_formats t fs = None ↔ Forall (fun f => strptime t f = None) fs.
Proof.
  induction fs as [|f fs IH]; simpl.
  - split; [constructor|reflexivity].
  - destruct (strptime t f) as [d|] eqn:Hf.
    + split; [discriminate|]. intros H. inversion H; subst. congruence.
    + rewrite IH. split.
      * intros H. constructor; assumption.
      * intros H. inversion H; assumption.
Qed.

Local Ltac div_lia := zify; Z.to_euclidean_division_equations; lia.

Lemma digit_char_ascii (n : N) : is_ascii_digit (digit_char n) = true.
Proof.
  unfold is_ascii_digit, digit_char.
  apply andb_true_intro. split; apply N.leb_le; div_lia.
Qed.

Lemma digit_char_is_digit (n : N) : is_digit (digit_char n) = true.
Proof. apply is_digit_ascii, digit_char_ascii. Qed.

Lemma two_digits_ascii (n : N) : Forall (fun c => is_ascii_digit c = true) (two_digits n).
Proof. unfold two_digits. repeat (apply Forall_cons_2; [apply digit_char_ascii|]). constructor. Qed.

Lemma four_digits_ascii (n : N) : Forall (fun c => is_ascii_digit c = true) (four_digits n).
Proof. unfold four_digits. repeat (apply Forall_cons_2; [apply digit_char_ascii|]). constructor. Qed.

Lemma uint_chars_ascii (u : Decimal.uint) :
  Forall (fun c => is_ascii_digit c = true) (uint_chars u).
Proof. induction u; cbn [uint_chars]; constructor; try assumption; reflexivity. Qed.

(** [str] writes a number in ASCII digits. *)
Lemma str_N_ascii (n : N) : Forall (fun c => is_ascii_digit c = true) (str_N n).
Proof. apply uint_chars_ascii. Qed.

Lemma four_digit_years :
  forallb (fun n => str_eqb (str_N n) (four_digits n)) (N_range 1000 9000) = true.
Proof. vm_compute. reflexivity. Qed.

(** From 1000 on a year is written with four digits. *)
Lemma str_N_four_digits (n : N) : 1000 <= n → n < 10000 → str_N n = four_digits n.
Proof.
  intros H1 H2. pose proof four_digit_years as Hb. rewrite forallb_forall in Hb.
  apply str_eqb_eq, Hb, N_range_In; lia.
Qed.

Lemma short_years :
  forallb (fun n => (length (str_N n) <? 4)%nat) (N_range 0 1000) = true.
Proof. vm_compute. reflexivity. Qed.

(** Below 1000 a year is written with fewer than four digits. *)
Lemma str_N_short (n : N) : n < 1000 → (length (str_N n) < 4)%nat.
Proof.
  intros H. pose proof short_years as Hb. rewrite forallb_forall in Hb.
  apply Nat.ltb_lt, (Hb n), N_range_In; lia.
Qed.

Lemma digit_val_char (n : N) : digit_val (digit_char n) = n mod 10.
Proof. unfold digit_val, digit_char. div_lia. Qed.

Lemma int_of_two_digits (n : N) : n < 100 → int_of_digits (two_digits n) = n.
Proof.
  intros Hn. unfold int_of_digits, two_digits. simpl.
  rewrite !digit_val_char. div_lia.
Qed.

Lemma int_of_four_digits (n : N) : n < 10000 → int_of_digits (four_digits n) = n.
Proof.
  intros Hn. unfold int_of_digits, four_digits. simpl.
  rewrite !digit_val_char. div_lia.
Qed.

Lemma valid_date_bounds (d : date) :
  valid_date d = true → year d < 10000 ∧ month d < 100 ∧ day d < 100.
Proof.
  unfold valid_date. intros H.
  repeat (apply andb_prop in H; destruct H as [H ?]).
  repeat match goal with H : (_ <=? _) = true |- _ => apply N.leb_le in H end.
  assert (days_in_month (year d) (month d) <= 31).
  { unfold days_in_month. repeat case_match; lia. }
  lia.
Qed.

(** From the year 1000 on, what [strftime] writes has the form
    YYYY-MM-DD. *)
Lemma strftime_iso_spec (d : date) :
  valid_date d = true → 1000 <= year d → iso_of d (strftime_iso d).
Proof.
  intros Hd H1000. apply valid_date_bounds in Hd. destruct Hd as (Hy & Hm & Hdd).
  exists (four_digits (year d)), (two_digits (month d)), (two_digits (day d)).
  split; [unfold strftime_iso; rewrite (str_N_four_digits _ H1000 Hy); reflexivity|].
  repeat split; try reflexivity.
  - unfold four_digits, two_digits. simpl. rewrite !digit_char_ascii. reflexivity.
  - apply int_of_four_digits, Hy.
  - apply int_of_two_digits, Hm.
  - apply int_of_two_digits, Hdd.
Qed.

Lemma strptime_valid (s f : pystr) (d : date) : strptime s f = Some d → valid_date d = true.
Proof.
  unfold strptime. destruct (format_re f) as [r|]; [|discriminate].
  destruct (match_ r s) as [[st' m]|]; [|discriminate].
  destruct (post st'); [|discriminate].
  destruct (month_of m) as [mo|]; [|discriminate].
  match goal with |- context [valid_date ?x] => destruct (valid_date x) eqn:Hv end;
    [|discriminate].
  intros [= <-]. exact Hv.
Qed.

Lemma after_colon_value (a b : pystr) :
  chr ":" ∉ a → after_colon (a ++ chr ":" :: b) = strip b.
Proof. intros Ha. unfold after_colon. rewrite split1_at_first by exact Ha. reflexivity. Qed.

Lemma after_colon_no_colon (t : pystr) : chr ":" ∉ t → after_colon t = t.
Proof. intros Ht. unfold after_colon. rewrite split1_no_sep by exact Ht. reflexivity. Qed.

Lemma normalize_date_unfold (text : value) :
  is_missing text = false → clean_spaces text ≠ [] →
  normalize_date text = try_formats (after_colon (clean_spaces text)) formats.
Proof.
  intros Hm Ht. unfold normalize_date. rewrite Hm.
  destruct (clean_spaces text); [congruence|reflexivity].
Qed.

(** On a text that is not empty once normalised, [normalize_date]
    keeps what follows the first colon (the whole text when there is
    none) and returns what [strftime] writes for the date read by the
    first of the six formats, in their fixed order, that parses it;
    it returns nothing exactly when all six fail. From the year 1000
    on the result has the form YYYY-MM-DD. The formats read
    day-month-year with the abbreviated and the full month name,
    day/month/year, day-month-year, year-month-day and month/day/year.
    "Date: 01/02/2021" gives "2021-02-01", and "2021-05-12" gives
    itself. *)
Theorem normalize_date_first_format_wins :
  (∀ text : value,
     is_missing text = false → clean_spaces text ≠ [] →
     let t := after_colon (clean_spaces text) in
     (∀ r : pystr,
        normalize_date text = Some r ↔
        ∃ (i : nat) (f : pystr) (d : date),
          formats !! i = Some f ∧ strptime t f = Some d ∧ r = strftime_iso d
          ∧ ∀ (j : nat) (g : pystr), (j < i)%nat → formats !! j = Some g → strptime t g = None)
     ∧ (∀ r : pystr,
          normalize_date text = Some r →
          ∃ d : date, valid_date d = true ∧ r = strftime_iso d
                      ∧ (1000 <= year d → iso_of d r))
     ∧ (normalize_date text = None ↔ Forall (fun f => strptime t f = None) formats))
  ∧ (∀ a b : pystr, chr ":" ∉ a → after_colon (a ++ chr ":" :: b) = strip b)
  ∧ (∀ t : pystr, chr ":" ∉ t → after_colon t = t)
  ∧ formats = map py ["%d-%b-%Y"; "%d-%B-%Y"; "%d/%m/%Y"; "%d-%m-%Y"; "%Y-%m-%d"; "%m/%d/%Y"]%string
  ∧ strptime (py "15-Jan-2021") (py "%d-%b-%Y") = Some (mkDate 2021 1 15)
  ∧ strptime (py "15-January-2021") (py "%d-%B-%Y") = Some (mkDate 2021 1 15)
  ∧ strptime (py "13/02/2021") (py "%d/%m/%Y") = Some (mkDate 2021 2 13)
  ∧ strptime (py "13-02-2021") (py "%d-%m-%Y") = Some (mkDate 2021 2 13)
  ∧ strptime (py "2021-02-13") (py "%Y-%m-%d") = Some (mkDate 2021 2 13)
  ∧ strptime (py "02/13/2021") (py "%m/%d/%Y") = Some (mkDate 2021 2 13)
  ∧ normalize_date (VStr (py "15-Jan-2021")) = Some (py "2021-01-15")
  ∧ normalize_date (VStr (py "Date: 01/02/2021")) = Some (py "2021-02-01")
  ∧ normalize_date (VStr (py "2021-05-12")) = Some (py "2021-05-12").
Proof.
  split.
  { intros text Hm Ht t. subst t.
    rewrite (normalize_date_unfold text Hm Ht).
    split; [|split].
    - intros r. apply try_formats_Some.
    - intros r Hr. apply try_formats_Some in Hr.
      destruct Hr as (i & f & d & _ & Hd & -> & _).
      pose proof (strptime_valid _ _ _ Hd) as Hv.
      exists d. split; [exact Hv|]. split; [reflexivity|]. apply strftime_iso_spec, Hv.
    - apply try_formats_None. }
  split; [exact after_colon_value|].
  split; [exact after_colon_no_colon|].
  repeat split; vm_compute; reflexivity.
Qed.

(** An instance of the preceding theorem, on a concrete input. *)
Lemma normalize_date_first_format_wins_witness :
  is_missing (VStr (py "Date: 01/02/2021")) = false
  ∧ clean_spaces (VStr (py "Date: 01/02/2021")) ≠ []
  ∧ (normalize_date (VStr (py "Date: 01/02/2021")) = None ↔
     Forall (fun f => strptime (after_colon (clean_spaces (VStr (py "Date: 01/02/2021")))) f = None)
            formats).
Proof.
  assert (Hm : is_missing (VStr (py "Date: 01/02/2021")) = false) by reflexivity.
  assert (Ht : clean_spaces (VStr (py "Date: 01/02/2021")) ≠ []).
  { vm_compute. discriminate. }
  split; [exact Hm|]. split; [exact Ht|].
  exact (proj2 (proj2 (proj1 normalize_date_first_format_wins _ Hm Ht))).
Defined.

(** C6. The code breaks the claim for a year below 1000. The year is
    read with four digits, zero-filled, and written back by
    [strftime] without the fill: "12/05/0999" and the ISO date
    "0999-05-12" both give "999-05-12", which is not of the form
    YYYY-MM-DD and which [normalize_date] itself does not read. *)
Theorem C6_year_below_1000_loses_zero_fill :
  normalize_date (VStr (py "12/05/0999")) = Some (py "999-05-12")
  ∧ normalize_date (VStr (py "0999-05-12")) = Some (py "999-05-12")
  ∧ normalize_date (VStr (py "999-05-12")) = None.
Proof. repeat split; vm_compute; reflexivity. Qed.

(** ** The date normaliser on its own output *)

Lemma star_lift (step : state → list state) (p : pystr) (c : list (string * pystr)) :
  (∀ st, step (lift p c st) = map (lift p c) (step st)) →
  ∀ fuel st, star step fuel (lift p c st) = map (lift p c) (star step fuel st).
Proof.
  intros Hstep fuel. induction fuel as [|n IH]; intros st; [reflexivity|].
  cbn [star]. rewrite map_app. cbn [map]. f_equal.
  rewrite Hstep. generalize (step st). intros l.
  induction l as [|x l IHl]; [reflexivity|].
  cbn [map flat_map]. rewrite map_app, IHl. f_equal.
  unfold advanced. cbn [lift post].
  destruct (length (post x) <? length (post st))%nat; [apply IH|reflexivity].
Qed.

(** A pattern without [\b] does not look at the history. *)
Lemma run_lift (r : regex) (p : pystr) (c : list (string * pystr)) :
  wordb_free r = true → ∀ st, run r (lift p c st) = map (lift p c) (run r st).
Proof.
  induction r as [|q|r1 IH1 r2 IH2|r1 IH1 r2 IH2|r1 IH1| |name r1 IH1]; intros Hf st;
    cbn [wordb_free] in Hf.
  - reflexivity.
  - cbn [run lift post]. destruct (post st) as [|x s']; [reflexivity|].
    destruct (q x); reflexivity.
  - apply andb_prop in Hf. destruct Hf as [H1 H2]. cbn [run]. rewrite (IH1 H1).
    generalize (run r1 st). intros l. induction l as [|x l IHl]; [reflexivity|].
    cbn [map flat_map]. rewrite map_app, IHl, (IH2 H2). reflexivity.
  - apply andb_prop in Hf. destruct Hf as [H1 H2]. cbn [run].
    rewrite map_app, (IH1 H1), (IH2 H2). reflexivity.
  - cbn [run]. change (post (lift p c st)) with (post st).
    apply star_lift. apply (IH1 Hf).
  - discriminate Hf.
  - cbn [run]. rewrite (IH1 Hf), !map_map. apply map_ext. intros x. reflexivity.
Qed.

Lemma run_digit (c : char) (p s : pystr) (cs : list (string * pystr)) :
  is_digit c = true → run d_re (mkState p (c :: s) cs) = [mkState (c :: p) s cs].
Proof. intros H. unfold d_re. cbn [run post pre caps]. rewrite H. reflexivity. Qed.

Lemma run_Group (name : string) (r : regex) (st : state) :
  run (Group name r) st
  = map (fun st' => mkState (pre st') (post st') ((name, consumed st st') :: caps st'))
        (run r st).
Proof. reflexivity. Qed.

Lemma run_year (y1 y2 y3 y4 : char) (s : pystr) :
  is_digit y1 = true → is_digit y2 = true → is_digit y3 = true → is_digit y4 = true →
  run (dir "Y") (start_at [] (y1 :: y2 :: y3 :: y4 :: s))
  = [lift [y4; y3; y2; y1] [("Y"%string, [y1; y2; y3; y4])] (mkState [] s [])].
Proof.
  intros H1 H2 H3 H4.
  change (dir "Y") with (Group "Y" (Seq d_re (Seq d_re (Seq d_re d_re)))).
  rewrite run_Group. unfold start_at. rewrite run_Seq.
  rewrite (run_digit y1) by exact H1. cbn [flat_map]. rewrite app_nil_r, run_Seq.
  rewrite (run_digit y2) by exact H2. cbn [flat_map]. rewrite app_nil_r, run_Seq.
  rewrite (run_digit y3) by exact H3. cbn [flat_map]. rewrite app_nil_r.
  rewrite (run_digit y4) by exact H4. cbn [app map]. unfold lift. cbn [pre post caps app].
  f_equal. f_equal. f_equal. f_equal.
  exact (reads_consumed (mkState [] ([y1; y2; y3; y4] ++ s) []) (mkState [y4; y3; y2; y1] s [])
                        [y1; y2; y3; y4] (conj eq_refl eq_refl)).
Qed.

Lemma iso_tail_all : forallb (fun mo => forallb (iso_tail_ok mo) days) months = true.
Proof. vm_compute. reflexivity. Qed.

Lemma month_cases (mo : N) : 1 <= mo → mo <= 12 → In mo months.
Proof.
  intros H1 H2. unfold months. cbn [In].
  assert (mo = 1 ∨ mo = 2 ∨ mo = 3 ∨ mo = 4 ∨ mo = 5 ∨ mo = 6 ∨ mo = 7 ∨ mo = 8 ∨ mo = 9
          ∨ mo = 10 ∨ mo = 11 ∨ mo = 12) as H by lia.
  repeat (destruct H as [-> | H]; [tauto|]). subst mo. tauto.
Qed.

Lemma day_cases (dy : N) : 1 <= dy → dy <= 31 → In dy days.
Proof.
  intros H1 H2.
  destruct (N.le_gt_cases dy 16) as [Hl|Hg].
  - assert (dy = 1 ∨ dy = 2 ∨ dy = 3 ∨ dy = 4 ∨ dy = 5 ∨ dy = 6 ∨ dy = 7 ∨ dy = 8
            ∨ dy = 9 ∨ dy = 10 ∨ dy = 11 ∨ dy = 12 ∨ dy = 13 ∨ dy = 14 ∨ dy = 15
            ∨ dy = 16) as H by lia.
    unfold days. cbn [In].
    repeat (destruct H as [-> | H]; [tauto|]). subst dy. tauto.
  - assert (dy = 17 ∨ dy = 18 ∨ dy = 19 ∨ dy = 20 ∨ dy = 21 ∨ dy = 22 ∨ dy = 23
            ∨ dy = 24 ∨ dy = 25 ∨ dy = 26 ∨ dy = 27 ∨ dy = 28 ∨ dy = 29 ∨ dy = 30
            ∨ dy = 31) as H by lia.
    unfold days. cbn [In].
    repeat (destruct H as [-> | H]; [tauto|]). subst dy. tauto.
Qed.

Lemma days_in_month_le (y m : N) : days_in_month y m <= 31.
Proof.
  unfold days_in_month. repeat case_match; lia.
Qed.

Lemma valid_date_cases (d : date) :
  valid_date d = true → In (month d) months ∧ In (day d) days.
Proof.
  unfold valid_date. intros H.
  repeat (apply andb_prop in H; destruct H as [H ?]).
  repeat match goal with H : (_ <=? _) = true |- _ => apply N.leb_le in H end.
  pose proof (days_in_month_le (year d) (month d)).
  split; [apply month_cases|apply day_cases]; lia.
Qed.

Lemma iso_tail_first (mo dy : N) :
  In mo months → In dy days →
  ∃ st tl, run iso_tail_re (mkState [] (iso_tail mo dy) []) = st :: tl
           ∧ post st = []
           ∧ caps st = [("d"%string, two_digits dy); ("m"%string, two_digits mo)].
Proof.
  intros Hm Hd. pose proof iso_tail_all as H.
  rewrite forallb_forall in H. specialize (H mo Hm).
  rewrite forallb_forall in H. specialize (H dy Hd).
  unfold iso_tail_ok in H. apply bool_decide_eq_true in H.
  destruct (run iso_tail_re (mkState [] (iso_tail mo dy) [])) as [|st tl]; [discriminate H|].
  cbn [map head] in H. injection H as H1 H2. exists st, tl. auto.
Qed.

Lemma format_iso :
  format_re (py "%Y-%m-%d") = Some (Seq (dir "Y") iso_tail_re).
Proof. reflexivity. Qed.

Lemma ascii_digits_below (s : pystr) :
  Forall (fun c => is_ascii_digit c = true) s → Forall (fun c => c < 127) s.
Proof.
  intros H. eapply Forall_impl; [exact H|].
  intros c Hc. apply is_ascii_digit_bounds in Hc. lia.
Qed.

(** [int] on ASCII digits. *)
Lemma int_of_ascii (s : pystr) :
  Forall (fun c => is_ascii_digit c = true) s → int_of s = int_of_digits s.
Proof.
  intros H. unfold int_of. rewrite (ascii_decimal_ascii s (ascii_digits_below s H)).
  destruct H as [|c s Hc _]; [reflexivity|].
  cbn [lstrip]. rewrite (digit_not_space c (is_digit_ascii c Hc)). reflexivity.
Qed.

(** The fifth format reads the ISO form of a date back, from the year
    1000 on. *)
Lemma strptime_iso (d : date) :
  valid_date d = true → 1000 <= year d →
  strptime (strftime_iso d) (py "%Y-%m-%d") = Some d.
Proof.
  intros Hv H1000. destruct (valid_date_cases d Hv) as [Hm Hd].
  destruct (valid_date_bounds d Hv) as (Hy & Hmo & Hdy).
  unfold strptime. rewrite format_iso. unfold match_, first_match.
  unfold strftime_iso. rewrite (str_N_four_digits _ H1000 Hy). unfold four_digits.
  change (py "-" ++ two_digits (month d) ++ py "-" ++ two_digits (day d))
    with (iso_tail (month d) (day d)).
  cbn [app]. rewrite run_Seq, run_year by apply digit_char_is_digit.
  cbn [flat_map]. rewrite app_nil_r, run_lift by reflexivity.
  destruct (iso_tail_first _ _ Hm Hd) as (st & tl & -> & Hpost & Hcaps).
  cbn [map]. cbn [lift post]. rewrite Hpost.
  unfold month_of, has_group, group. cbn [groups caps lift]. rewrite Hcaps.
  cbn [app existsb find fst snd String.eqb Ascii.eqb Bool.eqb orb].
  rewrite !(int_of_ascii (two_digits _)) by apply two_digits_ascii.
  rewrite (int_of_two_digits _ Hmo), (int_of_two_digits _ Hdy).
  fold (four_digits (year d)).
  rewrite (int_of_ascii (four_digits _)) by apply four_digits_ascii.
  rewrite (int_of_four_digits _ Hy).
  destruct d as [y m dd]. cbn [year month day] in *. rewrite Hv. reflexivity.
Qed.

Lemma flat_map_nil {A B : Type} (f : A → list B) (l : list A) :
  (∀ x, In x l → f x = []) → flat_map f l = [].
Proof.
  induction l as [|x l IH]; intros H; [reflexivity|].
  cbn [flat_map]. rewrite (H x (or_introl eq_refl)), IH; [reflexivity|].
  intros y Hy. apply H. right. exact Hy.
Qed.

(** The day directive reads one or two characters. *)
Lemma lang_dir_d (w : pystr) : lang (dir "d") w → (∃ a, w = [a]) ∨ (∃ a b, w = [a; b]).
Proof.
  change (dir "d") with
    (Group "d"
      (AltL [Seq (Chr (chr "3")) (digit_range "0" "1");
             Seq (digit_range "1" "2") d_re;
             Seq (Chr (chr "0")) (digit_range "1" "9");
             digit_range "1" "9"]
            (Seq (Chr (chr " ")) (digit_range "1" "9")))).
  cbn [lang AltL fold_right]. unfold digit_range, Chr, Range, d_re. cbn [lang].
  intros [H|[H|[H|[H|H]]]];
    try (destruct H as (a & b & -> & (x & -> & _) & (y & -> & _)); right; exists x, y;
         reflexivity).
  destruct H as (x & -> & _). left. exists x. reflexivity.
Qed.

(** A separator of a format matches itself only. *)
Lemma lang_separator (sep : char) (w : pystr) :
  sep = 45 ∨ sep = 47 → lang (ChrI sep) w → w = [sep].
Proof.
  intros Hsep (x & -> & Hx). apply ChrI_chars in Hx.
  destruct Hsep as [-> | ->]; destruct Hx as [<-|[]]; reflexivity.
Qed.

(** A format that starts with the day and a separator does not read a
    text that starts with three digits. *)
Lemma strptime_day_first (y1 y2 y3 : char) (s : pystr) (f : pystr) (sep : char) (r : regex) :
  is_digit y1 = true → is_digit y2 = true → is_digit y3 = true →
  sep = 45 ∨ sep = 47 →
  format_re f = Some (Seq (dir "d") (Seq (ChrI sep) r)) →
  strptime (y1 :: y2 :: y3 :: s) f = None.
Proof.
  intros H1 H2 H3 Hsep Hf. unfold strptime. rewrite Hf. unfold match_, first_match.
  rewrite run_Seq, flat_map_nil; [reflexivity|].
  intros st1 Hin. destruct (run_lang _ _ _ Hin) as (w & [Hw _] & Lw).
  rewrite run_Seq.
  assert (Hhead : ∃ c tl, post st1 = c :: tl ∧ is_digit c = true).
  { apply lang_dir_d in Lw. cbn [start_at post] in Hw.
    destruct Lw as [(a & ->)|(a & b & ->)]; cbn [app] in Hw.
    - injection Hw as _ Hw. exists y2, (y3 :: s). auto.
    - injection Hw as _ _ Hw. exists y3, s. auto. }
  destruct Hhead as (c & tl & Hp & Hc).
  destruct (run (ChrI sep) st1) as [|st2 l] eqn:E; [reflexivity|]. exfalso.
  assert (Hin2 : In st2 (run (ChrI sep) st1)) by (rewrite E; left; reflexivity).
  destruct (run_lang _ _ _ Hin2) as (w2 & [Hw2 _] & Lw2).
  rewrite (lang_separator sep w2 Hsep Lw2), Hp in Hw2. injection Hw2 as -> _.
  apply digit_cases in Hc. destruct Hsep as [-> | ->]; lia.
Qed.

Lemma iso_chars (d : date) :
  Forall (fun c => is_ascii_digit c = true ∨ c = 45) (strftime_iso d).
Proof.
  assert (Hd : ∀ s, Forall (fun c => is_ascii_digit c = true) s →
                    Forall (fun c => is_ascii_digit c = true ∨ c = 45) s).
  { intros s H. eapply Forall_impl; [exact H|]. intros c Hc. left. exact Hc. }
  unfold strftime_iso. change (py "-") with [45].
  apply Forall_app. split; [apply Hd, str_N_ascii|]. cbn [app].
  apply Forall_cons_2; [right; reflexivity|].
  apply Forall_app. split; [apply Hd, two_digits_ascii|].
  apply Forall_cons_2; [right; reflexivity|]. apply Hd, two_digits_ascii.
Qed.

Lemma iso_char_plain (c : char) :
  is_ascii_digit c = true ∨ c = 45 → is_space c = false ∧ c ≠ 58.
Proof.
  intros [H| ->]; [|split; [reflexivity|discriminate]].
  split; [apply digit_not_space, is_digit_ascii, H|].
  apply is_ascii_digit_bounds in H. lia.
Qed.

Lemma single_blanks_nonspace (s : pystr) (f : bool) :
  Forall (fun c => is_space c = false) s → single_blanks s f = true.
Proof.
  intros H. revert f. induction H as [|c s Hc _ IH]; intros f; [reflexivity|].
  cbn [single_blanks]. rewrite Hc. apply IH.
Qed.

(** A text without white space is in normal form. *)
Lemma normalised_nonspace (s : pystr) :
  Forall (fun c => is_space c = false) s → normalised s = true.
Proof.
  intros H. unfold normalised. rewrite (single_blanks_nonspace s true H).
  destruct (last s) as [c|] eqn:E; [|reflexivity].
  apply last_In, list_elem_of_In in E. rewrite Forall_forall in H.
  rewrite (H c E). reflexivity.
Qed.

(** What [strftime] writes is left as it is by the normalisation of
    white space and by the removal of a label. *)
Lemma iso_text_kept (d : date) :
  clean_spaces (VStr (strftime_iso d)) = strftime_iso d
  ∧ after_colon (strftime_iso d) = strftime_iso d.
Proof.
  pose proof (iso_chars d) as H. split.
  - rewrite clean_spaces_VStr. apply strip_squeeze_normalised, normalised_nonspace.
    eapply Forall_impl; [exact H|]. intros c Hc. apply (iso_char_plain c Hc).
  - apply after_colon_no_colon. change (chr ":") with 58.
    apply not_elem_of_Forall. eapply Forall_impl; [exact H|].
    intros c Hc. apply (iso_char_plain c Hc).
Qed.

Lemma format_day_first :
  (∃ r, format_re (py "%d-%b-%Y") = Some (Seq (dir "d") (Seq (ChrI 45) r)))
  ∧ (∃ r, format_re (py "%d-%B-%Y") = Some (Seq (dir "d") (Seq (ChrI 45) r)))
  ∧ (∃ r, format_re (py "%d/%m/%Y") = Some (Seq (dir "d") (Seq (ChrI 47) r)))
  ∧ (∃ r, format_re (py "%d-%m-%Y") = Some (Seq (dir "d") (Seq (ChrI 45) r))).
Proof. repeat split; eexists; reflexivity. Qed.

(** On the ISO form of a date from the year 1000 on, the first four
    formats fail and the fifth gives the date back. *)
Lemma try_formats_iso (d : date) :
  valid_date d = true → 1000 <= year d →
  try_formats (strftime_iso d) formats = Some (strftime_iso d).
Proof.
  intros Hv H1000.
  destruct format_day_first as ((r1 & E1) & (r2 & E2) & (r3 & E3) & (r4 & E4)).
  destruct (valid_date_bounds d Hv) as (Hy & _ & _).
  assert (Hnone : ∀ f sep r, sep = 45 ∨ sep = 47 →
            format_re f = Some (Seq (dir "d") (Seq (ChrI sep) r)) →
            strptime (strftime_iso d) f = None).
  { intros f sep r Hsep Hf. unfold strftime_iso.
    rewrite (str_N_four_digits _ H1000 Hy). unfold four_digits. cbn [app].
    apply (strptime_day_first _ _ _ _ f sep r); try apply digit_char_is_digit; assumption. }
  unfold formats. cbn [map try_formats].
  rewrite (Hnone _ 45 r1), (Hnone _ 45 r2), (Hnone _ 47 r3), (Hnone _ 45 r4); auto.
  rewrite (strptime_iso d Hv H1000). reflexivity.
Qed.

Lemma normalize_date_VStr (d : date) :
  normalize_date (VStr (strftime_iso d)) = try_formats (strftime_iso d) formats.
Proof.
  destruct (iso_text_kept d) as [Hc Ha].
  unfold normalize_date. cbn [is_missing]. rewrite Hc.
  destruct (strftime_iso d) as [|c t] eqn:E.
  - exfalso. revert E. unfold strftime_iso. destruct (str_N (year d)); discriminate.
  - rewrite Ha. reflexivity.
Qed.

(** An ISO date from the year 1000 on is normalised to itself. *)
Lemma normalize_date_iso (d : date) :
  valid_date d = true → 1000 <= year d →
  normalize_date (VStr (strftime_iso d)) = Some (strftime_iso d).
Proof.
  intros Hv H1000. rewrite normalize_date_VStr. apply try_formats_iso; assumption.
Qed.

(** What [normalize_date] returns is what [strftime] writes for a
    valid date. *)
Lemma normalize_date_Some (text : value) (r : pystr) :
  normalize_date text = Some r → ∃ d, valid_date d = true ∧ r = strftime_iso d.
Proof.
  unfold normalize_date. destruct (is_missing text); [discriminate|].
  destruct (clean_spaces text) as [|c t]; [discriminate|].
  intros H. apply try_formats_Some in H. destruct H as (i & f & d & _ & Hs & -> & _).
  exists d. split; [apply (strptime_valid _ _ _ Hs)|reflexivity].
Qed.

(** ** The date normaliser on a year below 1000 *)

(** A text that a format reads is in the language of its pattern. *)
Lemma strptime_lang (s f : pystr) (d : date) (r : regex) :
  format_re f = Some r → strptime s f = Some d → lang r s.
Proof.
  intros Hf H. unfold strptime in H. rewrite Hf in H.
  destruct (match_ r s) as [[st' m]|] eqn:E; [|discriminate H].
  destruct (post st') as [|c tl] eqn:Ep; [|destruct (month_of m); discriminate H].
  unfold match_ in E. apply first_match_lang in E. destruct E as [Hin _].
  destruct (run_lang r _ _ Hin) as (w & [Hw _] & Lw).
  cbn [start_at post] in Hw. rewrite Ep, app_nil_r in Hw. subst w. exact Lw.
Qed.

Lemma format_patterns :
  format_re (py "%d-%b-%Y")
  = Some (Seq (dir "d") (Seq (ChrI 45) (Seq (dir "b") (Seq (ChrI 45) (Seq (dir "Y") Eps)))))
  ∧ format_re (py "%d-%B-%Y")
    = Some (Seq (dir "d") (Seq (ChrI 45) (Seq (dir "B") (Seq (ChrI 45) (Seq (dir "Y") Eps)))))
  ∧ format_re (py "%d/%m/%Y")
    = Some (Seq (dir "d") (Seq (ChrI 47) (Seq (dir "m") (Seq (ChrI 47) (Seq (dir "Y") Eps)))))
  ∧ format_re (py "%d-%m-%Y")
    = Some (Seq (dir "d") (Seq (ChrI 45) (Seq (dir "m") (Seq (ChrI 45) (Seq (dir "Y") Eps)))))
  ∧ format_re (py "%Y-%m-%d")
    = Some (Seq (dir "Y") (Seq (ChrI 45) (Seq (dir "m") (Seq (ChrI 45) (Seq (dir "d") Eps)))))
  ∧ format_re (py "%m/%d/%Y")
    = Some (Seq (dir "m") (Seq (ChrI 47) (Seq (dir "d") (Seq (ChrI 47) (Seq (dir "Y") Eps))))).
Proof. repeat split; reflexivity. Qed.

Lemma lang_AltL (rs : list regex) (final : regex) (w : pystr) :
  lang (AltL rs final) w → ∃ r, In r (rs ++ [final]) ∧ lang r w.
Proof.
  induction rs as [|r0 rs IH]; cbn [AltL fold_right app lang].
  - intros H. exists final. split; [left; reflexivity|exact H].
  - intros [H|H].
    + exists r0. split; [left; reflexivity|exact H].
    + destruct (IH H) as (r & Hin & Hr). exists r. split; [right; exact Hin|exact Hr].
Qed.

Lemma lang_StrI_head (c : char) (s w : pystr) :
  lang (StrI (c :: s)) w → ∃ x w', w = x :: w' ∧ In x (ignorecase_chars c).
Proof.
  change (StrI (c :: s)) with (Seq (ChrI c) (StrI s)).
  intros (a & b & -> & (x & -> & Hx) & _). exists x, b.
  split; [reflexivity|apply ChrI_chars, Hx].
Qed.

(** A month name starts with a letter, whatever the case. *)
Lemma lang_names_head (names : list pystr) (w : pystr) :
  forallb letter_head names = true → names ≠ [] →
  lang (names_re names) w → ∃ x w', w = x :: w' ∧ 65 <= x.
Proof.
  intros Hall Hne. unfold names_re.
  destruct (rev names) as [|l rinit] eqn:E.
  { exfalso. apply Hne. rewrite <- (rev_involutive names), E. reflexivity. }
  intros H. apply lang_AltL in H. destruct H as (r & Hin & Hr).
  assert (Hname : ∃ name, In name names ∧ r = StrI name).
  { apply in_app_or in Hin. destruct Hin as [Hin|[<-|[]]].
    - apply in_map_iff in Hin. destruct Hin as (name & <- & Hn). exists name.
      split; [|reflexivity]. apply in_rev. rewrite E. right. apply in_rev in Hn. exact Hn.
    - exists l. split; [|reflexivity]. apply in_rev. rewrite E. left. reflexivity. }
  destruct Hname as (name & Hn & ->).
  rewrite forallb_forall in Hall. specialize (Hall name Hn).
  destruct name as [|c name]; [discriminate Hall|]. cbn [letter_head] in Hall.
  destruct (lang_StrI_head c name w Hr) as (x & w' & -> & Hx).
  exists x, w'. split; [reflexivity|].
  rewrite forallb_forall in Hall. apply N.leb_le, Hall, Hx.
Qed.

Lemma lang_month_name (w : pystr) :
  lang (dir "b") w ∨ lang (dir "B") w → ∃ x w', w = x :: w' ∧ 65 <= x.
Proof.
  assert (Hb : ∃ names, dir "b" = Group "b" (names_re names)
                        ∧ forallb letter_head names = true ∧ names ≠ []).
  { eexists. split; [reflexivity|]. split; [vm_compute; reflexivity|discriminate]. }
  assert (HB : ∃ names, dir "B" = Group "B" (names_re names)
                        ∧ forallb letter_head names = true ∧ names ≠ []).
  { eexists. split; [reflexivity|]. split; [vm_compute; reflexivity|discriminate]. }
  destruct Hb as (nb & -> & Hb1 & Hb2). destruct HB as (nB & -> & HB1 & HB2).
  cbn [lang]. intros [H|H]; [apply (lang_names_head nb)|apply (lang_names_head nB)]; assumption.
Qed.

Lemma range_bounds (lo hi x : char) :
  (lo <=? x) && (x <=? hi) = true → lo <= x ∧ x <= hi.
Proof. intros H. apply andb_prop in H. rewrite !N.leb_le in H. exact H. Qed.

(** The year directive reads four digits. *)
Lemma lang_dir_Y (w : pystr) :
  lang (dir "Y") w →
  ∃ c1 c2 c3 c4, w = [c1; c2; c3; c4] ∧ Forall (fun c => is_digit c = true) w.
Proof.
  change (dir "Y") with (Group "Y" (Seq d_re (Seq d_re (Seq d_re d_re)))).
  unfold d_re. cbn [lang].
  intros (a1 & r1 & -> & (c1 & -> & H1) & (a2 & r2 & -> & (c2 & -> & H2)
            & (a3 & r3 & -> & (c3 & -> & H3) & (c4 & -> & H4)))).
  exists c1, c2, c3, c4. split; [reflexivity|]. cbn [app].
  repeat (apply Forall_cons_2; [assumption|]). constructor.
Qed.

(** The month directive reads ASCII digits. *)
Lemma lang_dir_m (w : pystr) :
  lang (dir "m") w → Forall (fun c => is_ascii_digit c = true) w.
Proof.
  change (dir "m") with
    (Group "m"
      (AltL [Seq (Chr (chr "1")) (digit_range "0" "2");
             Seq (Chr (chr "0")) (digit_range "1" "9")]
            (digit_range "1" "9"))).
  cbn [lang AltL fold_right]. unfold digit_range, Chr, Range. cbn [lang].
  change (chr "0") with 48. change (chr "1") with 49.
  change (chr "2") with 50. change (chr "9") with 57. unfold char_eqb.
  intros [H|[H|H]].
  - destruct H as (a & b & -> & (x & -> & Hx) & (y & -> & Hy)).
    apply N.eqb_eq in Hx. apply range_bounds in Hy. cbn [app].
    repeat (apply Forall_cons_2; [apply is_ascii_digit_bounds; lia|]). constructor.
  - destruct H as (a & b & -> & (x & -> & Hx) & (y & -> & Hy)).
    apply N.eqb_eq in Hx. apply range_bounds in Hy. cbn [app].
    repeat (apply Forall_cons_2; [apply is_ascii_digit_bounds; lia|]). constructor.
  - destruct H as (x & -> & Hx). apply range_bounds in Hx.
    repeat (apply Forall_cons_2; [apply is_ascii_digit_bounds; lia|]). constructor.
Qed.

(** The day directive reads no hyphen. *)
Lemma lang_dir_d_plain (w : pystr) : lang (dir "d") w → Forall (fun c => c ≠ 45) w.
Proof.
  change (dir "d") with
    (Group "d"
      (AltL [Seq (Chr (chr "3")) (digit_range "0" "1");
             Seq (digit_range "1" "2") d_re;
             Seq (Chr (chr "0")) (digit_range "1" "9");
             digit_range "1" "9"]
            (Seq (Chr (chr " ")) (digit_range "1" "9")))).
  cbn [lang AltL fold_right]. unfold digit_range, Chr, Range, d_re. cbn [lang].
  change (chr "0") with 48. change (chr "1") with 49. change (chr "2") with 50.
  change (chr "3") with 51. change (chr "9") with 57. change (chr " ") with 32.
  unfold char_eqb.
  intros [H|[H|[H|[H|H]]]].
  - destruct H as (a & b & -> & (x & -> & Hx) & (y & -> & Hy)).
    apply N.eqb_eq in Hx. apply range_bounds in Hy. cbn [app].
    repeat (apply Forall_cons_2; [lia|]). constructor.
  - destruct H as (a & b & -> & (x & -> & Hx) & (y & -> & Hy)).
    apply range_bounds in Hx. apply digit_cases in Hy. cbn [app].
    repeat (apply Forall_cons_2; [lia|]). constructor.
  - destruct H as (a & b & -> & (x & -> & Hx) & (y & -> & Hy)).
    apply N.eqb_eq in Hx. apply range_bounds in Hy. cbn [app].
    repeat (apply Forall_cons_2; [lia|]). constructor.
  - destruct H as (x & -> & Hx). apply range_bounds in Hx.
    repeat (apply Forall_cons_2; [lia|]). constructor.
  - destruct H as (a & b & -> & (x & -> & Hx) & (y & -> & Hy)).
    apply N.eqb_eq in Hx. apply range_bounds in Hy. cbn [app].
    repeat (apply Forall_cons_2; [lia|]). constructor.
Qed.

(** A text is cut at its first separator in one way only. *)
Lemma split_unique (sep : char) (a a' r r' : pystr) :
  sep ∉ a → sep ∉ a' → a ++ sep :: r = a' ++ sep :: r' → a = a' ∧ r = r'.
Proof.
  intros Ha Ha' H. apply (f_equal (split1 sep)) in H.
  rewrite (split1_at_first sep a r Ha), (split1_at_first sep a' r' Ha') in H.
  injection H as -> ->. split; reflexivity.
Qed.

Lemma ascii_digits_plain (s : pystr) :
  Forall (fun c => is_ascii_digit c = true) s → 45 ∉ s.
Proof.
  intros H. apply not_elem_of_Forall. eapply Forall_impl; [exact H|].
  intros c Hc. apply is_ascii_digit_bounds in Hc. lia.
Qed.

(** What [strftime] writes for a year below 1000 is read by none of
    the six formats: the name of a month and the slash do not occur in
    it, and its year has fewer than the four digits that [%Y] reads. *)
Lemma try_formats_short_year (d : date) :
  year d < 1000 → try_formats (strftime_iso d) formats = None.
Proof.
  intros Hy.
  pose proof (iso_chars d) as Hchars. rewrite Forall_forall in Hchars.
  assert (Hletter : ∀ x, 65 <= x → x ∈ strftime_iso d → False).
  { intros x Hx Hin. destruct (Hchars x Hin) as [H| ->]; [|lia].
    apply is_ascii_digit_bounds in H. lia. }
  assert (Hslash : 47 ∈ strftime_iso d → False).
  { intros Hin. destruct (Hchars 47 Hin) as [H|H]; [|discriminate H].
    apply is_ascii_digit_bounds in H. lia. }
  assert (HT : strftime_iso d
               = str_N (year d) ++ 45 :: two_digits (month d) ++ 45 :: two_digits (day d))
    by reflexivity.
  pose proof (str_N_short _ Hy) as Hlen. pose proof (str_N_ascii (year d)) as HY.
  destruct format_patterns as (E1 & E2 & E3 & E4 & E5 & E6).
  apply try_formats_None. unfold formats. cbn [map].
  repeat apply Forall_cons_2; [..|constructor];
    match goal with |- strptime ?t ?f = None =>
      destruct (strptime t f) as [d'|] eqn:E; [exfalso|reflexivity] end.
  - apply (strptime_lang _ _ _ _ E1) in E.
    destruct E as (a & r1 & HE & _ & (c & r2 & -> & _ & (nm & r3 & -> & Lnm & _))).
    destruct (lang_month_name nm (or_introl Lnm)) as (x & nm' & -> & Hx).
    apply (Hletter x Hx). rewrite HE. rewrite !elem_of_app. right. right. left. left.
  - apply (strptime_lang _ _ _ _ E2) in E.
    destruct E as (a & r1 & HE & _ & (c & r2 & -> & _ & (nm & r3 & -> & Lnm & _))).
    destruct (lang_month_name nm (or_intror Lnm)) as (x & nm' & -> & Hx).
    apply (Hletter x Hx). rewrite HE. rewrite !elem_of_app. right. right. left. left.
  - apply (strptime_lang _ _ _ _ E3) in E.
    destruct E as (a & r1 & HE & _ & (c & r2 & -> & Lc & _)).
    rewrite (lang_separator 47 c (or_intror eq_refl) Lc) in HE.
    apply Hslash. rewrite HE. rewrite !elem_of_app. right. left. left.
  - apply (strptime_lang _ _ _ _ E4) in E.
    destruct E as (a & r1 & HE & La & (c & r2 & -> & Lc & (b & r3 & -> & Lb
                     & (c' & r4 & -> & Lc' & (y4 & r5 & -> & Ly & Le))))).
    rewrite (lang_separator 45 c (or_introl eq_refl) Lc) in HE.
    rewrite (lang_separator 45 c' (or_introl eq_refl) Lc') in HE.
    cbn [lang] in Le. subst r5. rewrite app_nil_r in HE. cbn [app] in HE.
    rewrite HT in HE.
    destruct (split_unique 45 _ _ _ _ (ascii_digits_plain _ HY)
                (not_elem_of_Forall 45 a (lang_dir_d_plain a La)) HE) as [_ HE2].
    destruct (split_unique 45 _ _ _ _ (ascii_digits_plain _ (two_digits_ascii _))
                (ascii_digits_plain _ (lang_dir_m b Lb)) HE2) as [_ HE3].
    destruct (lang_dir_Y y4 Ly) as (c1 & c2 & c3 & c4 & -> & _). discriminate HE3.
  - apply (strptime_lang _ _ _ _ E5) in E.
    destruct E as (y4 & r1 & HE & Ly & _).
    destruct (lang_dir_Y y4 Ly) as (c1 & c2 & c3 & c4 & -> & Hd).
    rewrite HT in HE.
    assert (H45 : In 45 [c1; c2; c3; c4]).
    { destruct (str_N (year d)) as [|a1 [|a2 [|a3 [|a4 Y]]]]; cbn [app length] in HE, Hlen;
        [injection HE as <-; cbn; tauto
        |injection HE as _ <-; cbn; tauto
        |injection HE as _ _ <-; cbn; tauto
        |injection HE as _ _ _ <-; cbn; tauto
        |lia]. }
    rewrite Forall_forall in Hd. apply list_elem_of_In, Hd in H45. discriminate H45.
  - apply (strptime_lang _ _ _ _ E6) in E.
    destruct E as (a & r1 & HE & _ & (c & r2 & -> & Lc & _)).
    rewrite (lang_separator 47 c (or_intror eq_refl) Lc) in HE.
    apply Hslash. rewrite HE. rewrite !elem_of_app. right. left. left.
Qed.

(** Normalising what [normalize_date] returned: from the year 1000 on
    the result has the form YYYY-MM-DD and is given back as it is, so
    the function is idempotent there; for a year below 1000 the
    result, whose year has lost its zero fill, is a text that
    [normalize_date] does not read. *)
Theorem normalize_date_on_its_result :
  (∀ d : date, valid_date d = true → 1000 <= year d →
               normalize_date (VStr (strftime_iso d)) = Some (strftime_iso d))
  ∧ (∀ d : date, year d < 1000 → normalize_date (VStr (strftime_iso d)) = None)
  ∧ ∀ (text : value) (r : pystr),
      normalize_date text = Some r →
      ∃ d : date,
        valid_date d = true ∧ r = strftime_iso d
        ∧ normalize_date (VStr r) = if 1000 <=? year d then Some r else None.
Proof.
  split; [apply normalize_date_iso|].
  split; [intros d Hy; rewrite normalize_date_VStr; apply try_formats_short_year, Hy|].
  intros text r H. apply normalize_date_Some in H. destruct H as (d & Hv & ->).
  exists d. split; [exact Hv|]. split; [reflexivity|].
  destruct (N.leb_spec 1000 (year d)) as [Hy|Hy].
  - apply normalize_date_iso; assumption.
  - rewrite normalize_date_VStr. apply try_formats_short_year, Hy.
Qed.

(** Instances of the preceding theorem, on concrete inputs. *)
Lemma normalize_date_on_its_result_witness :
  normalize_date (VStr (py "Date: 29-Feb-2024")) = Some (py "2024-02-29")
  ∧ normalize_date (VStr (py "2024-02-29")) = Some (py "2024-02-29")
  ∧ normalize_date (VStr (py "12/05/0999")) = Some (py "999-05-12")
  ∧ normalize_date (VStr (py "999-05-12")) = None.
Proof.
  assert (E : normalize_date (VStr (py "Date: 29-Feb-2024")) = Some (py "2024-02-29"))
    by (vm_compute; reflexivity).
  split; [exact E|]. split.
  - exact (proj1 normalize_date_on_its_result (mkDate 2024 2 29) eq_refl
             ltac:(vm_compute; discriminate)).
  - split; [vm_compute; reflexivity|].
    exact (proj1 (proj2 normalize_date_on_its_result) (mkDate 999 5 12) eq_refl).
Defined.

(** ** The address-block splitter *)

Lemma classify_tel (r : address) (l : pystr) :
  tel (classify r l)
  = if startswith (lower l) (py "tel") then Some (contact_value l) else tel r.
Proof. unfold classify. repeat case_match; reflexivity. Qed.

Lemma fold_classify_tel (lines : list pystr) (r : address) :
  tel (fold_left classify lines r)
  = match last (tel_lines lines) with
    | Some l => Some (contact_value l)
    | None => tel r
    end.
Proof.
  revert r. induction lines as [|l lines IH]; intros r; [reflexivity|].
  cbn [fold_left]. rewrite IH, classify_tel. unfold tel_lines. cbn [List.filter].
  destruct (startswith (lower l) (py "tel")); [|reflexivity].
  rewrite last_cons. destruct (last _); reflexivity.
Qed.

Lemma split_address_block_unfold (text : value) :
  is_missing text = false → block_lines text ≠ [] →
  split_address_block text
  = let lines := block_lines text in
    let result := fold_left classify lines
                    (mkAddress None None None None None None None
                               (Some (join (py " | ") lines))) in
    let addr := address_candidates lines in
    mkAddress (nth_error addr 0) (nth_error addr 1) (nth_error addr 2) (nth_error addr 3)
              (tel result) (email result) (site result) (raw result).
Proof.
  intros Hm Hl. unfold split_address_block. rewrite Hm.
  destruct (block_lines text); [congruence|reflexivity].
Qed.

(** The last "tel" line wins (specification, 4.4): the [tel] field
    holds the value of the last line that starts with "tel", and is
    absent when there is no such line. *)
Theorem split_address_block_last_tel (text : value) :
  is_missing text = false →
  tel (split_address_block text)
  = option_map contact_value (last (tel_lines (block_lines text))).
Proof.
  intros Hm. destruct (block_lines text) as [|l ls] eqn:E.
  - unfold split_address_block. rewrite Hm, E. reflexivity.
  - rewrite (split_address_block_unfold text Hm) by (rewrite E; discriminate).
    cbn zeta. cbn [tel]. rewrite E, fold_classify_tel. cbn [tel].
    destruct (last _); reflexivity.
Qed.

(** An instance of the preceding theorem, on a concrete input. *)
Lemma split_address_block_last_tel_witness :
  is_missing (VStr (py "Tel: 1" ++ LF ++ py "ACME" ++ LF ++ py "TEL 2")) = false
  ∧ tel (split_address_block (VStr (py "Tel: 1" ++ LF ++ py "ACME" ++ LF ++ py "TEL 2")))
    = Some (py "TEL 2").
Proof.
  split; [reflexivity|].
  rewrite (split_address_block_last_tel
             (VStr (py "Tel: 1" ++ LF ++ py "ACME" ++ LF ++ py "TEL 2")) eq_refl).
  vm_compute. reflexivity.
Defined.

(** The example of the specification (section 8), and the empty block. *)
Theorem split_address_block_example :
  split_address_block (VStr acme_block)
  = mkAddress (Some (py "Acme Corp")) (Some (py "123 Main St")) None None
              (Some (py "555-1234")) (Some (py "a@acme.com")) None
              (Some (py "Acme Corp | 123 Main St | Tel: 555-1234 | Email: a@acme.com"))
  ∧ split_address_block VNone = empty_address
  ∧ split_address_block (VFloat S754_nan) = empty_address
  ∧ split_address_block (VStr (py "  " ++ LF ++ py " ")) = empty_address.
Proof. repeat split; vm_compute; reflexivity. Qed.

(** C2. In the block of the two lines "Acme Corp" and "www.acme.com" the
    second line is classified as the site, and it is also kept among the
    address lines, where it becomes [addr_line1]. *)
Theorem C2_site_line_kept_as_address_line :
  let r := split_address_block (VStr (py "Acme Corp" ++ LF ++ py "www.acme.com")) in
  site r = Some (py "www.acme.com")
  ∧ name r = Some (py "Acme Corp")
  ∧ addr_line1 r = Some (py "www.acme.com").
Proof.
  vm_compute. repeat split; reflexivity.
Qed.

(** ** The address-block splitter: the e-mail and the site *)

Lemma tel_not_email (s : pystr) :
  startswith s (py "tel") = true → startswith s (py "email") = false.
Proof.
  destruct s as [|c s]; [discriminate|]. change (py "tel") with [116; 101; 108].
  change (py "email") with [101; 109; 97; 105; 108]. cbn [startswith]. unfold char_eqb.
  destruct (N.eqb_spec c 116) as [-> |]; [reflexivity|discriminate].
Qed.

Lemma classify_email (r : address) (l : pystr) :
  email (classify r l)
  = if startswith (lower l) (py "email") then Some (contact_value l) else email r.
Proof.
  unfold classify. destruct (startswith (lower l) (py "tel")) eqn:Et.
  - rewrite (tel_not_email _ Et). reflexivity.
  - repeat case_match; reflexivity.
Qed.

Lemma classify_site (r : address) (l : pystr) :
  site (classify r l)
  = if negb (startswith (lower l) (py "tel")) && negb (startswith (lower l) (py "email"))
       && (startswith (lower l) (py "site") || contains (lower l) (py "http")
           || startswith (lower l) (py "www"))
    then Some (contact_value l) else site r.
Proof.
  unfold classify. destruct (startswith (lower l) (py "tel")); [reflexivity|].
  destruct (startswith (lower l) (py "email")); [reflexivity|].
  cbn [negb andb]. destruct (_ || _); reflexivity.
Qed.

Lemma fold_classify_email (lines : list pystr) (r : address) :
  email (fold_left classify lines r)
  = match last (email_lines lines) with
    | Some l => Some (contact_value l)
    | None => email r
    end.
Proof.
  revert r. induction lines as [|l lines IH]; intros r; [reflexivity|].
  cbn [fold_left]. rewrite IH, classify_email. unfold email_lines. cbn [List.filter].
  destruct (startswith (lower l) (py "email")); [|reflexivity].
  rewrite last_cons. destruct (last _); reflexivity.
Qed.

Lemma fold_classify_site (lines : list pystr) (r : address) :
  site (fold_left classify lines r)
  = match last (site_lines lines) with
    | Some l => Some (contact_value l)
    | None => site r
    end.
Proof.
  revert r. induction lines as [|l lines IH]; intros r; [reflexivity|].
  cbn [fold_left]. rewrite IH, classify_site. unfold site_lines. cbn [List.filter].
  destruct (_ && _); [|reflexivity].
  rewrite last_cons. destruct (last _); reflexivity.
Qed.

(** The e-mail is the value of the last line that starts with "email";
    the site is the value of the last line taken for a site, and a
    line that starts with "tel" or "email" is never taken for one, even
    when it contains "http". Either field is absent without such a
    line. *)
Theorem split_address_block_email_site (text : value) :
  is_missing text = false →
  email (split_address_block text)
  = option_map contact_value (last (email_lines (block_lines text)))
  ∧ site (split_address_block text)
    = option_map contact_value (last (site_lines (block_lines text))).
Proof.
  intros Hm. destruct (block_lines text) as [|l ls] eqn:E.
  - unfold split_address_block. rewrite Hm, E. split; reflexivity.
  - rewrite (split_address_block_unfold text Hm) by (rewrite E; discriminate).
    cbn zeta. cbn [email site]. rewrite E, fold_classify_email, fold_classify_site.
    cbn [email site]. split; destruct (last _); reflexivity.
Qed.

(** An instance of the preceding theorem, on a concrete block. *)
Lemma split_address_block_email_site_witness :
  is_missing contact_block = false
  ∧ email (split_address_block contact_block) = Some (py "b@c")
  ∧ site (split_address_block contact_block) = Some (py "WWW.ACME.COM").
Proof.
  split; [reflexivity|].
  destruct (split_address_block_email_site contact_block eq_refl) as [-> ->].
  split; vm_compute; reflexivity.
Defined.

(** ** Frames: looking columns up *)

Lemma find_app_first {A : Type} (f : A → bool) (l1 l2 : list A) :
  find f (l1 ++ l2) = match find f l1 with Some x => Some x | None => find f l2 end.
Proof.
  induction l1 as [|x l1 IH]; simpl; [reflexivity|].
  destruct (f x); [reflexivity|exact IH].
Qed.

Lemma has_column_lookup (df : DataFrame) (c : string) :
  has_column df c = match lookup_col df c with Some _ => true | None => false end.
Proof.
  unfold has_column, lookup_col, labels. destruct df as [n cols]. simpl.
  induction cols as [|[k v] cols IH]; simpl; [reflexivity|].
  rewrite (String.eqb_sym c k). destruct (String.eqb k c); simpl; [reflexivity|exact IH].
Qed.

Lemma get_column_lookup (df : DataFrame) (c : string) :
  get_column df c = match lookup_col df c with Some v => v | None => [] end.
Proof.
  unfold get_column, lookup_col. destruct (find _ _) as [kv|]; reflexivity.
Qed.

Lemma lookup_col_length (df : DataFrame) (c : string) (v : list value) :
  columns_wf df → lookup_col df c = Some v → length v = nrows df.
Proof.
  unfold columns_wf, lookup_col. intros Hwf H.
  destruct (find _ _) as [kv|] eqn:Hf; [|discriminate]. injection H as <-.
  apply find_some in Hf. destruct Hf as [Hin _].
  rewrite Forall_forall in Hwf. apply Hwf. apply list_elem_of_In. exact Hin.
Qed.

Lemma get_column_length (df : DataFrame) (c : string) :
  columns_wf df → has_column df c = true → length (get_column df c) = nrows df.
Proof.
  intros Hwf. rewrite has_column_lookup, get_column_lookup.
  destruct (lookup_col df c) as [v|] eqn:Hv; [|discriminate].
  intros _. exact (lookup_col_length df c v Hwf Hv).
Qed.

Lemma lookup_drop_column (df : DataFrame) (c c' : string) :
  lookup_col (drop_column df c) c' = if String.eqb c c' then None else lookup_col df c'.
Proof.
  unfold lookup_col, drop_column. destruct df as [n cols]. simpl.
  induction cols as [|[k v] cols IH]; simpl.
  - destruct (String.eqb c c'); reflexivity.
  - destruct (String.eqb_spec k c) as [->|Hkc]; simpl.
    + rewrite IH. destruct (String.eqb_spec c c'); reflexivity.
    + destruct (String.eqb_spec k c') as [->|Hkc']; simpl.
      * destruct (String.eqb_spec c c') as [->|]; [congruence|reflexivity].
      * exact IH.
Qed.

Lemma find_replace_column (cols : list (string * list value)) (c c' : string)
    (vals : list value) :
  option_map snd
    (find (fun kv => String.eqb (fst kv) c')
          (map (fun kv => if String.eqb (fst kv) c then (c, vals) else kv) cols))
  = if String.eqb c c'
    then match find (fun kv => String.eqb (fst kv) c) cols with
         | Some _ => Some vals
         | None => None
         end
    else option_map snd (find (fun kv => String.eqb (fst kv) c') cols).
Proof.
  induction cols as [|[k v] cols IH]; simpl.
  - destruct (String.eqb c c'); reflexivity.
  - destruct (String.eqb_spec k c) as [->|Hkc]; simpl.
    + destruct (String.eqb_spec c c') as [->|Hcc']; simpl; [reflexivity|exact IH].
    + destruct (String.eqb_spec k c') as [->|Hkc']; simpl.
      * destruct (String.eqb_spec c c') as [->|]; [congruence|reflexivity].
      * exact IH.
Qed.

Lemma lookup_set_column (df : DataFrame) (c c' : string) (vals : list value) :
  lookup_col (set_column df c vals) c'
  = if String.eqb c c' then Some vals else lookup_col df c'.
Proof.
  unfold set_column. rewrite has_column_lookup.
  unfold lookup_col. destruct df as [n cols]. simpl.
  destruct (find (fun kv => String.eqb (fst kv) c) cols) as [kv|] eqn:Hf; simpl.
  - rewrite find_replace_column, Hf. reflexivity.
  - rewrite find_app_first. simpl.
    destruct (String.eqb_spec c c') as [->|Hcc'].
    + rewrite Hf. reflexivity.
    + destruct (find (fun kv => String.eqb (fst kv) c') cols); reflexivity.
Qed.

Lemma lookup_concat_columns (df : DataFrame) (other : list (string * list value)) (c : string) :
  lookup_col (concat_columns df other) c
  = match lookup_col df c with
    | Some v => Some v
    | None => option_map snd (find (fun kv => String.eqb (fst kv) c) other)
    end.
Proof.
  unfold lookup_col, concat_columns. simpl. rewrite find_app_first.
  destruct (find _ (columns df)); reflexivity.
Qed.

(** ** Frames: the stages of the pipeline, column by column *)

Lemma existsb_insert_sorted (p : string → bool) (x : string) (l : list string) :
  existsb p (insert_sorted x l) = p x || existsb p l.
Proof.
  induction l as [|y l IH]; simpl; [reflexivity|].
  destruct (String.leb x y); simpl; [reflexivity|].
  rewrite IH. destruct (p x), (p y); reflexivity.
Qed.

Lemma existsb_sorted (p : string → bool) (l : list string) :
  existsb p (sorted l) = existsb p l.
Proof.
  induction l as [|y l IH]; simpl; [reflexivity|].
  rewrite existsb_insert_sorted, IH. reflexivity.
Qed.

Lemma find_tabulated (g : string → list value) (l : list string) (c : string) :
  option_map snd (find (fun kv => String.eqb (fst kv) c) (map (fun x => (x, g x)) l))
  = if existsb (String.eqb c) l then Some (g c) else None.
Proof.
  induction l as [|y l IH]; simpl; [reflexivity|].
  rewrite (String.eqb_sym c y).
  destruct (String.eqb_spec y c) as [->|Hne]; simpl; [reflexivity|exact IH].
Qed.

Lemma lookup_reindex_sorted (df out : DataFrame) :
  reindex_sorted df = Some out →
  nrows out = nrows df ∧ ∀ c, lookup_col out c = lookup_col df c.
Proof.
  unfold reindex_sorted. destruct (distinct (labels df)); [|discriminate].
  intros [= <-]. split; [reflexivity|]. intros c.
  unfold lookup_col at 1. simpl. rewrite find_tabulated, existsb_sorted.
  fold (has_column df c). rewrite has_column_lookup, get_column_lookup.
  destruct (lookup_col df c); reflexivity.
Qed.

Lemma amount_column_agree (d d0 : DataFrame) (s : string) :
  nrows d = nrows d0 → lookup_col d s = lookup_col d0 s →
  amount_column d s = amount_column d0 s.
Proof.
  intros Hn Hs. unfold amount_column.
  rewrite !has_column_lookup, !get_column_lookup, Hs, Hn. reflexivity.
Qed.

Lemma currency_guesses_agree (d d0 : DataFrame) (s : string) :
  lookup_col d s = lookup_col d0 s → currency_guesses d s = currency_guesses d0 s.
Proof.
  intros Hs. unfold currency_guesses.
  rewrite !has_column_lookup, !get_column_lookup, Hs. reflexivity.
Qed.

Lemma amount_step_eq (d : DataFrame) (cs : list (list value)) (st : string * string) :
  amount_step (d, cs) st
  = (set_column d (snd st) (amount_column d (fst st)), cs ++ currency_guesses d (fst st)).
Proof.
  destruct st as [src tgt]. unfold amount_step, amount_column, currency_guesses. simpl.
  destruct (has_column d src).
  - rewrite !map_map. reflexivity.
  - rewrite app_nil_r. reflexivity.
Qed.

Lemma nrows_set_column (d : DataFrame) (c : string) (v : list value) :
  nrows (set_column d c v) = nrows d.
Proof. unfold set_column. destruct (has_column d c); reflexivity. Qed.

(** The loop over [amount_map], for sources that no round overwrites:
    every round reads the frame the loop started from. *)
Lemma amount_fold (d0 : DataFrame) (m : list (string * string)) :
  (∀ st st', In st m → In st' m → snd st ≠ fst st') →
  ∀ (d : DataFrame) (cs : list (list value)),
    agree_on (map fst m) d d0 →
    fold_left amount_step m (d, cs)
    = (fold_left (fun d' st => set_column d' (snd st) (amount_column d0 (fst st))) m d,
       cs ++ flat_map (fun st => currency_guesses d0 (fst st)) m).
Proof.
  induction m as [|st m IH]; intros Hm d cs [Hn Hag]; cbn [fold_left map flat_map].
  - rewrite app_nil_r. reflexivity.
  - cbn [map] in Hag. rewrite amount_step_eq.
    rewrite (amount_column_agree d d0 (fst st) Hn (Hag _ (or_introl eq_refl))).
    rewrite (currency_guesses_agree d d0 (fst st) (Hag _ (or_introl eq_refl))).
    rewrite IH.
    + rewrite <- app_assoc. reflexivity.
    + intros a b Ha Hb. apply Hm; right; assumption.
    + split.
      * rewrite nrows_set_column. exact Hn.
      * intros s Hs. rewrite lookup_set_column.
        destruct (String.eqb_spec (snd st) s) as [Heq|Hne].
        -- exfalso. apply in_map_iff in Hs. destruct Hs as (st' & <- & Hst').
           apply (Hm st st'); [left; reflexivity|right; exact Hst'|exact Heq].
        -- apply Hag. right. exact Hs.
Qed.

Lemma amount_map_targets_fresh :
  ∀ st st', In st amount_map → In st' amount_map → snd st ≠ fst st'.
Proof.
  intros st st' H H'. simpl in H, H'.
  repeat (destruct H as [<-|H]; [|]); try contradiction;
  repeat (destruct H' as [<-|H']; [|]); try contradiction; discriminate.
Qed.

Lemma lookup_drop_if_present (d : DataFrame) (c c' : string) :
  lookup_col (drop_if_present d c) c' = if String.eqb c c' then None else lookup_col d c'.
Proof.
  unfold drop_if_present. rewrite has_column_lookup.
  destruct (lookup_col d c) eqn:Hc.
  - apply lookup_drop_column.
  - destruct (String.eqb_spec c c') as [<-|]; [exact Hc|reflexivity].
Qed.

Lemma nrows_drop_if_present (d : DataFrame) (c : string) :
  nrows (drop_if_present d c) = nrows d.
Proof. unfold drop_if_present. destruct (has_column d c); reflexivity. Qed.

Lemma lookup_add_date (src tgt : string) (d : DataFrame) (c : string) :
  lookup_col (add_date src tgt d) c
  = if String.eqb tgt c && has_column d src then Some (date_column d src) else lookup_col d c.
Proof.
  unfold add_date. destruct (has_column d src).
  - rewrite lookup_set_column, andb_true_r. reflexivity.
  - rewrite andb_false_r. reflexivity.
Qed.

Lemma nrows_add_date (src tgt : string) (d : DataFrame) :
  nrows (add_date src tgt d) = nrows d.
Proof. unfold add_date. destruct (has_column d src); [apply nrows_set_column|reflexivity]. Qed.

Lemma lookup_add_address (src prefix : string) (d : DataFrame) (c : string) :
  lookup_col (add_address src prefix d) c
  = match lookup_col d c with
    | Some v => Some v
    | None => assoc (address_columns d src prefix) c
    end.
Proof.
  unfold add_address, address_columns. destruct (has_column d src).
  - apply lookup_concat_columns.
  - destruct (lookup_col d c); reflexivity.
Qed.

Lemma nrows_add_address (src prefix : string) (d : DataFrame) :
  nrows (add_address src prefix d) = nrows d.
Proof. unfold add_address. destruct (has_column d src); reflexivity. Qed.

Lemma date_column_agree (d d0 : DataFrame) (s : string) :
  lookup_col d s = lookup_col d0 s → date_column d s = date_column d0 s.
Proof. intros Hs. unfold date_column. rewrite !get_column_lookup, Hs. reflexivity. Qed.

Lemma has_column_agree (d d0 : DataFrame) (s : string) :
  lookup_col d s = lookup_col d0 s → has_column d s = has_column d0 s.
Proof. intros Hs. rewrite !has_column_lookup, Hs. reflexivity. Qed.

Lemma address_columns_agree (d d0 : DataFrame) (s prefix : string) :
  lookup_col d s = lookup_col d0 s → address_columns d s prefix = address_columns d0 s prefix.
Proof.
  intros Hs. unfold address_columns.
  rewrite !has_column_lookup, !get_column_lookup, Hs. reflexivity.
Qed.

Lemma currency_column_agree (d d0 : DataFrame) :
  agree_on (map fst amount_map) d d0 → currency_column d = currency_column d0.
Proof.
  intros [Hn Hag]. unfold currency_column. rewrite Hn.
  assert (H : flat_map (fun st => currency_guesses d (fst st)) amount_map
              = flat_map (fun st => currency_guesses d0 (fst st)) amount_map).
  { simpl. rewrite !(currency_guesses_agree d d0) by (apply Hag; simpl; tauto).
    reflexivity. }
  rewrite H. reflexivity.
Qed.

Lemma nrows_fold_set_column (g : string → list value) (m : list (string * string))
    (d : DataFrame) :
  nrows (fold_left (fun d' st => set_column d' (snd st) (g (fst st))) m d) = nrows d.
Proof.
  revert d. induction m as [|st m IH]; intros d; simpl; [reflexivity|].
  rewrite IH. apply nrows_set_column.
Qed.

Lemma clean_template_df_assembled (df : DataFrame) :
  clean_template_df df = reindex_sorted (assembled df).
Proof.
  unfold clean_template_df, assembled, staged.
  change (fun d col => if has_column d col then drop_column d col else d) with drop_if_present.
  set (df1 := fold_left drop_if_present ["OTHER"; "LOGO"]%string df).
  rewrite (amount_fold df1 amount_map amount_map_targets_fresh df1 [])
    by (split; [reflexivity|intros; reflexivity]).
  cbn [app]. unfold currency_column, set_column_none.
  rewrite (nrows_fold_set_column (amount_column df1)).
  destruct (flat_map _ amount_map); reflexivity.
Qed.

(** ** Frames: when the final reindexing succeeds *)

Lemma existsb_eqb_In (x : string) (l : list string) :
  existsb (String.eqb x) l = true ↔ In x l.
Proof.
  rewrite existsb_exists. split.
  - intros (y & Hy & Heq). apply String.eqb_eq in Heq. subst. exact Hy.
  - intros H. exists x. split; [exact H|apply String.eqb_refl].
Qed.

Lemma distinct_NoDup (l : list string) : distinct l = true ↔ List.NoDup l.
Proof.
  induction l as [|x l IH]; simpl.
  - split; [constructor|reflexivity].
  - rewrite andb_true_iff, negb_true_iff, IH. split.
    + intros [Hx Hl]. constructor; [|exact Hl].
      intros Hin. apply existsb_eqb_In in Hin. congruence.
    + intros H. inversion H as [|? ? Hx Hl]; subst. split; [|exact Hl].
      destruct (existsb (String.eqb x) l) eqn:E; [|reflexivity].
      apply existsb_eqb_In in E. contradiction.
Qed.

Lemma In_labels (d : DataFrame) (l : string) : In l (labels d) ↔ has_column d l = true.
Proof. unfold has_column. symmetry. apply existsb_eqb_In. Qed.

Lemma labels_drop_column (d : DataFrame) (c : string) :
  labels (drop_column d c) = List.filter (fun l => negb (String.eqb l c)) (labels d).
Proof.
  unfold labels, drop_column. simpl. induction (columns d) as [|[k v] cols IH]; simpl.
  - reflexivity.
  - destruct (String.eqb k c); simpl; [exact IH|]. rewrite IH. reflexivity.
Qed.

Lemma NoDup_labels_drop_if_present (d : DataFrame) (c : string) :
  List.NoDup (labels d) → List.NoDup (labels (drop_if_present d c)).
Proof.
  intros H. unfold drop_if_present. destruct (has_column d c); [|exact H].
  rewrite labels_drop_column. apply List.NoDup_filter. exact H.
Qed.

Lemma labels_replace (cols : list (string * list value)) (c : string) (v : list value) :
  map fst (map (fun kv => if String.eqb (fst kv) c then (c, v) else kv) cols) = map fst cols.
Proof.
  induction cols as [|[k w] cols IH]; simpl; [reflexivity|].
  rewrite IH. destruct (String.eqb_spec k c) as [->|]; reflexivity.
Qed.

Lemma NoDup_labels_set_column (d : DataFrame) (c : string) (v : list value) :
  List.NoDup (labels d) → List.NoDup (labels (set_column d c v)).
Proof.
  intros H. unfold set_column. destruct (has_column d c) eqn:Hc; unfold labels; simpl.
  - rewrite labels_replace. exact H.
  - rewrite map_app. simpl. apply List.NoDup_app.
    + exact H.
    + constructor; [intros []|constructor].
    + intros x Hx [<-|[]]. apply In_labels in Hx. congruence.
Qed.

Lemma NoDup_labels_add_date (src tgt : string) (d : DataFrame) :
  List.NoDup (labels d) → List.NoDup (labels (add_date src tgt d)).
Proof.
  intros H. unfold add_date. destruct (has_column d src); [|exact H].
  apply NoDup_labels_set_column. exact H.
Qed.

Lemma NoDup_labels_fold_set_column (g : string → list value) (m : list (string * string))
    (d : DataFrame) :
  List.NoDup (labels d) →
  List.NoDup (labels (fold_left (fun d' st => set_column d' (snd st) (g (fst st))) m d)).
Proof.
  revert d. induction m as [|st m IH]; intros d H; simpl; [exact H|].
  apply IH. apply NoDup_labels_set_column. exact H.
Qed.

Lemma assoc_None_not_In (cols : list (string * list value)) (c : string) :
  assoc cols c = None ↔ ¬ In c (map fst cols).
Proof.
  unfold assoc. induction cols as [|[k v] cols IH]; simpl.
  - split; [intros _ []|reflexivity].
  - destruct (String.eqb_spec k c) as [->|Hne]; simpl.
    + split; [discriminate|]. intros H. exfalso. apply H. left. reflexivity.
    + rewrite IH. split.
      * intros H [Heq|Hin]; [congruence|contradiction].
      * intros H Hin. apply H. right. exact Hin.
Qed.

Lemma lookup_None_not_In (d : DataFrame) (c : string) :
  lookup_col d c = None ↔ ¬ In c (labels d).
Proof. apply assoc_None_not_In. Qed.

Lemma NoDup_labels_add_address (src prefix : string) (d : DataFrame) :
  List.NoDup (labels d) →
  List.NoDup (map fst (address_columns d src prefix)) →
  (∀ l, In l (map fst (address_columns d src prefix)) → lookup_col d l = None) →
  List.NoDup (labels (add_address src prefix d)).
Proof.
  intros Hd Ha Hfresh. unfold add_address, address_columns in *.
  destruct (has_column d src); [|exact Hd].
  unfold labels, concat_columns. simpl. rewrite map_app.
  apply List.NoDup_app; [exact Hd|exact Ha|].
  intros x Hx Hx'. apply Hfresh in Hx'. apply lookup_None_not_In in Hx'. contradiction.
Qed.

Lemma address_columns_labels (d : DataFrame) (src prefix : string) :
  map fst (address_columns d src prefix)
  = if adds_address d src then address_labels prefix else [].
Proof.
  unfold address_columns, adds_address, json_normalize, address_labels.
  destruct (has_column d src); [|reflexivity]. simpl.
  destruct (get_column d src) as [|v vs]; simpl; reflexivity.
Qed.

Lemma staged_nrows (df : DataFrame) : nrows (staged df) = nrows df.
Proof.
  unfold staged.
  rewrite !nrows_add_date, nrows_set_column.
  rewrite (nrows_fold_set_column (amount_column _)).
  cbn [fold_left]. rewrite !nrows_drop_if_present. reflexivity.
Qed.

Lemma assembled_nrows (df : DataFrame) : nrows (assembled df) = nrows df.
Proof. unfold assembled. rewrite !nrows_add_address. apply staged_nrows. Qed.

(** The staged frame, label by label. *)
Lemma staged_lookup (df : DataFrame) (c : string) :
  lookup_col (staged df) c = derived_col df c.
Proof.
  unfold staged.
  set (df1 := fold_left drop_if_present _ df).
  assert (H1 : ∀ c', lookup_col df1 c'
                 = if String.eqb "LOGO" c' || String.eqb "OTHER" c' then None
                   else lookup_col df c').
  { intros c'. unfold df1. cbn [fold_left]. rewrite !lookup_drop_if_present.
    destruct (String.eqb "LOGO" c'), (String.eqb "OTHER" c'); reflexivity. }
  assert (Hn1 : nrows df1 = nrows df).
  { unfold df1. cbn [fold_left]. rewrite !nrows_drop_if_present. reflexivity. }
  assert (Hsrc : agree_on (map fst amount_map) df1 df).
  { split; [exact Hn1|]. intros s Hs. rewrite H1. simpl in Hs.
    destruct Hs as [<-|[<-|[<-|[<-|[]]]]]; reflexivity. }
  rewrite (currency_column_agree df1 df Hsrc).
  set (df3 := set_column _ "CURRENCY" _).
  assert (H3 : ∀ c', lookup_col df3 c'
                 = if String.eqb "CURRENCY" c' then Some (currency_column df)
                   else if String.eqb "DISCOUNT_AMOUNT" c' then Some (amount_column df "DISCOUNT")
                   else if String.eqb "TAX_AMOUNT" c' then Some (amount_column df "TAX")
                   else if String.eqb "SUB_TOTAL_AMOUNT" c'
                        then Some (amount_column df "SUB_TOTAL")
                   else if String.eqb "TOTAL_AMOUNT" c' then Some (amount_column df "TOTAL")
                   else lookup_col df1 c').
  { intros c'. unfold df3. cbn [fold_left amount_map fst snd].
    rewrite !lookup_set_column.
    rewrite !(amount_column_agree df1 df) by (first [exact Hn1 | rewrite H1; reflexivity]).
    reflexivity. }
  set (df4 := add_date "DATE" "DATE_NORM" df3).
  assert (H4 : ∀ c', lookup_col df4 c'
                 = if String.eqb "DATE_NORM" c' && has_column df "DATE"
                   then Some (date_column df "DATE") else lookup_col df3 c').
  { intros c'. unfold df4. rewrite lookup_add_date.
    rewrite (has_column_agree df3 df "DATE"), (date_column_agree df3 df "DATE");
      [reflexivity|rewrite H3, H1; reflexivity..]. }
  rewrite lookup_add_date.
  rewrite (has_column_agree df4 df "DUE_DATE"), (date_column_agree df4 df "DUE_DATE");
    [|rewrite H4, H3, H1; reflexivity..].
  rewrite H4, H3, H1. reflexivity.
Qed.

Lemma staged_source (df : DataFrame) (s : string) :
  derived_col df s = lookup_col df s →
  has_column (staged df) s = has_column df s
  ∧ get_column (staged df) s = get_column df s.
Proof.
  intros H. rewrite !has_column_lookup, !get_column_lookup, staged_lookup, H.
  split; reflexivity.
Qed.

Lemma staged_address_columns (df : DataFrame) (s prefix : string) :
  derived_col df s = lookup_col df s →
  address_columns (staged df) s prefix = address_columns df s prefix.
Proof.
  intros H. apply address_columns_agree. rewrite staged_lookup. exact H.
Qed.

Lemma buyer_columns_not_seller_source (df : DataFrame) :
  assoc (address_columns df "BUYER" "BUYER_") "SELLER_ADDRESS" = None.
Proof.
  apply assoc_None_not_In. rewrite address_columns_labels.
  destruct (adds_address df "BUYER"); [|intros []].
  vm_compute. intuition discriminate.
Qed.

(** The assembled frame, label by label. *)
Lemma assembled_lookup (df : DataFrame) (c : string) :
  lookup_col (assembled df) c = final_col df c.
Proof.
  unfold assembled, final_col.
  rewrite !lookup_add_address, staged_lookup.
  rewrite (staged_address_columns df "BUYER") by reflexivity.
  rewrite (address_columns_agree (add_address "BUYER" "BUYER_" (staged df)) df "SELLER_ADDRESS").
  - destruct (derived_col df c); [reflexivity|].
    destruct (assoc _ c); reflexivity.
  - rewrite lookup_add_address, staged_lookup.
    rewrite (staged_address_columns df "BUYER") by reflexivity.
    change (derived_col df "SELLER_ADDRESS") with (lookup_col df "SELLER_ADDRESS").
    destruct (lookup_col df "SELLER_ADDRESS"); [reflexivity|].
    apply buyer_columns_not_seller_source.
Qed.

(** The cleaned frame has the rows of the input and, under every
    label, the column [final_col] describes. *)
Lemma clean_template_df_lookup (df out : DataFrame) :
  clean_template_df df = Some out →
  nrows out = nrows df ∧ ∀ c, lookup_col out c = final_col df c.
Proof.
  rewrite clean_template_df_assembled. intros H.
  apply lookup_reindex_sorted in H. destruct H as [Hn Hl].
  split.
  - rewrite Hn. apply assembled_nrows.
  - intros c. rewrite Hl. apply assembled_lookup.
Qed.

Lemma seller_columns_of_staged (df : DataFrame) :
  address_columns (add_address "BUYER" "BUYER_" (staged df)) "SELLER_ADDRESS" "SELLER_"
  = address_columns df "SELLER_ADDRESS" "SELLER_".
Proof.
  apply address_columns_agree.
  rewrite lookup_add_address, staged_lookup.
  rewrite (staged_address_columns df "BUYER") by reflexivity.
  change (derived_col df "SELLER_ADDRESS") with (lookup_col df "SELLER_ADDRESS").
  destruct (lookup_col df "SELLER_ADDRESS"); [reflexivity|].
  apply buyer_columns_not_seller_source.
Qed.

Lemma NoDup_labels_staged (df : DataFrame) :
  List.NoDup (labels df) → List.NoDup (labels (staged df)).
Proof.
  intros H. unfold staged.
  do 2 apply NoDup_labels_add_date. apply NoDup_labels_set_column.
  apply NoDup_labels_fold_set_column. cbn [fold_left].
  do 2 apply NoDup_labels_drop_if_present. exact H.
Qed.

Lemma has_column_false_lookup (df : DataFrame) (l : string) :
  has_column df l = false → lookup_col df l = None.
Proof. rewrite has_column_lookup. destruct (lookup_col df l); [discriminate|reflexivity]. Qed.

Lemma derived_col_address_label (df : DataFrame) (prefix l : string) :
  prefix = "BUYER_"%string ∨ prefix = "SELLER_"%string →
  In l (address_labels prefix) → derived_col df l = lookup_col df l.
Proof.
  intros [-> | ->] Hl; vm_compute in Hl;
    repeat (destruct Hl as [<-|Hl]; [reflexivity|]); destruct Hl.
Qed.

(** A frame free of clashes is cleaned: the final reindexing does
    not fail. *)
Lemma clean_template_df_succeeds (df : DataFrame) :
  clash_free df = true → ∃ out, clean_template_df df = Some out.
Proof.
  unfold clash_free. rewrite !andb_true_iff. intros [[Hd Hb] Hs].
  rewrite clean_template_df_assembled. unfold reindex_sorted.
  assert (Hdist : distinct (labels (assembled df)) = true).
  { apply distinct_NoDup. unfold assembled.
    apply NoDup_labels_add_address.
    - apply NoDup_labels_add_address.
      + apply NoDup_labels_staged, distinct_NoDup, Hd.
      + rewrite (staged_address_columns df "BUYER") by reflexivity.
        rewrite address_columns_labels.
        destruct (adds_address df "BUYER"); [|constructor].
        apply distinct_NoDup. reflexivity.
      + rewrite (staged_address_columns df "BUYER") by reflexivity.
        rewrite address_columns_labels. intros l Hl.
        destruct (adds_address df "BUYER"); [|destruct Hl].
        cbn [negb orb] in Hb.
        rewrite staged_lookup, (derived_col_address_label df "BUYER_" l) by auto.
        apply has_column_false_lookup.
        rewrite forallb_forall in Hb. apply negb_true_iff, Hb, Hl.
    - rewrite seller_columns_of_staged, address_columns_labels.
      destruct (adds_address df "SELLER_ADDRESS"); [|constructor].
      apply distinct_NoDup. reflexivity.
    - rewrite seller_columns_of_staged, address_columns_labels. intros l Hl.
      destruct (adds_address df "SELLER_ADDRESS"); [|destruct Hl].
      cbn [negb orb] in Hs.
      rewrite lookup_add_address, staged_lookup.
      rewrite (derived_col_address_label df "SELLER_" l) by auto.
      rewrite has_column_false_lookup
        by (rewrite forallb_forall in Hs; apply negb_true_iff, Hs, Hl).
      rewrite (staged_address_columns df "BUYER") by reflexivity.
      apply assoc_None_not_In. rewrite address_columns_labels.
      destruct (adds_address df "BUYER"); [|intros []].
      intros Hin. vm_compute in Hl, Hin.
      repeat (destruct Hl as [<-|Hl];
              [repeat (destruct Hin as [Hin|Hin]; [discriminate Hin|]); destruct Hin|]).
      destruct Hl. }
  rewrite Hdist. eexists. reflexivity.
Qed.

(** ** The currency of a row *)

Lemma coalesce_of_text (g r : option pystr) :
  coalesce (of_text g) (of_text r)
  = of_text (match g with Some x => Some x | None => r end).
Proof. destruct g; reflexivity. Qed.

Lemma of_text_VNone (o : option pystr) : of_text o = VNone → o = None.
Proof. destruct o; [discriminate|reflexivity]. Qed.

Lemma first_some_cons {A : Type} (o : option A) (l : list (option A)) :
  first_some (o :: l) = match o with Some x => Some x | None => first_some l end.
Proof. destruct o; reflexivity. Qed.

Lemma repeat_lookup {A : Type} (x : A) (n i : nat) :
  (i < n)%nat → repeat x n !! i = Some x.
Proof.
  revert i. induction n as [|n IH]; intros i Hi; [lia|].
  destruct i as [|i]; [reflexivity|]. simpl. apply IH. lia.
Qed.

Lemma bfill_rows (df : DataFrame) (srcs : list string) (i : nat) :
  columns_wf df → (i < nrows df)%nat →
  match flat_map (currency_guesses df) srcs with
  | [] => repeat VNone (nrows df)
  | cs => bfill_first cs
  end !! i
  = Some (of_text (first_some (map (currency_guess df i) srcs))).
Proof.
  intros Hwf Hi. induction srcs as [|s rest IH]; cbn [flat_map map].
  - simpl. apply repeat_lookup. exact Hi.
  - rewrite first_some_cons. unfold currency_guesses at 1, currency_guess at 1.
    destruct (has_column df s) eqn:Hs; [|exact IH].
    pose proof (get_column_length df s Hwf Hs) as Hlen.
    destruct (lookup_lt_is_Some_2 (get_column df s) i ltac:(lia)) as [v Hv].
    rewrite Hv. cbn [app].
    set (g := snd (parse_amount_and_currency v)).
    assert (Hcol : map (fun v => of_text (snd (parse_amount_and_currency v))) (get_column df s) !! i
                   = Some (of_text g)).
    { rewrite list_lookup_fmap, Hv. reflexivity. }
    destruct (flat_map (currency_guesses df) rest) as [|c cs] eqn:Hrest.
    + cbn [bfill_first]. rewrite Hcol.
      assert (Hnone : first_some (map (currency_guess df i) rest) = None).
      { apply of_text_VNone. rewrite repeat_lookup in IH by exact Hi.
        injection IH as IH. symmetry. exact IH. }
      rewrite Hnone. destruct g; reflexivity.
    + match goal with
      | |- bfill_first (?col :: _) !! _ = _ =>
          change (bfill_first (col :: c :: cs))
            with (zip_with coalesce col (bfill_first (c :: cs)))
      end.
      rewrite lookup_zip_with, Hcol. cbn iota in IH. rewrite IH. simpl.
      rewrite coalesce_of_text. reflexivity.
Qed.

Lemma currency_column_row (df : DataFrame) (i : nat) :
  columns_wf df → (i < nrows df)%nat →
  currency_column df !! i = Some (of_text (row_currency df i)).
Proof.
  intros Hwf Hi. exact (bfill_rows df (map fst amount_map) i Hwf Hi).
Qed.

Lemma currency_guesses_length (df : DataFrame) (srcs : list string) :
  columns_wf df →
  Forall (fun s => length s = nrows df) (flat_map (currency_guesses df) srcs).
Proof.
  intros Hwf. induction srcs as [|s rest IH]; cbn [flat_map]; [constructor|].
  apply Forall_app. split; [|exact IH].
  unfold currency_guesses. destruct (has_column df s) eqn:Hs; [|constructor].
  constructor; [|constructor]. rewrite length_map. apply get_column_length; assumption.
Qed.

Lemma bfill_first_length (n : nat) (cs : list (list value)) :
  Forall (fun s => length s = n) cs → cs ≠ [] → length (bfill_first cs) = n.
Proof.
  induction cs as [|c cs IH]; intros Hall Hne; [congruence|].
  inversion Hall as [|? ? Hc Hcs]; subst. cbn [bfill_first].
  destruct cs as [|c' cs']; [reflexivity|].
  rewrite length_zip_with, IH by (try assumption; discriminate). lia.
Qed.

Lemma currency_column_length (df : DataFrame) :
  columns_wf df → length (currency_column df) = nrows df.
Proof.
  intros Hwf. unfold currency_column.
  pose proof (currency_guesses_length df (map fst amount_map) Hwf) as Hall.
  change (flat_map (currency_guesses df) (map fst amount_map))
    with (flat_map (fun st => currency_guesses df (fst st)) amount_map) in Hall.
  destruct (flat_map _ amount_map) as [|c cs] eqn:E.
  - apply repeat_length.
  - apply bfill_first_length; [exact Hall|discriminate].
Qed.

Lemma currency_column_absent (df : DataFrame) :
  (∀ src, In src monetary_sources → has_column df src = false) →
  currency_column df = repeat VNone (nrows df).
Proof.
  intros H. unfold currency_column, currency_guesses. cbn [flat_map amount_map fst].
  rewrite !H by (vm_compute; tauto). reflexivity.
Qed.

Lemma assoc_json_normalize_length (recs : list address) (prefix c : string) (v : list value) :
  assoc (json_normalize recs prefix) c = Some v → length v = length recs.
Proof.
  unfold assoc. intros H.
  destruct (find _ _) as [kv|] eqn:Hf; [|discriminate]. injection H as <-.
  apply find_some in Hf. destruct Hf as [Hin _].
  unfold json_normalize in Hin. destruct recs as [|r recs]; [destruct Hin|].
  apply in_map_iff in Hin. destruct Hin as (kf & <- & _).
  simpl. rewrite length_map. reflexivity.
Qed.

Lemma address_columns_length (df : DataFrame) (src prefix c : string) (v : list value) :
  columns_wf df → assoc (address_columns df src prefix) c = Some v → length v = nrows df.
Proof.
  intros Hwf. unfold address_columns. destruct (has_column df src) eqn:Hs; [|discriminate].
  intros H. apply assoc_json_normalize_length in H.
  rewrite H, length_map. apply get_column_length; assumption.
Qed.

Lemma amount_column_length (df : DataFrame) (src : string) :
  columns_wf df → length (amount_column df src) = nrows df.
Proof.
  intros Hwf. unfold amount_column. destruct (has_column df src) eqn:Hs.
  - rewrite length_map. apply get_column_length; assumption.
  - apply repeat_length.
Qed.

Lemma final_col_length (df : DataFrame) (c : string) (v : list value) :
  columns_wf df → final_col df c = Some v → length v = nrows df.
Proof.
  intros Hwf. unfold final_col, derived_col.
  destruct (String.eqb "DUE_DATE_NORM" c && has_column df "DUE_DATE") eqn:E1.
  { intros [= <-]. apply andb_prop in E1. destruct E1 as [_ E1].
    unfold date_column. rewrite length_map. apply get_column_length; assumption. }
  destruct (String.eqb "DATE_NORM" c && has_column df "DATE") eqn:E2.
  { intros [= <-]. apply andb_prop in E2. destruct E2 as [_ E2].
    unfold date_column. rewrite length_map. apply get_column_length; assumption. }
  destruct (String.eqb "CURRENCY" c).
  { intros [= <-]. apply currency_column_length, Hwf. }
  repeat (match goal with
          | |- context [if String.eqb ?a c then Some _ else _] => destruct (String.eqb a c)
          end; [intros [= <-]; apply amount_column_length, Hwf|]).
  destruct (String.eqb "LOGO" c || String.eqb "OTHER" c).
  - destruct (assoc (address_columns df "BUYER" "BUYER_") c) eqn:Eb.
    + intros [= <-]. exact (address_columns_length df _ _ _ _ Hwf Eb).
    + intros Es. exact (address_columns_length df _ _ _ _ Hwf Es).
  - destruct (lookup_col df c) eqn:El.
    + intros [= <-]. exact (lookup_col_length df c _ Hwf El).
    + destruct (assoc (address_columns df "BUYER" "BUYER_") c) eqn:Eb.
      * intros [= <-]. exact (address_columns_length df _ _ _ _ Hwf Eb).
      * intros Es. exact (address_columns_length df _ _ _ _ Hwf Es).
Qed.

Lemma reindex_sorted_columns (df out : DataFrame) (k : string) (v : list value) :
  reindex_sorted df = Some out → In (k, v) (columns out) → lookup_col df k = Some v.
Proof.
  unfold reindex_sorted. destruct (distinct (labels df)); [|discriminate].
  intros [= <-]. cbn [columns]. intros Hin.
  apply in_map_iff in Hin. destruct Hin as (c & [= <- <-] & Hc).
  apply existsb_eqb_In in Hc. rewrite existsb_sorted in Hc.
  fold (has_column df c) in Hc.
  rewrite has_column_lookup in Hc. rewrite get_column_lookup.
  destruct (lookup_col df c); [reflexivity|discriminate].
Qed.

(** No row is lost: every column of the cleaned frame has one entry
    per row of the input. *)
Lemma clean_template_df_wf (df out : DataFrame) :
  columns_wf df → clean_template_df df = Some out → columns_wf out.
Proof.
  intros Hwf H. pose proof (clean_template_df_lookup df out H) as [Hn Hl].
  unfold columns_wf. rewrite Forall_forall. intros [k v] Hin.
  rewrite Hn. cbn [snd].
  rewrite clean_template_df_assembled in H.
  apply list_elem_of_In in Hin.
  pose proof (reindex_sorted_columns _ _ _ _ H Hin) as Hv.
  rewrite assembled_lookup in Hv. exact (final_col_length df k v Hwf Hv).
Qed.

(** C7. In the cleaned frame the CURRENCY of every row is the first
    currency that is not absent among those parsed from the row's
    monetary sources, taken in the order TOTAL, SUB_TOTAL, TAX,
    DISCOUNT, a source that the input lacks giving no guess; and
    when the input has none of the four sources, CURRENCY is absent in
    every row. A frame free of label clashes is always cleaned. *)
Theorem C7_currency_first_guess_in_fixed_order (df : DataFrame) :
  columns_wf df →
  monetary_sources = ["TOTAL"; "SUB_TOTAL"; "TAX"; "DISCOUNT"]%string
  ∧ (clash_free df = true → ∃ out, clean_template_df df = Some out)
  ∧ ∀ out, clean_template_df df = Some out →
      ∃ currency : list value,
        lookup_col out "CURRENCY" = Some currency
        ∧ length currency = nrows out
        ∧ (∀ i, (i < nrows out)%nat → currency !! i = Some (of_text (row_currency df i)))
        ∧ ((∀ src, In src monetary_sources → has_column df src = false) →
           currency = repeat VNone (nrows out)).
Proof.
  intros Hwf. split; [reflexivity|]. split; [apply clean_template_df_succeeds|].
  intros out H. pose proof (clean_template_df_lookup df out H) as [Hn Hl].
  exists (currency_column df). rewrite Hn. repeat split.
  - rewrite Hl. reflexivity.
  - apply currency_column_length, Hwf.
  - intros i Hi. apply currency_column_row; assumption.
  - apply currency_column_absent.
Qed.

(** An instance of the preceding theorem, on a concrete input. *)
Lemma C7_currency_first_guess_in_fixed_order_witness :
  columns_wf frame_two_rows
  ∧ ∃ out currency,
      clean_template_df frame_two_rows = Some out
      ∧ lookup_col out "CURRENCY" = Some currency
      ∧ currency !! 0%nat = Some (of_text (row_currency frame_two_rows 0))
      ∧ currency !! 1%nat = Some (of_text (row_currency frame_two_rows 1)).
Proof.
  assert (Hwf : columns_wf frame_two_rows) by (repeat constructor).
  split; [exact Hwf|].
  destruct (C7_currency_first_guess_in_fixed_order frame_two_rows Hwf) as (_ & Hex & Hall).
  destruct (Hex eq_refl) as [out Hout].
  destruct (Hall out Hout) as (currency & Hc & Hlen & Hrow & _).
  pose proof (proj1 (clean_template_df_lookup _ _ Hout)) as Hn.
  exists out, currency. repeat split; try assumption.
  - apply Hrow. rewrite Hn. simpl. lia.
  - apply Hrow. rewrite Hn. simpl. lia.
Defined.

(** ** The order of the output columns *)

Lemma ascending_insert_sorted (x : string) (l : list string) :
  ascending l = true → ascending (insert_sorted x l) = true.
Proof.
  induction l as [|y l IH]; intros H; [reflexivity|].
  cbn [insert_sorted]. destruct (String.leb x y) eqn:E.
  - cbn [ascending]. rewrite E. exact H.
  - assert (Hyx : String.leb y x = true).
    { destruct (String.leb_total x y) as [H'|H']; congruence. }
    assert (Hl : ascending l = true).
    { cbn [ascending] in H. destruct l; [reflexivity|]. apply andb_prop in H. apply H. }
    specialize (IH Hl). destruct l as [|z l].
    + cbn [insert_sorted ascending]. rewrite Hyx. reflexivity.
    + cbn [insert_sorted] in IH |- *. cbn [ascending] in H. apply andb_prop in H.
      destruct H as [Hyz _].
      destruct (String.leb x z); cbn [ascending] in IH |- *.
      * rewrite Hyx. exact IH.
      * rewrite Hyz. exact IH.
Qed.

Lemma ascending_sorted (l : list string) : ascending (sorted l) = true.
Proof.
  induction l as [|x l IH]; [reflexivity|].
  cbn [sorted fold_right]. apply ascending_insert_sorted. exact IH.
Qed.

Lemma insert_sorted_Permutation (x : string) (l : list string) :
  Permutation (insert_sorted x l) (x :: l).
Proof.
  induction l as [|y l IH]; cbn [insert_sorted]; [reflexivity|].
  destruct (String.leb x y); [reflexivity|].
  rewrite IH. apply perm_swap.
Qed.

Lemma sorted_Permutation (l : list string) : Permutation (sorted l) l.
Proof.
  induction l as [|x l IH]; [reflexivity|].
  cbn [sorted fold_right]. rewrite insert_sorted_Permutation.
  constructor. exact IH.
Qed.

Lemma labels_reindex_sorted (df out : DataFrame) :
  reindex_sorted df = Some out → labels out = sorted (labels df) ∧ List.NoDup (labels df).
Proof.
  unfold reindex_sorted. destruct (distinct (labels df)) eqn:E; [|discriminate].
  intros [= <-]. split; [|apply distinct_NoDup, E].
  unfold labels at 1. cbn [columns]. rewrite map_map. cbn [fst]. apply map_id.
Qed.

(** The columns of a cleaned frame are in the order of their labels,
    and no label occurs twice (specification, 4.6 step 6 and 8). *)
Theorem clean_template_df_columns_sorted (df out : DataFrame) :
  clean_template_df df = Some out →
  ascending (labels out) = true ∧ List.NoDup (labels out).
Proof.
  rewrite clean_template_df_assembled. intros H.
  apply labels_reindex_sorted in H. destruct H as [-> Hd]. split.
  - apply ascending_sorted.
  - apply NoDup_ListNoDup. rewrite sorted_Permutation. apply NoDup_ListNoDup, Hd.
Qed.

(** An instance of the preceding theorem, on a concrete input. *)
Lemma clean_template_df_columns_sorted_witness :
  ∃ out,
    clean_template_df frame_two_rows = Some out
    ∧ ascending (labels out) = true
    ∧ labels out = ["CURRENCY"; "DISCOUNT"; "DISCOUNT_AMOUNT"; "SUB_TOTAL_AMOUNT";
                    "TAX_AMOUNT"; "TOTAL"; "TOTAL_AMOUNT"]%string.
Proof.
  destruct (clean_template_df frame_two_rows) as [out|] eqn:E;
    [|vm_compute in E; discriminate E].
  exists out. split; [reflexivity|].
  split; [exact (proj1 (clean_template_df_columns_sorted frame_two_rows out E))|].
  vm_compute in E. injection E as <-. reflexivity.
Defined.

(** ** Source columns that the input lacks *)

(** C3. The code breaks the claim on the frame with the single column
    X: it has no TOTAL, no DATE and no BUYER column; the monetary loop
    has an [else] branch and the cleaned frame has the four amount
    columns, but the date and the address steps have none, and the
    cleaned frame has neither a DATE_NORM nor a BUYER_name column. *)
Lemma C3_no_date_column_without_source :
  has_column frame_X "DATE" = false ∧ has_column frame_X "BUYER" = false
  ∧ ∃ out,
      clean_template_df frame_X = Some out
      ∧ has_column out "DATE_NORM" = false
      ∧ has_column out "BUYER_name" = false
      ∧ labels out = ["CURRENCY"; "DISCOUNT_AMOUNT"; "SUB_TOTAL_AMOUNT"; "TAX_AMOUNT";
                      "TOTAL_AMOUNT"; "X"]%string.
Proof.
  split; [reflexivity|]. split; [reflexivity|].
  eexists. split; [vm_compute; reflexivity|].
  repeat split.
Qed.

Lemma final_col_amount_target (df : DataFrame) (src tgt : string) :
  In (src, tgt) amount_map → final_col df tgt = Some (amount_column df src).
Proof.
  intros H. simpl in H.
  destruct H as [[= <- <-]|[[= <- <-]|[[= <- <-]|[[= <- <-]|[]]]]]; reflexivity.
Qed.

Lemma assoc_address_columns_other (df : DataFrame) (src prefix l : string) :
  ¬ In l (address_labels prefix) → assoc (address_columns df src prefix) l = None.
Proof.
  intros H. apply assoc_None_not_In. rewrite address_columns_labels.
  destruct (adds_address df src); [exact H|intros []].
Qed.

Lemma assoc_address_columns_absent (df : DataFrame) (src prefix l : string) :
  has_column df src = false → assoc (address_columns df src prefix) l = None.
Proof. intros H. unfold address_columns. rewrite H. reflexivity. Qed.

Lemma buyer_label_not_seller (l : string) :
  In l (address_labels "BUYER_") → ¬ In l (address_labels "SELLER_").
Proof.
  intros Hl Hin. vm_compute in Hl, Hin.
  repeat (destruct Hl as [<-|Hl];
          [repeat (destruct Hin as [Hin|Hin]; [discriminate Hin|]); destruct Hin|]).
  destruct Hl.
Qed.

(** Source columns that the input lacks. For a frame whose columns
    all have one entry per row: cleaning keeps the number of rows and
    gives every column one entry per row; for each monetary source
    that the input lacks the amount column is there and absent in
    every row; for a DATE, DUE_DATE, BUYER or SELLER_ADDRESS that the
    input lacks the code makes no derived column (such a label holds
    in the output what it held in the input, nothing if it was not
    there). A frame free of label clashes is always cleaned. *)
Theorem clean_template_df_absent_sources (df : DataFrame) :
  columns_wf df →
  (clash_free df = true → ∃ out, clean_template_df df = Some out)
  ∧ ∀ out, clean_template_df df = Some out →
      nrows out = nrows df
      ∧ columns_wf out
      ∧ (∀ src tgt, In (src, tgt) amount_map → has_column df src = false →
                    lookup_col out tgt = Some (repeat VNone (nrows df)))
      ∧ (has_column df "DATE" = false →
         lookup_col out "DATE_NORM" = lookup_col df "DATE_NORM")
      ∧ (has_column df "DUE_DATE" = false →
         lookup_col out "DUE_DATE_NORM" = lookup_col df "DUE_DATE_NORM")
      ∧ (has_column df "BUYER" = false →
         ∀ l, In l (address_labels "BUYER_") → lookup_col out l = lookup_col df l)
      ∧ (has_column df "SELLER_ADDRESS" = false →
         ∀ l, In l (address_labels "SELLER_") → lookup_col out l = lookup_col df l).
Proof.
  intros Hwf. split; [apply clean_template_df_succeeds|].
  intros out H. pose proof (clean_template_df_lookup df out H) as [Hn Hl].
  split; [exact Hn|]. split; [exact (clean_template_df_wf df out Hwf H)|].
  split; [|split; [|split; [|split]]].
  - intros src tgt Hin Hsrc. rewrite Hl, (final_col_amount_target df src tgt Hin).
    unfold amount_column. rewrite Hsrc. reflexivity.
  - intros Hd. rewrite Hl. unfold final_col, derived_col.
    cbn [String.eqb Ascii.eqb Bool.eqb andb orb]. rewrite Hd.
    destruct (lookup_col df "DATE_NORM"); [reflexivity|].
    rewrite !assoc_address_columns_other by (vm_compute; intuition discriminate).
    reflexivity.
  - intros Hd. rewrite Hl. unfold final_col, derived_col.
    cbn [String.eqb Ascii.eqb Bool.eqb andb orb]. rewrite Hd.
    destruct (lookup_col df "DUE_DATE_NORM"); [reflexivity|].
    rewrite !assoc_address_columns_other by (vm_compute; intuition discriminate).
    reflexivity.
  - intros Hb l Hin. rewrite Hl. unfold final_col.
    rewrite (derived_col_address_label df "BUYER_" l) by auto.
    destruct (lookup_col df l); [reflexivity|].
    rewrite (assoc_address_columns_absent df "BUYER") by exact Hb.
    apply assoc_address_columns_other, buyer_label_not_seller, Hin.
  - intros Hs l Hin. rewrite Hl. unfold final_col.
    rewrite (derived_col_address_label df "SELLER_" l) by auto.
    destruct (lookup_col df l); [reflexivity|].
    rewrite (assoc_address_columns_absent df "SELLER_ADDRESS") by exact Hs.
    rewrite assoc_address_columns_other; [reflexivity|].
    intros Hb. exact (buyer_label_not_seller l Hb Hin).
Qed.

(** An instance of the preceding theorem, on a concrete input. *)
Lemma clean_template_df_absent_sources_witness :
  columns_wf frame_X
  ∧ ∃ out,
      clean_template_df frame_X = Some out
      ∧ nrows out = 1%nat
      ∧ lookup_col out "TOTAL_AMOUNT" = Some [VNone]
      ∧ lookup_col out "DATE_NORM" = None.
Proof.
  assert (Hwf : columns_wf frame_X) by (repeat constructor).
  split; [exact Hwf|].
  destruct (clean_template_df_absent_sources frame_X Hwf) as (Hex & Hall).
  destruct (Hex eq_refl) as [out Hout].
  destruct (Hall out Hout) as (Hn & _ & Hamount & Hdate & _).
  exists out. split; [exact Hout|]. split; [exact Hn|]. split.
  - exact (Hamount "TOTAL"%string "TOTAL_AMOUNT"%string (or_introl eq_refl) eq_refl).
  - exact (Hdate eq_refl).
Defined.

(** ** Source columns that pass through *)

(** C9, as stated, fails: a source column named CURRENCY is neither
    OTHER nor LOGO, yet the cleaned frame holds the derived currency
    under that label, not the source values. *)
Lemma C9_source_column_overwritten :
  lookup_col frame_with_currency "CURRENCY" = Some [VStr (py "x")]
  ∧ ∃ out,
      clean_template_df frame_with_currency = Some out
      ∧ lookup_col out "CURRENCY" = Some [VNone].
Proof.
  split; [reflexivity|].
  eexists. split; [vm_compute; reflexivity|]. reflexivity.
Qed.

Lemma derived_col_pass_through (df : DataFrame) (c : string) :
  c ≠ "OTHER"%string → c ≠ "LOGO"%string → ¬ In c (assigned_labels df) →
  derived_col df c = lookup_col df c.
Proof.
  intros Ho Hlg Hc. unfold assigned_labels in Hc. unfold derived_col.
  destruct (String.eqb_spec "DUE_DATE_NORM" c) as [<-|_].
  { destruct (has_column df "DUE_DATE") eqn:E; [|].
    - exfalso. apply Hc. rewrite !in_app_iff. right. right. left. reflexivity.
    - cbn [andb]. cbn [String.eqb Ascii.eqb Bool.eqb andb orb]. reflexivity. }
  cbn [andb].
  destruct (String.eqb_spec "DATE_NORM" c) as [<-|_].
  { destruct (has_column df "DATE") eqn:E; [|].
    - exfalso. apply Hc. rewrite !in_app_iff. right. left. left. reflexivity.
    - cbn [andb]. cbn [String.eqb Ascii.eqb Bool.eqb andb orb]. reflexivity. }
  cbn [andb].
  repeat match goal with
         | |- context [if String.eqb ?a c then Some _ else _] =>
             destruct (String.eqb_spec a c) as [<-|_];
             [exfalso; apply Hc; rewrite in_app_iff; left; simpl; tauto|]
         end.
  destruct (String.eqb_spec "LOGO" c) as [<-|_]; [congruence|].
  destruct (String.eqb_spec "OTHER" c) as [<-|_]; [congruence|].
  reflexivity.
Qed.

(** C9, amended. Whenever a frame is cleaned, every source column
    other than OTHER and LOGO whose label is not one the pipeline
    assigns (the four amounts and CURRENCY, DATE_NORM when DATE is
    present, DUE_DATE_NORM when DUE_DATE is present) is in the output
    with its values unchanged, and OTHER and LOGO are not in the
    output. A frame free of label clashes is always cleaned. *)
Theorem C9_unassigned_columns_pass_through (df : DataFrame) :
  (clash_free df = true → ∃ out, clean_template_df df = Some out)
  ∧ ∀ out, clean_template_df df = Some out →
      (∀ c v, lookup_col df c = Some v →
              c ≠ "OTHER"%string → c ≠ "LOGO"%string → ¬ In c (assigned_labels df) →
              lookup_col out c = Some v)
      ∧ lookup_col out "OTHER" = None
      ∧ lookup_col out "LOGO" = None.
Proof.
  split; [apply clean_template_df_succeeds|].
  intros out H. pose proof (clean_template_df_lookup df out H) as [Hn Hl].
  split; [|split].
  - intros c v Hv Ho Hlg Hc. rewrite Hl. unfold final_col.
    rewrite (derived_col_pass_through df c Ho Hlg Hc), Hv. reflexivity.
  - rewrite Hl. unfold final_col.
    change (derived_col df "OTHER") with (@None (list value)).
    rewrite !assoc_address_columns_other by (vm_compute; intuition discriminate).
    reflexivity.
  - rewrite Hl. unfold final_col.
    change (derived_col df "LOGO") with (@None (list value)).
    rewrite !assoc_address_columns_other by (vm_compute; intuition discriminate).
    reflexivity.
Qed.

(** An instance of the preceding theorem, on a concrete input. *)
Lemma C9_unassigned_columns_pass_through_witness :
  ∃ out,
    clean_template_df frame_with_logo = Some out
    ∧ lookup_col out "NOTE" = Some [VStr (py "n")]
    ∧ lookup_col out "LOGO" = None.
Proof.
  destruct (C9_unassigned_columns_pass_through frame_with_logo) as (Hex & Hall).
  destruct (Hex eq_refl) as [out Hout].
  destruct (Hall out Hout) as (Hpass & _ & Hlogo).
  exists out. split; [exact Hout|]. split; [|exact Hlogo].
  apply Hpass; [reflexivity|discriminate|discriminate|].
  vm_compute. intuition discriminate.
Defined.

(** ** Frames: when the final reindexing raises *)

Lemma labels_add_address (src prefix : string) (d : DataFrame) :
  labels (add_address src prefix d) = labels d ++ map fst (address_columns d src prefix).
Proof.
  unfold add_address, address_columns. destruct (has_column d src).
  - unfold labels, concat_columns. cbn [columns]. apply map_app.
  - cbn [map]. rewrite app_nil_r. reflexivity.
Qed.

Lemma labels_assembled (df : DataFrame) :
  labels (assembled df)
  = (labels (staged df)
     ++ (if adds_address df "BUYER" then address_labels "BUYER_" else []))
    ++ (if adds_address df "SELLER_ADDRESS" then address_labels "SELLER_" else []).
Proof.
  unfold assembled. rewrite !labels_add_address.
  rewrite seller_columns_of_staged, (staged_address_columns df "BUYER") by reflexivity.
  rewrite !address_columns_labels. reflexivity.
Qed.

(** An address label of the input is still a label before the
    addresses are added. *)
Lemma address_label_staged (df : DataFrame) (prefix l : string) :
  prefix = "BUYER_"%string ∨ prefix = "SELLER_"%string →
  In l (address_labels prefix) → has_column df l = true → In l (labels (staged df)).
Proof.
  intros Hp Hl Hc. apply In_labels. rewrite has_column_lookup, staged_lookup.
  rewrite (derived_col_address_label df prefix l Hp Hl).
  rewrite has_column_lookup in Hc. exact Hc.
Qed.

Lemma NoDup_app_disjoint {A : Type} (l1 l2 : list A) (x : A) :
  List.NoDup (l1 ++ l2) → In x l1 → In x l2 → False.
Proof.
  intros H H1 H2. apply NoDup_ListNoDup in H. apply NoDup_app in H.
  destruct H as (_ & H & _). apply (H x); apply list_elem_of_In; assumption.
Qed.

(** The frame is cleaned only if no added address label is a label
    of the input. *)
Lemma clean_template_df_no_clash (df out : DataFrame) :
  clean_template_df df = Some out →
  (∀ l, adds_address df "BUYER" = true → In l (address_labels "BUYER_") →
        has_column df l = false)
  ∧ (∀ l, adds_address df "SELLER_ADDRESS" = true → In l (address_labels "SELLER_") →
          has_column df l = false).
Proof.
  rewrite clean_template_df_assembled. unfold reindex_sorted.
  destruct (distinct (labels (assembled df))) eqn:Hd; [|discriminate]. intros _.
  apply distinct_NoDup in Hd. rewrite labels_assembled in Hd.
  split; intros l Ha Hl; rewrite Ha in Hd;
    destruct (has_column df l) eqn:Hc; try reflexivity; exfalso.
  - apply NoDup_ListNoDup, NoDup_app in Hd. destruct Hd as (Hd & _ & _).
    apply NoDup_ListNoDup in Hd.
    apply (NoDup_app_disjoint _ _ l Hd); [|exact Hl].
    apply (address_label_staged df "BUYER_"); auto.
  - apply (NoDup_app_disjoint _ _ l Hd); [|exact Hl].
    apply in_or_app. left. apply (address_label_staged df "SELLER_"); auto.
Qed.

Lemma clean_template_df_clash_free (df out : DataFrame) :
  distinct (labels df) = true → clean_template_df df = Some out → clash_free df = true.
Proof.
  intros Hd H. destruct (clean_template_df_no_clash df out H) as [Hb Hs].
  unfold clash_free. rewrite Hd. cbn [andb]. apply andb_true_intro. split.
  - destruct (adds_address df "BUYER"); [|reflexivity]. cbn [negb orb].
    apply forallb_forall. intros l Hl. rewrite (Hb l eq_refl Hl). reflexivity.
  - destruct (adds_address df "SELLER_ADDRESS"); [|reflexivity]. cbn [negb orb].
    apply forallb_forall. intros l Hl. rewrite (Hs l eq_refl Hl). reflexivity.
Qed.

(** For a frame with distinct labels, as [read_csv] builds it, the
    cleaning raises exactly when an address is split (the BUYER or the
    SELLER_ADDRESS column is present and the frame has a row) and the
    input already has a column with the label of one of its fields. *)
Theorem clean_template_df_raises_iff_clash (df : DataFrame) :
  distinct (labels df) = true →
  (clean_template_df df = None ↔ clash_free df = false).
Proof.
  intros Hd. split.
  - intros H. destruct (clash_free df) eqn:Hc; [|reflexivity].
    destruct (clean_template_df_succeeds df Hc) as (out & Hout). congruence.
  - intros Hc. destruct (clean_template_df df) as [out|] eqn:H; [|reflexivity].
    rewrite (clean_template_df_clash_free df out Hd H) in Hc. discriminate.
Qed.

(** An instance of the preceding theorem, on a concrete frame. *)
Lemma clean_template_df_raises_iff_clash_witness :
  distinct (labels frame_buyer_clash) = true
  ∧ clash_free frame_buyer_clash = false
  ∧ clean_template_df frame_buyer_clash = None.
Proof.
  assert (Hd : distinct (labels frame_buyer_clash) = true) by reflexivity.
  assert (Hc : clash_free frame_buyer_clash = false) by reflexivity.
  split; [exact Hd|]. split; [exact Hc|].
  exact (proj2 (clean_template_df_raises_iff_clash frame_buyer_clash Hd) Hc).
Defined.

(** ** Frames: the derived columns, row by row *)

Lemma lookup_has_column (df : DataFrame) (c : string) (v : list value) :
  lookup_col df c = Some v → has_column df c = true ∧ get_column df c = v.
Proof.
  intros H. rewrite has_column_lookup, get_column_lookup, H. split; reflexivity.
Qed.

Lemma adds_address_lookup (df : DataFrame) (src : string) (v : list value) :
  lookup_col df src = Some v → v ≠ [] → adds_address df src = true.
Proof.
  intros H Hv. destruct (lookup_has_column df src v H) as [Hc Hg].
  unfold adds_address. rewrite Hc, Hg. destruct v; [congruence|reflexivity].
Qed.

Lemma In_address_labels (prefix key : string) (field : address → option pystr) :
  In (key, field) address_fields → In (String.append prefix key) (address_labels prefix).
Proof.
  intros H. unfold address_labels.
  apply (in_map (fun kf => String.append prefix (fst kf)) _ _ H).
Qed.

(** The column that the records of an address contribute under the
    label of a field. *)
Lemma assoc_json_normalize (recs : list address) (prefix key : string)
    (field : address → option pystr) :
  prefix = "BUYER_"%string ∨ prefix = "SELLER_"%string →
  recs ≠ [] → In (key, field) address_fields →
  assoc (json_normalize recs prefix) (String.append prefix key)
  = Some (map (fun r => of_text (field r)) recs).
Proof.
  intros Hp Hr Hin. destruct recs as [|r recs]; [congruence|].
  unfold json_normalize, assoc. generalize (r :: recs). intros l.
  unfold address_fields in *. cbn [In] in Hin.
  destruct Hp as [-> | ->];
    repeat (destruct Hin as [[= <- <-]|Hin]; [reflexivity|]); destruct Hin.
Qed.

(** In a cleaned frame every derived column is its source column with
    the field function applied row by row: the amount of
    [parse_amount_and_currency] for a monetary source, [normalize_date]
    for DATE and DUE_DATE, and each field of [split_address_block] for
    BUYER and SELLER_ADDRESS. *)
Theorem clean_template_df_derived_columns (df out : DataFrame) :
  clean_template_df df = Some out →
  (∀ src tgt v, In (src, tgt) amount_map → lookup_col df src = Some v →
      lookup_col out tgt
      = Some (map (fun x => of_amount (fst (parse_amount_and_currency x))) v))
  ∧ (∀ v, lookup_col df "DATE" = Some v →
      lookup_col out "DATE_NORM" = Some (map (fun x => of_text (normalize_date x)) v))
  ∧ (∀ v, lookup_col df "DUE_DATE" = Some v →
      lookup_col out "DUE_DATE_NORM" = Some (map (fun x => of_text (normalize_date x)) v))
  ∧ (∀ v key field, lookup_col df "BUYER" = Some v → v ≠ [] →
      In (key, field) address_fields →
      lookup_col out (String.append "BUYER_" key)
      = Some (map (fun x => of_text (field (split_address_block x))) v))
  ∧ (∀ v key field, lookup_col df "SELLER_ADDRESS" = Some v → v ≠ [] →
      In (key, field) address_fields →
      lookup_col out (String.append "SELLER_" key)
      = Some (map (fun x => of_text (field (split_address_block x))) v)).
Proof.
  intros H. destruct (clean_template_df_lookup df out H) as [_ Hl].
  destruct (clean_template_df_no_clash df out H) as [Hb Hs].
  split; [|split; [|split; [|split]]].
  - intros src tgt v Hin Hv. rewrite Hl, (final_col_amount_target df src tgt Hin).
    destruct (lookup_has_column df src v Hv) as [Hc Hg].
    unfold amount_column. rewrite Hc, Hg. reflexivity.
  - intros v Hv. destruct (lookup_has_column df "DATE" v Hv) as [Hc Hg].
    rewrite Hl. unfold final_col, derived_col. rewrite Hc. cbn [String.eqb Ascii.eqb Bool.eqb andb].
    destruct (has_column df "DUE_DATE"); unfold date_column; rewrite Hg; reflexivity.
  - intros v Hv. destruct (lookup_has_column df "DUE_DATE" v Hv) as [Hc Hg].
    rewrite Hl. unfold final_col, derived_col. rewrite Hc. cbn [String.eqb Ascii.eqb Bool.eqb andb].
    unfold date_column. rewrite Hg. reflexivity.
  - intros v key field Hv Hne Hin.
    pose proof (In_address_labels "BUYER_" key field Hin) as Hlab.
    pose proof (adds_address_lookup df "BUYER" v Hv Hne) as Ha.
    destruct (lookup_has_column df "BUYER" v Hv) as [Hc Hg].
    rewrite Hl. unfold final_col.
    rewrite (derived_col_address_label df "BUYER_" _ (or_introl eq_refl) Hlab).
    rewrite (has_column_false_lookup df _ (Hb _ Ha Hlab)).
    unfold address_columns. rewrite Hc, Hg.
    rewrite (assoc_json_normalize _ "BUYER_" key field); auto.
    + rewrite map_map. reflexivity.
    + destruct v; [congruence|discriminate].
  - intros v key field Hv Hne Hin.
    pose proof (In_address_labels "SELLER_" key field Hin) as Hlab.
    pose proof (adds_address_lookup df "SELLER_ADDRESS" v Hv Hne) as Ha.
    destruct (lookup_has_column df "SELLER_ADDRESS" v Hv) as [Hc Hg].
    rewrite Hl. unfold final_col.
    rewrite (derived_col_address_label df "SELLER_" _ (or_intror eq_refl) Hlab).
    rewrite (has_column_false_lookup df _ (Hs _ Ha Hlab)).
    rewrite (assoc_address_columns_other df "BUYER" "BUYER_").
    2:{ intros Hbl. apply (buyer_label_not_seller _ Hbl Hlab). }
    unfold address_columns. rewrite Hc, Hg.
    rewrite (assoc_json_normalize _ "SELLER_" key field); auto.
    + rewrite map_map. reflexivity.
    + destruct v; [congruence|discriminate].
Qed.

(** An instance of the preceding theorem, on a concrete frame. *)
Lemma clean_template_df_derived_columns_witness :
  ∃ out,
    clean_template_df frame_buyer = Some out
    ∧ lookup_col out "BUYER_name" = Some [VStr (py "Acme")]
    ∧ lookup_col out "BUYER_tel" = Some [VNone].
Proof.
  destruct (clean_template_df frame_buyer) as [out|] eqn:E;
    [|vm_compute in E; discriminate E].
  exists out. split; [reflexivity|].
  destruct (clean_template_df_derived_columns frame_buyer out E) as (_ & _ & _ & Hb & _).
  assert (Hname : In ("name"%string, name) address_fields)
    by (unfold address_fields; cbn [In]; tauto).
  assert (Htel : In ("tel"%string, tel) address_fields)
    by (unfold address_fields; cbn [In]; tauto).
  assert (Hne : [VStr (py "Acme")] ≠ []) by discriminate.
  split.
  - etransitivity; [exact (Hb _ _ _ eq_refl Hne Hname)|]. vm_compute. reflexivity.
  - etransitivity; [exact (Hb _ _ _ eq_refl Hne Htel)|]. vm_compute. reflexivity.
Defined.

(** ** Frames: cleaning a cleaned frame *)

Lemma address_columns_none (df : DataFrame) (src prefix : string) :
  adds_address df src = false → address_columns df src prefix = [].
Proof.
  unfold adds_address, address_columns. destruct (has_column df src); [|reflexivity].
  cbn [andb]. destruct (get_column df src); [reflexivity|discriminate].
Qed.

Lemma final_col_no_address (df : DataFrame) (c : string) :
  adds_address df "BUYER" = false → adds_address df "SELLER_ADDRESS" = false →
  final_col df c = derived_col df c.
Proof.
  intros Hb Hs. unfold final_col.
  rewrite (address_columns_none df "BUYER" _ Hb), (address_columns_none df _ _ Hs).
  destruct (derived_col df c); reflexivity.
Qed.

Lemma adds_address_agree (d d0 : DataFrame) (s : string) :
  lookup_col d s = lookup_col d0 s → adds_address d s = adds_address d0 s.
Proof.
  intros H. unfold adds_address.
  rewrite (has_column_agree d d0 s H), !get_column_lookup, H. reflexivity.
Qed.

(** The sources of a cleaned frame are those of the input. *)
Lemma cleaned_sources (df out : DataFrame) :
  clean_template_df df = Some out →
  ∀ s, In s ["TOTAL"; "SUB_TOTAL"; "TAX"; "DISCOUNT"; "DATE"; "DUE_DATE"; "BUYER";
             "SELLER_ADDRESS"]%string →
       lookup_col out s = lookup_col df s.
Proof.
  intros H s Hs. destruct (clean_template_df_lookup df out H) as [_ Hl].
  rewrite Hl. unfold final_col. cbn [In] in Hs.
  assert (Hd : derived_col df s = lookup_col df s).
  { repeat (destruct Hs as [<- | Hs]; [reflexivity|]). destruct Hs. }
  rewrite Hd. destruct (lookup_col df s) as [v|] eqn:E; [reflexivity|].
  rewrite !assoc_address_columns_other; [reflexivity|..];
    vm_compute; repeat (destruct Hs as [<- | Hs]; [intuition discriminate|]); destruct Hs.
Qed.

(** The column of an address field in a cleaned frame. *)
Lemma cleaned_address_column (df out : DataFrame) (src prefix key : string)
    (field : address → option pystr) :
  clean_template_df df = Some out →
  (src = "BUYER"%string ∧ prefix = "BUYER_"%string)
  ∨ (src = "SELLER_ADDRESS"%string ∧ prefix = "SELLER_"%string) →
  adds_address df src = true → In (key, field) address_fields →
  lookup_col out (String.append prefix key)
  = Some (map (fun x => of_text (field (split_address_block x))) (get_column df src)).
Proof.
  intros H Hsp Ha Hin. destruct (clean_template_df_lookup df out H) as [_ Hl].
  destruct (clean_template_df_no_clash df out H) as [Hb Hs].
  pose proof (In_address_labels prefix key field Hin) as Hlab.
  assert (Hne : get_column df src ≠ []).
  { unfold adds_address in Ha. apply andb_prop in Ha. destruct Ha as [_ Ha].
    destruct (get_column df src); [discriminate Ha|discriminate]. }
  assert (Hc : has_column df src = true).
  { unfold adds_address in Ha. apply andb_prop in Ha. apply Ha. }
  assert (Hrec : map split_address_block (get_column df src) ≠ []).
  { destruct (get_column df src); [congruence|discriminate]. }
  rewrite Hl. unfold final_col. destruct Hsp as [[-> ->] | [-> ->]].
  - rewrite (derived_col_address_label df "BUYER_" _ (or_introl eq_refl) Hlab).
    rewrite (has_column_false_lookup df _ (Hb _ Ha Hlab)).
    unfold address_columns. rewrite Hc.
    rewrite (assoc_json_normalize _ "BUYER_" key field); auto.
    rewrite map_map. reflexivity.
  - rewrite (derived_col_address_label df "SELLER_" _ (or_intror eq_refl) Hlab).
    rewrite (has_column_false_lookup df _ (Hs _ Ha Hlab)).
    rewrite (assoc_address_columns_other df "BUYER" "BUYER_").
    2:{ intros Hbl. apply (buyer_label_not_seller _ Hbl Hlab). }
    unfold address_columns. rewrite Hc.
    rewrite (assoc_json_normalize _ "SELLER_" key field); auto.
    rewrite map_map. reflexivity.
Qed.

(** A cleaned frame whose address was split is not cleaned again. *)
Lemma clean_again_raises (df out : DataFrame) (src prefix : string) :
  clean_template_df df = Some out →
  (src = "BUYER"%string ∧ prefix = "BUYER_"%string)
  ∨ (src = "SELLER_ADDRESS"%string ∧ prefix = "SELLER_"%string) →
  adds_address df src = true → clean_template_df out = None.
Proof.
  intros H Hsp Ha. destruct (clean_template_df out) as [out2|] eqn:H2; [|reflexivity].
  exfalso. destruct (clean_template_df_no_clash out out2 H2) as [Hb Hs].
  assert (Hin : In ("name"%string, name) address_fields)
    by (unfold address_fields; cbn [In]; tauto).
  pose proof (cleaned_address_column df out src prefix "name" name H Hsp Ha Hin) as Hcol.
  assert (Hhas : has_column out (String.append prefix "name") = true)
    by (rewrite has_column_lookup, Hcol; reflexivity).
  assert (Hsrc : lookup_col out src = lookup_col df src).
  { apply (cleaned_sources df out H). cbn [In].
    destruct Hsp as [[-> _] | [-> _]]; tauto. }
  rewrite <- (adds_address_agree out df src Hsrc) in Ha.
  destruct Hsp as [[-> ->] | [-> ->]].
  - rewrite (Hb _ Ha (In_address_labels "BUYER_" _ _ Hin)) in Hhas. discriminate.
  - rewrite (Hs _ Ha (In_address_labels "SELLER_" _ _ Hin)) in Hhas. discriminate.
Qed.

Lemma has_column_labels_eq (d d' : DataFrame) (c : string) :
  labels d = labels d' → has_column d c = has_column d' c.
Proof. intros H. unfold has_column. rewrite H. reflexivity. Qed.

Lemma labels_set_column_present (d0 d : DataFrame) (c : string) (v : list value) :
  labels d = labels d0 → has_column d0 c = true → labels (set_column d c v) = labels d0.
Proof.
  intros E H. unfold set_column. rewrite (has_column_labels_eq d d0 c E), H.
  unfold labels at 1. cbn [columns]. rewrite labels_replace. exact E.
Qed.

Lemma labels_add_date_present (d0 d : DataFrame) (src tgt : string) :
  labels d = labels d0 → (has_column d0 src = true → has_column d0 tgt = true) →
  labels (add_date src tgt d) = labels d0.
Proof.
  intros E H. unfold add_date. rewrite (has_column_labels_eq d d0 src E).
  destruct (has_column d0 src); [|exact E].
  apply labels_set_column_present; [exact E|apply H; reflexivity].
Qed.

(** A frame that has every assigned label and no noise column keeps
    its labels, in their order, up to the address step. *)
Lemma labels_staged_fixed (d : DataFrame) :
  has_column d "OTHER" = false → has_column d "LOGO" = false →
  (∀ c, In c ["TOTAL_AMOUNT"; "SUB_TOTAL_AMOUNT"; "TAX_AMOUNT"; "DISCOUNT_AMOUNT";
              "CURRENCY"]%string → has_column d c = true) →
  (has_column d "DATE" = true → has_column d "DATE_NORM" = true) →
  (has_column d "DUE_DATE" = true → has_column d "DUE_DATE_NORM" = true) →
  labels (staged d) = labels d.
Proof.
  intros Ho Hl Ha Hd Hdd. unfold staged. cbn [fold_left]. unfold drop_if_present.
  rewrite Ho, Hl. cbn [amount_map fold_left fst snd].
  apply labels_add_date_present; [|exact Hdd].
  apply labels_add_date_present; [|exact Hd].
  repeat (apply labels_set_column_present; [|apply Ha; cbn [In]; tauto]).
  reflexivity.
Qed.

Lemma insert_sorted_head (x : string) (l : list string) :
  ascending (x :: l) = true → insert_sorted x l = x :: l.
Proof.
  destruct l as [|y l]; [reflexivity|]. cbn [ascending insert_sorted].
  intros H. apply andb_prop in H. destruct H as [H _]. rewrite H. reflexivity.
Qed.

(** Sorting a sorted list changes nothing. *)
Lemma sorted_ascending (l : list string) : ascending l = true → sorted l = l.
Proof.
  induction l as [|x l IH]; intros H; [reflexivity|].
  assert (Hl : ascending l = true).
  { cbn [ascending] in H. destruct l; [reflexivity|]. apply andb_prop in H. apply H. }
  cbn [sorted fold_right]. fold (sorted l). rewrite (IH Hl). apply insert_sorted_head, H.
Qed.

(** Without an address to split, the columns derived from a cleaned
    frame are those derived from the input. *)
Lemma derived_col_cleaned (df out : DataFrame) (c : string) :
  clean_template_df df = Some out →
  adds_address df "BUYER" = false → adds_address df "SELLER_ADDRESS" = false →
  derived_col out c = derived_col df c.
Proof.
  intros H Hb Hs. destruct (clean_template_df_lookup df out H) as [Hn Hl].
  pose proof (cleaned_sources df out H) as Hsrc.
  assert (Hlc : lookup_col out c = derived_col df c)
    by (rewrite Hl; apply final_col_no_address; assumption).
  assert (Hagree : agree_on (map fst amount_map) out df).
  { split; [exact Hn|]. intros s Hin. apply Hsrc. cbn [map amount_map fst In] in Hin.
    cbn [In]. tauto. }
  unfold derived_col at 1.
  rewrite (has_column_agree out df "DUE_DATE"), (has_column_agree out df "DATE"),
    (date_column_agree out df "DUE_DATE"), (date_column_agree out df "DATE"),
    (currency_column_agree out df Hagree),
    (amount_column_agree out df "DISCOUNT"), (amount_column_agree out df "TAX"),
    (amount_column_agree out df "SUB_TOTAL"), (amount_column_agree out df "TOTAL");
    try exact Hn; try (apply Hsrc; cbn [In]; tauto).
  rewrite Hlc. unfold derived_col.
  repeat (match goal with |- context [if ?b then _ else _] => destruct b end;
          try reflexivity).
Qed.

Lemma reindex_sorted_Some (d out : DataFrame) :
  reindex_sorted d = Some out →
  columns out = map (fun c => (c, get_column d c)) (sorted (labels d)).
Proof.
  unfold reindex_sorted. destruct (distinct (labels d)); [|discriminate].
  intros [= <-]. reflexivity.
Qed.

(** Without an address to split, cleaning is idempotent. *)
Lemma clean_again_same (df out : DataFrame) :
  clean_template_df df = Some out →
  adds_address df "BUYER" = false → adds_address df "SELLER_ADDRESS" = false →
  clean_template_df out = Some out.
Proof.
  intros H Hb Hs. destruct (clean_template_df_lookup df out H) as [Hn Hl].
  pose proof (cleaned_sources df out H) as Hsrc.
  assert (Hbo : adds_address out "BUYER" = false).
  { rewrite (adds_address_agree out df "BUYER"); [exact Hb|]. apply Hsrc. cbn [In]. tauto. }
  assert (Hso : adds_address out "SELLER_ADDRESS" = false).
  { rewrite (adds_address_agree out df "SELLER_ADDRESS"); [exact Hs|].
    apply Hsrc. cbn [In]. tauto. }
  assert (Hfin : ∀ c, final_col out c = final_col df c).
  { intros c. rewrite (final_col_no_address out c Hbo Hso), (final_col_no_address df c Hb Hs).
    apply (derived_col_cleaned df out c H Hb Hs). }
  assert (Hhas : ∀ c v, final_col df c = Some v → has_column out c = true).
  { intros c v Hv. rewrite has_column_lookup, Hl, Hv. reflexivity. }
  assert (Hlab : labels (assembled out) = labels out).
  { rewrite labels_assembled.
    rewrite Hbo, Hso, !app_nil_r.
    apply labels_staged_fixed.
    - rewrite has_column_lookup, Hl, (final_col_no_address df _ Hb Hs). reflexivity.
    - rewrite has_column_lookup, Hl, (final_col_no_address df _ Hb Hs). reflexivity.
    - intros c Hc. cbn [In] in Hc.
      rewrite has_column_lookup, Hl, (final_col_no_address df _ Hb Hs).
      repeat (destruct Hc as [<- | Hc]; [reflexivity|]). destruct Hc.
    - intros Hd. rewrite (has_column_agree out df "DATE") in Hd by (apply Hsrc; cbn [In]; tauto).
      rewrite has_column_lookup, Hl, (final_col_no_address df _ Hb Hs).
      unfold derived_col. rewrite Hd. cbn [String.eqb Ascii.eqb Bool.eqb andb].
      destruct (has_column df "DUE_DATE"); reflexivity.
    - intros Hd.
      rewrite (has_column_agree out df "DUE_DATE") in Hd by (apply Hsrc; cbn [In]; tauto).
      rewrite has_column_lookup, Hl, (final_col_no_address df _ Hb Hs).
      unfold derived_col. rewrite Hd. reflexivity. }
  pose proof H as H0. rewrite clean_template_df_assembled in H0.
  destruct (labels_reindex_sorted _ _ H0) as [Hlo Hnd].
  rewrite clean_template_df_assembled. unfold reindex_sorted. rewrite Hlab.
  assert (Hdist : distinct (labels out) = true).
  { apply distinct_NoDup. rewrite Hlo. apply NoDup_ListNoDup.
    rewrite sorted_Permutation. apply NoDup_ListNoDup, Hnd. }
  rewrite Hdist, assembled_nrows.
  rewrite (sorted_ascending (labels out)) by (rewrite Hlo; apply ascending_sorted).
  pose proof (reindex_sorted_Some _ _ H0) as Hcols. rewrite <- Hlo in Hcols.
  f_equal. destruct out as [n cols]. cbn [nrows columns] in *. f_equal.
  rewrite Hcols at 2. apply map_ext. intros c. f_equal.
  rewrite !get_column_lookup, !assembled_lookup. rewrite Hfin. reflexivity.
Qed.

(** Cleaning the output of a cleaning once more: it raises when the
    first cleaning split an address (the BUYER or the SELLER_ADDRESS
    column was present and the frame has a row), because the address
    columns are added a second time; otherwise it returns the frame
    unchanged. *)
Theorem clean_template_df_again (df out : DataFrame) :
  clean_template_df df = Some out →
  (adds_address df "BUYER" = true ∨ adds_address df "SELLER_ADDRESS" = true →
   clean_template_df out = None)
  ∧ (adds_address df "BUYER" = false → adds_address df "SELLER_ADDRESS" = false →
     clean_template_df out = Some out).
Proof.
  intros H. split.
  - intros [Ha|Ha].
    + apply (clean_again_raises df out "BUYER" "BUYER_" H); auto.
    + apply (clean_again_raises df out "SELLER_ADDRESS" "SELLER_" H); auto.
  - apply (clean_again_same df out H).
Qed.

(** An instance of the preceding theorem, on two concrete frames. *)
Lemma clean_template_df_again_witness :
  (∃ out, clean_template_df frame_buyer = Some out ∧ clean_template_df out = None)
  ∧ (∃ out, clean_template_df frame_two_rows = Some out
            ∧ clean_template_df out = Some out).
Proof.
  split.
  - destruct (clean_template_df frame_buyer) as [out|] eqn:E;
      [|vm_compute in E; discriminate E].
    exists out. split; [reflexivity|].
    apply (proj1 (clean_template_df_again frame_buyer out E)). left. reflexivity.
  - destruct (clean_template_df frame_two_rows) as [out|] eqn:E;
      [|vm_compute in E; discriminate E].
    exists out. split; [reflexivity|].
    apply (proj2 (clean_template_df_again frame_two_rows out E)); reflexivity.
Defined.

(** ** Running a computation *)

Lemma bind_Ok {F A B : Type} (m : M F A) (f : A → M F B) (h h' : list (event F)) (a : A) :
  m h = (h', Ok a) → (m ≫= f) h = f a h'.
Proof. intros H. unfold mbind, M_bind. rewrite H. reflexivity. Qed.

Lemma bind_Raised {F A B : Type} (m : M F A) (f : A → M F B) (h h' : list (event F))
    (e : exn) :
  m h = (h', Raised e) → (m ≫= f) h = (h', Raised e).
Proof. intros H. unfold mbind, M_bind. rewrite H. reflexivity. Qed.

Lemma makedirs_nonempty {F R : Type} (w : env F R) (name : pystr) (h : list (event F)) :
  name ≠ [] →
  makedirs w name h
  = if env_makedirs w h name then (h ++ [Makedirs name], Ok tt)
    else (h, Raised (EnvError name)).
Proof. intros H. unfold makedirs. destruct name; [congruence|reflexivity]. Qed.

(** ** [main]: what it reads and writes *)

Section main_facts.

Variable w : env DataFrame DataFrame.

Lemma main_loop_effects (indices : list N) :
  (∀ i, In i indices → In i [1; 2; 3; 4; 5]) →
  ∀ h h' r, main_loop w indices h = (h', r) →
            ∃ evs, h' = h ++ evs ∧ Forall (main_effect w) evs.
Proof.
  induction indices as [|i indices IH]; intros Hin h h' r.
  - cbn [main_loop]. intros [= <- <-]. exists []. split; [|constructor].
    rewrite app_nil_r. reflexivity.
  - cbn [main_loop]. cbv zeta. fold (raw_path i). fold (clean_path i).
    rewrite (bind_Ok _ _ h h (env_isfile w h (raw_path i))) by reflexivity.
    assert (Hrest : ∀ j, In j indices → In j [1; 2; 3; 4; 5])
      by (intros j Hj; apply Hin; right; exact Hj).
    destruct (env_isfile w h (raw_path i)) eqn:Hfile; cbn [negb].
    2:{ apply (IH Hrest). }
    unfold mbind at 1, M_bind at 1, read.
    destruct (env_read w h (raw_path i)) as [df|] eqn:Hread.
    2:{ intros [= <- <-]. exists []. split; [rewrite app_nil_r; reflexivity|constructor]. }
    destruct (clean_template_df df) as [clean_df|] eqn:Hclean.
    2:{ unfold raise. intros [= <- <-]. exists [].
        split; [rewrite app_nil_r; reflexivity|constructor]. }
    unfold mbind at 1, M_bind at 1, to_csv.
    destruct (env_to_csv w h (clean_path i) clean_df).
    2:{ intros [= <- <-]. exists []. split; [rewrite app_nil_r; reflexivity|constructor]. }
    intros H. apply (IH Hrest) in H. destruct H as (evs & -> & Hev).
    exists (ToCsv (clean_path i) clean_df :: evs). split.
    + rewrite <- app_assoc. reflexivity.
    + constructor; [|exact Hev]. exists i, h, df.
      split; [apply Hin; left; reflexivity|]. auto.
Qed.

Lemma main_loop_absent (indices : list N) (h : list (event DataFrame)) :
  (∀ i, In i indices → env_isfile w h (raw_path i) = false) →
  main_loop w indices h = (h, Ok tt).
Proof.
  induction indices as [|i indices IH]; intros Ha; [reflexivity|].
  cbn [main_loop]. cbv zeta. fold (raw_path i).
  rewrite (bind_Ok _ _ h h (env_isfile w h (raw_path i))) by reflexivity.
  rewrite (Ha i (or_introl eq_refl)). cbn [negb].
  apply IH. intros j Hj. apply Ha. right. exact Hj.
Qed.

(** Whatever the environment answers, the only call of [os.makedirs]
    that [main] makes is for "../data/csv_files/cleaned_data" (the
    call makes that directory and the missing ones above it), [main]
    prints nothing, and every file it writes is the file
    template<i>_clean.csv of that directory, for an [i] from 1 to 5,
    holding the cleaned frame of what was read from the existing file
    template<i>.csv of "../data/csv_files/raw_data". *)
Theorem main_effects (h h' : list (event DataFrame)) (r : result unit) :
  main w h = (h', r) →
  (∃ evs, h' = h ++ evs ∧ Forall (main_effect w) evs)
  ∧ CLEAN_DIR = py "../data/csv_files/cleaned_data"
  ∧ (∀ i, In i [1; 2; 3; 4; 5] →
          raw_path i = py "../data/csv_files/raw_data/template" ++ str_N i ++ py ".csv"
          ∧ clean_path i
            = py "../data/csv_files/cleaned_data/template" ++ str_N i ++ py "_clean.csv").
Proof.
  intros H. split; [|split].
  - unfold main in H. unfold mbind at 1, M_bind at 1 in H.
    rewrite (makedirs_nonempty w CLEAN_DIR h) in H by discriminate.
    destruct (env_makedirs w h CLEAN_DIR).
    + apply main_loop_effects in H; [|intros i Hi; exact Hi].
      destruct H as (evs & -> & Hev). exists (Makedirs CLEAN_DIR :: evs). split.
      * rewrite <- app_assoc. reflexivity.
      * constructor; [reflexivity|exact Hev].
    + injection H as <- <-. exists []. split; [rewrite app_nil_r; reflexivity|constructor].
  - reflexivity.
  - intros i Hi. cbn [In] in Hi.
    repeat (destruct Hi as [<- | Hi]; [split; reflexivity|]). destruct Hi.
Qed.

(** Without a raw file, [main] makes the output directory and returns. *)
Theorem main_without_raw_files (h : list (event DataFrame)) :
  env_makedirs w h CLEAN_DIR = true →
  (∀ i, In i [1; 2; 3; 4; 5] →
        env_isfile w (h ++ [Makedirs CLEAN_DIR]) (raw_path i) = false) →
  main w h = (h ++ [Makedirs CLEAN_DIR], Ok tt).
Proof.
  intros Hmk Ha. unfold main.
  rewrite (bind_Ok _ _ h (h ++ [Makedirs CLEAN_DIR]) tt).
  - apply main_loop_absent, Ha.
  - rewrite (makedirs_nonempty w CLEAN_DIR h) by discriminate. rewrite Hmk. reflexivity.
Qed.

End main_facts.

(** With the raw file of template2 alone, only template2 is cleaned. *)
Lemma main_effects_witness :
  ∃ evs r,
    main env_raw [] = (evs, r)
    ∧ Forall (main_effect env_raw) evs
    ∧ length evs = 2%nat.
Proof.
  destruct (main env_raw []) as [h' r] eqn:E.
  exists h', r. split; [reflexivity|]. split.
  - destruct (proj1 (main_effects env_raw [] h' r E)) as (evs & -> & H). exact H.
  - vm_compute in E. injection E as <- _. reflexivity.
Defined.

(** Without raw data, the output directory alone is made. *)
Lemma main_without_raw_files_witness :
  main env_no_raw [] = ([Makedirs (py "../data/csv_files/cleaned_data")], Ok tt).
Proof.
  apply (main_without_raw_files env_no_raw []).
  - reflexivity.
  - intros i _. reflexivity.
Defined.

(** ** The row flattener *)

Section flattener.

Variable str_list : list json -> pystr.

(** The loop of [extract_text_fields] maps [flat_value] over the record. *)
Lemma extract_text_fields_fmap (invoice_json : gmap string json) :
  extract_text_fields str_list invoice_json = flat_value str_list <$> invoice_json.
Proof.
  unfold extract_text_fields.
  induction invoice_json as [|key v m Hkey IH] using map_ind.
  - rewrite map_fold_empty, fmap_empty. reflexivity.
  - rewrite map_fold_insert_L.
    + rewrite IH, fmap_insert. reflexivity.
    + intros j1 j2 z1 z2 y Hne _ _. apply insert_insert_ne. congruence.
    + exact Hkey.
Qed.

Lemma extract_text_fields_lookup (invoice_json : gmap string json) (key : string) :
  extract_text_fields str_list invoice_json !! key
  = flat_value str_list <$> (invoice_json !! key).
Proof. rewrite extract_text_fields_fmap. apply lookup_fmap. Qed.

(** C10. For a key of the source record whose value is a mapping
    without a "text" field the flattened row holds the empty string;
    a mapping with a "text" field contributes that field as it is; only
    a value that is not a mapping is turned into text by [str]. *)
Theorem C10_flatten_mapping_without_text
    (invoice_json : gmap string json) (key : string) (v : json) :
  invoice_json !! key = Some v →
  (∀ o, v = JObj o → o !! "text"%string = None →
        extract_text_fields str_list invoice_json !! key = Some (JStr []))
  ∧ (∀ o t, v = JObj o → o !! "text"%string = Some t →
        extract_text_fields str_list invoice_json !! key = Some t)
  ∧ (is_dict v = false →
        extract_text_fields str_list invoice_json !! key
        = Some (JStr (str_json str_list v))).
Proof.
  intros Hv. rewrite extract_text_fields_lookup, Hv. simpl.
  split; [|split].
  - intros o -> Ho. simpl. rewrite Ho. reflexivity.
  - intros o t -> Ho. simpl. rewrite Ho. reflexivity.
  - intros Hd. destruct v; try reflexivity. discriminate Hd.
Qed.

End flattener.

(** An instance of the preceding theorem, on a concrete input. *)
Lemma C10_flatten_mapping_without_text_witness :
  record_C !! "C"%string = Some (JObj ∅)
  ∧ extract_text_fields (fun _ => []) record_C !! "C"%string = Some (JStr []).
Proof.
  assert (H : record_C !! "C"%string = Some (JObj ∅)) by reflexivity.
  split; [exact H|].
  exact (proj1 (C10_flatten_mapping_without_text (fun _ => []) record_C "C" (JObj ∅) H)
               ∅ eq_refl eq_refl).
Defined.

(** The flattened row has the keys of the record, none renamed
    (specification, 4.5). *)
Theorem extract_text_fields_keys (str_list : list json → pystr)
    (invoice_json : gmap string json) :
  dom (extract_text_fields str_list invoice_json) = dom invoice_json.
Proof. rewrite extract_text_fields_fmap. apply dom_fmap_L. Qed.

(** The example of the specification (section 8). *)
Theorem extract_text_fields_example (str_list : list json → pystr) :
  extract_text_fields str_list record_AB
  = <["A"%string := JStr (py "foo")]> (<["B"%string := JStr (py "5")]> ∅).
Proof.
  rewrite extract_text_fields_fmap. unfold record_AB.
  rewrite !fmap_insert, fmap_empty. reflexivity.
Qed.

(** ** [template_folder_to_csv]: the files are read first *)

Section drivers_facts.

Variable str_list : list json → pystr.
Variable w : env table json.

Lemma read_rows_good (incl : bool) (h : list (event table)) (paths : list pystr)
    (records : list (gmap string json)) :
  Forall2 (fun p o => env_read w h p = Some (JObj o)) paths records →
  ∀ rows, read_rows str_list w incl paths rows h
          = (h, Ok (rows ++ zip_with (row_of str_list incl) paths records)).
Proof.
  induction 1 as [|p o paths records Hp _ IH]; intros rows.
  - cbn [read_rows zip_with]. rewrite app_nil_r. reflexivity.
  - cbn [read_rows]. rewrite (bind_Ok _ _ h h (JObj o)) by (unfold read; rewrite Hp; reflexivity).
    rewrite IH. cbn [zip_with]. rewrite <- app_assoc. reflexivity.
Qed.

Lemma read_rows_bad (incl : bool) (h : list (event table)) (good rest : list pystr)
    (bad : pystr) (e : exn) :
  Forall (fun p => ∃ o, env_read w h p = Some (JObj o)) good →
  rejected w h bad e →
  ∀ rows, read_rows str_list w incl (good ++ bad :: rest) rows h = (h, Raised e).
Proof.
  intros Hgood Hbad. induction Hgood as [|p good (o & Hp) _ IH]; intros rows.
  - cbn [app read_rows]. destruct Hbad as [[Hn ->]|(v & Hv & Hd & ->)].
    + apply bind_Raised. unfold read. rewrite Hn. reflexivity.
    + rewrite (bind_Ok _ _ h h v) by (unfold read; rewrite Hv; reflexivity).
      destruct v.
      7: discriminate Hd.
      all: unfold raise, not_dict_message.
      all: reflexivity.
  - cbn [app read_rows].
    rewrite (bind_Ok _ _ h h (JObj o)) by (unfold read; rewrite Hp; reflexivity).
    apply IH.
Qed.

(** All or nothing. When the first file, in the order of the sorted
    paths, that cannot be read as a JSON object is [bad], the call
    raises for it: the [ValueError] that names the file and the type
    found, or the error of the read. Nothing has been made, written
    or printed by then, whatever the files before and after it
    hold. *)
Theorem template_folder_to_csv_all_or_nothing
    (template_folder output_csv_path pattern : pystr) (incl : bool)
    (h : list (event table)) (good rest : list pystr) (bad : pystr) (e : exn) :
  sorted_str (env_glob w h (path_join template_folder pattern)) = good ++ bad :: rest →
  Forall (fun p => ∃ o, env_read w h p = Some (JObj o)) good →
  rejected w h bad e →
  template_folder_to_csv str_list w template_folder output_csv_path pattern incl h
  = (h, Raised e).
Proof.
  intros Hs Hgood Hbad. unfold template_folder_to_csv.
  rewrite (bind_Ok _ _ h h (env_glob w h (path_join template_folder pattern)))
    by reflexivity.
  rewrite Hs. destruct (good ++ bad :: rest) as [|p0 ps] eqn:E.
  { destruct good; discriminate E. }
  rewrite <- E. apply bind_Raised. apply (read_rows_bad incl h good rest bad e Hgood Hbad).
Qed.

(** An output path without a directory part. With exist_ok or
    without, [os.makedirs] does not accept the empty name that
    [os.path.dirname] returns for such a path: the call raises
    [FileNotFoundError] after it has read every file, and writes
    nothing. *)
Theorem template_folder_to_csv_bare_file_name
    (template_folder output_csv_path pattern : pystr) (incl : bool)
    (h : list (event table)) (records : list (gmap string json)) :
  Forall (fun c => c ≠ 47) output_csv_path →
  sorted_str (env_glob w h (path_join template_folder pattern)) ≠ [] →
  Forall2 (fun p o => env_read w h p = Some (JObj o))
          (sorted_str (env_glob w h (path_join template_folder pattern))) records →
  template_folder_to_csv str_list w template_folder output_csv_path pattern incl h
  = (h, Raised (FileNotFoundError (py "[Errno 2] No such file or directory: ''"))).
Proof.
  intros Hout Hne Hgood. unfold template_folder_to_csv.
  rewrite (bind_Ok _ _ h h (env_glob w h (path_join template_folder pattern)))
    by reflexivity.
  destruct (sorted_str (env_glob w h (path_join template_folder pattern))) as [|p0 ps] eqn:E;
    [congruence|].
  rewrite (bind_Ok _ _ h h _ (read_rows_good incl h _ _ Hgood [])).
  assert (Hd : dirname output_csv_path = []).
  { unfold dirname. assert (Hr : rfind_sep_succ output_csv_path = O).
    { clear -Hout. induction Hout as [|c s Hc _ IH]; [reflexivity|].
      cbn [rfind_sep_succ]. rewrite IH. destruct (N.eqb_spec c 47); [contradiction|reflexivity]. }
    rewrite Hr. reflexivity. }
  apply bind_Raised. unfold makedirs. rewrite Hd. reflexivity.
Qed.

End drivers_facts.

(** On the sample tree, the list in b.json stops the run of template1
    after a.json was read. *)
Lemma template_folder_to_csv_all_or_nothing_witness :
  template_folder_to_csv str_list_sample env_sample (py "in/template1")
                         (py "out/template1.csv") (py "*.json") true []
  = ([], Raised (ValueError (py "Expected top-level dict (A1), got <class 'list'> in: in/template1/b.json"))).
Proof.
  apply (template_folder_to_csv_all_or_nothing str_list_sample env_sample
           (py "in/template1") (py "out/template1.csv") (py "*.json") true []
           [py "in/template1/a.json"] [] (py "in/template1/b.json")).
  - vm_compute. reflexivity.
  - constructor; [|constructor]. exists record_AB. reflexivity.
  - right. exists (JArr []). split; [reflexivity|]. split; reflexivity.
Defined.

(** On the sample tree, an output path without directory part. *)
Lemma template_folder_to_csv_bare_file_name_witness :
  template_folder_to_csv str_list_sample env_sample (py "in/template2")
                         (py "template2.csv") (py "*.json") true []
  = ([], Raised (FileNotFoundError (py "[Errno 2] No such file or directory: ''"))).
Proof.
  apply (template_folder_to_csv_bare_file_name str_list_sample env_sample
           (py "in/template2") (py "template2.csv") (py "*.json") true [] [{[ "C"%string := JObj ∅ ]}]).
  - vm_compute. repeat constructor; discriminate.
  - vm_compute. discriminate.
  - vm_compute. repeat constructor.
Defined.

(** ** [template_folder_to_csv]: what is written *)

Section drivers_written.

Variable str_list : list json → pystr.
Variable w : env table json.

Lemma row_of_lookup (incl : bool) (p : pystr) (o : gmap string json) (key : string) :
  (incl = true → key ≠ "_source_file"%string) →
  row_of str_list incl p o !! key = flat_value str_list <$> (o !! key).
Proof.
  intros H. unfold row_of. destruct incl.
  - rewrite lookup_insert_ne by (intros E; apply (H eq_refl); symmetry; exact E).
    apply extract_text_fields_lookup.
  - apply extract_text_fields_lookup.
Qed.

Lemma frame_of_rows_columns (rows : list (gmap string json)) (key : string) :
  In key (t_columns (frame_of_rows rows)) ↔ ∃ row, In row rows ∧ is_Some (row !! key).
Proof.
  unfold frame_of_rows. cbn [t_columns].
  rewrite <- list_elem_of_In, sorted_Permutation, elem_of_elements, elem_of_union_list.
  split.
  - intros (X & HX & Hk). apply list_elem_of_fmap in HX. destruct HX as (row & -> & Hrow).
    exists row. split; [apply list_elem_of_In, Hrow|apply elem_of_dom, Hk].
  - intros (row & Hrow & Hk). exists (dom row). split.
    + apply list_elem_of_fmap. exists row. split; [reflexivity|apply list_elem_of_In, Hrow].
    + apply elem_of_dom, Hk.
Qed.

(** When every file is read as a JSON object and the environment
    lets the directory be made and the file be written, the call makes
    the directory of the output path, writes one table there and
    prints one line. The table has one row per file, in the order of
    the sorted paths; a row holds the flattened fields of its record
    and, when asked for, the base name of its file under
    "_source_file", in place of a field of that name; the columns are
    the keys of the rows, sorted, each once. *)
Theorem template_folder_to_csv_writes
    (template_folder output_csv_path pattern : pystr) (incl : bool)
    (h : list (event table)) (records : list (gmap string json)) :
  let json_paths := sorted_str (env_glob w h (path_join template_folder pattern)) in
  let df := frame_of_rows (zip_with (row_of str_list incl) json_paths records) in
  let h1 := h ++ [Makedirs (dirname output_csv_path)] in
  json_paths ≠ [] →
  Forall2 (fun p o => env_read w h p = Some (JObj o)) json_paths records →
  dirname output_csv_path ≠ [] →
  env_makedirs w h (dirname output_csv_path) = true →
  env_to_csv w h1 output_csv_path df = true →
  template_folder_to_csv str_list w template_folder output_csv_path pattern incl h
  = (h1 ++ [ToCsv output_csv_path df;
            Print (ok_message template_folder output_csv_path df)], Ok tt)
  ∧ length (t_rows df) = length json_paths
  ∧ (∀ i p o, json_paths !! i = Some p → records !! i = Some o →
       ∃ row, t_rows df !! i = Some row
              ∧ (incl = true → row !! "_source_file"%string = Some (JStr (basename p)))
              ∧ ∀ key, (incl = true → key ≠ "_source_file"%string) →
                       row !! key = flat_value str_list <$> (o !! key))
  ∧ ascending (t_columns df) = true
  ∧ List.NoDup (t_columns df)
  ∧ ∀ key, In key (t_columns df) ↔ ∃ row, In row (t_rows df) ∧ is_Some (row !! key).
Proof.
  intros json_paths df h1 Hne Hgood Hdir Hmk Hcsv.
  split; [|split; [|split; [|split; [|split]]]].
  - unfold template_folder_to_csv.
    rewrite (bind_Ok _ _ h h (env_glob w h (path_join template_folder pattern)))
      by reflexivity.
    fold json_paths. destruct json_paths as [|p0 ps] eqn:E; [congruence|].
    rewrite (bind_Ok _ _ h h _ (read_rows_good str_list w incl h _ _ Hgood [])).
    cbn [app].
    rewrite (bind_Ok _ _ h h1 tt).
    2:{ unfold makedirs. destruct (dirname output_csv_path); [congruence|].
        rewrite Hmk. reflexivity. }
    rewrite (bind_Ok _ _ h1 (h1 ++ [ToCsv output_csv_path df]) tt).
    2:{ unfold to_csv. fold df. rewrite Hcsv. reflexivity. }
    unfold print, emit, ok_message. rewrite <- app_assoc. reflexivity.
  - unfold df, frame_of_rows. cbn [t_rows]. rewrite length_zip_with.
    apply Forall2_length in Hgood. lia.
  - intros i p o Hp Ho. exists (row_of str_list incl p o). split; [|split].
    + unfold df, frame_of_rows. cbn [t_rows]. rewrite lookup_zip_with, Hp, Ho. reflexivity.
    + intros ->. unfold row_of. apply lookup_insert_eq.
    + intros key Hk. apply row_of_lookup, Hk.
  - apply ascending_sorted.
  - unfold df, frame_of_rows. cbn [t_columns]. apply NoDup_ListNoDup.
    rewrite sorted_Permutation. apply NoDup_elements.
  - intros key. apply frame_of_rows_columns.
Qed.

End drivers_written.

(** On the sample tree, template2 gives a table of one row and two
    columns. *)
Lemma template_folder_to_csv_writes_witness :
  ∃ df,
    template_folder_to_csv str_list_sample env_sample (py "in/template2")
                           (py "out/template2.csv") (py "*.json") true []
    = ([Makedirs (py "out"); ToCsv (py "out/template2.csv") df;
        Print (py "[OK] template2 → 1 rows × 2 cols → out/template2.csv")], Ok tt)
    ∧ t_columns df = ["C"; "_source_file"]%string.
Proof.
  eexists. split.
  - etransitivity.
    + apply (proj1 (template_folder_to_csv_writes str_list_sample env_sample
                      (py "in/template2") (py "out/template2.csv") (py "*.json") true []
                      [{[ "C"%string := JObj ∅ ]}]
                      ltac:(vm_compute; discriminate)
                      ltac:(vm_compute; repeat constructor)
                      ltac:(vm_compute; discriminate)
                      eq_refl eq_refl)).
    + vm_compute. reflexivity.
  - vm_compute. reflexivity.
Defined.

(** ** [json_templates_to_csv]: where it writes *)

Lemma basename_no_sep (p : pystr) : Forall (fun c => c ≠ 47) (basename p).
Proof.
  unfold basename. induction p as [|c p IH]; [constructor|].
  cbn [rfind_sep_succ]. destruct (rfind_sep_succ p) as [|i].
  - cbn [drop] in IH. destruct (N.eqb_spec c 47) as [->|Hne]; cbn [drop].
    + exact IH.
    + constructor; assumption.
  - cbn [drop]. exact IH.
Qed.

Lemma startswith_app (a b : pystr) : startswith (a ++ b) a = true.
Proof. apply startswith_spec. exists b. reflexivity. Qed.

(** Joining a folder and a file name keeps the folder in front. *)
Lemma path_join_file (folder name : pystr) :
  match name with c :: _ => c ≠ 47 | [] => True end →
  startswith (path_join folder name) folder = true.
Proof.
  intros H. unfold path_join.
  assert (Hs : startswith name [47] = false).
  { destruct name as [|c name]; [reflexivity|]. cbn [startswith]. unfold char_eqb.
    destruct (N.eqb_spec c 47); [contradiction|reflexivity]. }
  rewrite Hs. destruct folder as [|c folder]; [destruct name; reflexivity|].
  destruct (ends_with_sep (c :: folder)); apply startswith_app.
Qed.

Lemma csv_name_head (d : pystr) :
  match basename d ++ py ".csv" with c :: _ => c ≠ 47 | [] => True end.
Proof.
  pose proof (basename_no_sep d) as H. destruct (basename d) as [|c b].
  - cbn. discriminate.
  - cbn [app]. inversion H; assumption.
Qed.

Section drivers_effects.

Variable str_list : list json → pystr.
Variable w : env table json.

Lemma read_rows_history (incl : bool) (paths : list pystr) :
  ∀ rows h, fst (read_rows str_list w incl paths rows h) = h.
Proof.
  induction paths as [|p paths IH]; intros rows h; [reflexivity|].
  cbn [read_rows]. unfold mbind, M_bind, read.
  destruct (env_read w h p) as [v|]; [|reflexivity].
  destruct v; try reflexivity. apply IH.
Qed.

(** The effects of one call of [template_folder_to_csv]. *)
Lemma template_folder_to_csv_effects (template_folder output_csv_path pattern : pystr)
    (incl : bool) (h h' : list (event table)) (r : result unit) :
  template_folder_to_csv str_list w template_folder output_csv_path pattern incl h = (h', r) →
  ∃ evs, h' = h ++ evs
         ∧ Forall (fun ev => match ev with
                             | Makedirs name => name = dirname output_csv_path
                             | ToCsv path _ => path = output_csv_path
                             | Print _ => True
                             end) evs.
Proof.
  unfold template_folder_to_csv.
  rewrite (bind_Ok _ _ h h (env_glob w h (path_join template_folder pattern)))
    by reflexivity.
  destruct (sorted_str _) as [|p0 ps].
  { unfold print, emit. intros [= <- <-]. eexists. split; [reflexivity|].
    constructor; [exact I|constructor]. }
  unfold mbind, M_bind.
  pose proof (read_rows_history incl (p0 :: ps) [] h) as Hh.
  destruct (read_rows str_list w incl (p0 :: ps) [] h) as [h0 [rows|e]]; cbn [fst] in Hh;
    subst h0.
  2:{ intros [= <- <-]. exists []. split; [rewrite app_nil_r; reflexivity|constructor]. }
  unfold makedirs. destruct (dirname output_csv_path) as [|c dn] eqn:Ed.
  { intros [= <- <-]. exists []. split; [rewrite app_nil_r; reflexivity|constructor]. }
  destruct (env_makedirs w h (c :: dn)).
  2:{ intros [= <- <-]. exists []. split; [rewrite app_nil_r; reflexivity|constructor]. }
  unfold to_csv. destruct (env_to_csv w _ output_csv_path _).
  - unfold print, emit. intros [= <- <-]. eexists. split.
    + rewrite <- !app_assoc. reflexivity.
    + cbn [app]. repeat constructor.
  - intros [= <- <-]. eexists. split; [reflexivity|]. repeat constructor.
Qed.

Lemma each_template_effects (output_folder json_pattern : pystr) (incl : bool)
    (dirs : list pystr) :
  ∀ h h' r,
    each_template str_list w output_folder json_pattern incl dirs h = (h', r) →
    ∃ evs, h' = h ++ evs ∧ Forall (into_folder output_folder) evs.
Proof.
  induction dirs as [|d dirs IH]; intros h h' r.
  - cbn [each_template]. intros [= <- <-]. exists []. split; [|constructor].
    rewrite app_nil_r. reflexivity.
  - cbn [each_template]. unfold mbind at 1, M_bind at 1.
    destruct (template_folder_to_csv _ _ _ _ _ _ h) as [h1 r1] eqn:E1.
    apply template_folder_to_csv_effects in E1. destruct E1 as (evs1 & -> & H1).
    assert (H1' : Forall (into_folder output_folder) evs1).
    { eapply Forall_impl; [exact H1|]. intros ev Hev. destruct ev as [name|path df|line].
      - right. exists d. exact Hev.
      - subst path. split; [apply path_join_file, csv_name_head|exists d; reflexivity].
      - exact I. }
    destruct r1 as [[]|e].
    + intros H. apply IH in H. destruct H as (evs2 & -> & H2).
      exists (evs1 ++ evs2). split; [rewrite app_assoc; reflexivity|].
      apply Forall_app. split; assumption.
    + intros [= <- <-]. exists evs1. split; [reflexivity|exact H1'].
Qed.

Lemma only_dirs_run (paths : list pystr) (h : list (event table)) :
  only_dirs w paths h = (h, Ok (List.filter (env_isdir w h) paths)).
Proof.
  induction paths as [|d paths IH]; [reflexivity|].
  cbn [only_dirs List.filter].
  rewrite (bind_Ok _ _ h h (env_isdir w h d)) by reflexivity.
  rewrite (bind_Ok _ _ h h _ IH). destruct (env_isdir w h d); reflexivity.
Qed.

(** Whatever happens, [json_templates_to_csv] writes only into the
    output folder: every file it writes is the file NAME.csv of the
    output folder, where NAME is the base name of a path, and its only
    calls of [os.makedirs] are for the output folder and for the
    directory of such a file (a call also makes the missing
    directories above the one it names). *)
Theorem json_templates_to_csv_writes_into_output_folder
    (base_folder output_folder template_glob json_pattern : pystr) (incl : bool)
    (h h' : list (event table)) (r : result unit) :
  json_templates_to_csv str_list w base_folder output_folder template_glob json_pattern
                        incl h = (h', r) →
  ∃ evs, h' = h ++ evs ∧ Forall (into_folder output_folder) evs.
Proof.
  unfold json_templates_to_csv. unfold mbind at 1, M_bind at 1. unfold makedirs.
  destruct output_folder as [|c0 out0] eqn:Eo.
  { intros [= <- <-]. exists []. split; [rewrite app_nil_r; reflexivity|constructor]. }
  rewrite <- Eo. destruct (env_makedirs w h output_folder).
  2:{ intros [= <- <-]. exists []. split; [rewrite app_nil_r; reflexivity|constructor]. }
  set (h1 := h ++ [Makedirs output_folder]).
  rewrite (bind_Ok _ _ h1 h1 (env_glob w h1 (path_join base_folder template_glob)))
    by reflexivity.
  rewrite (bind_Ok _ _ h1 h1 _ (only_dirs_run _ h1)).
  destruct (sorted_str _) as [|d0 ds] eqn:Es.
  - unfold raise. intros [= <- <-]. exists [Makedirs output_folder].
    split; [reflexivity|]. constructor; [left; reflexivity|constructor].
  - intros H. apply each_template_effects in H. destruct H as (evs & -> & Hev).
    exists (Makedirs output_folder :: evs). unfold h1. split.
    + rewrite <- app_assoc. reflexivity.
    + constructor; [left; reflexivity|exact Hev].
Qed.

(** Without a template directory: when none of the paths that match
    is a directory, the call raises [FileNotFoundError] with its
    message, and it has made the output folder by then. *)
Theorem json_templates_to_csv_no_template
    (base_folder output_folder template_glob json_pattern : pystr) (incl : bool)
    (h : list (event table)) :
  let h1 := h ++ [Makedirs output_folder] in
  output_folder ≠ [] →
  env_makedirs w h output_folder = true →
  Forall (fun d => env_isdir w h1 d = false)
         (env_glob w h1 (path_join base_folder template_glob)) →
  json_templates_to_csv str_list w base_folder output_folder template_glob json_pattern
                        incl h
  = (h1, Raised (FileNotFoundError (no_template_message template_glob base_folder))).
Proof.
  intros h1 Hne Hmk Hnone. unfold json_templates_to_csv.
  rewrite (bind_Ok _ _ h h1 tt).
  2:{ unfold makedirs. destruct output_folder; [congruence|]. rewrite Hmk. reflexivity. }
  rewrite (bind_Ok _ _ h1 h1 (env_glob w h1 (path_join base_folder template_glob)))
    by reflexivity.
  rewrite (bind_Ok _ _ h1 h1 _ (only_dirs_run _ h1)).
  assert (Hf : List.filter (env_isdir w h1)
                 (env_glob w h1 (path_join base_folder template_glob)) = []).
  { induction Hnone as [|d l Hd _ IH]; [reflexivity|].
    cbn [List.filter]. rewrite Hd. exact IH. }
  rewrite Hf. unfold raise, no_template_message. reflexivity.
Qed.

End drivers_effects.

(** On the sample tree, template1 comes first and raises, so that
    only the output folder has been made. *)
Lemma json_templates_to_csv_writes_into_output_folder_witness :
  ∃ evs r,
    json_templates_to_csv str_list_sample env_sample (py "in") (py "out") (py "template*")
                          (py "*.json") true []
    = (evs, r)
    ∧ Forall (into_folder (py "out")) evs
    ∧ evs = [Makedirs (py "out")].
Proof.
  destruct (json_templates_to_csv str_list_sample env_sample (py "in") (py "out")
              (py "template*") (py "*.json") true []) as [h' r] eqn:E.
  exists h', r. split; [reflexivity|]. split.
  - destruct (json_templates_to_csv_writes_into_output_folder str_list_sample env_sample
                _ _ _ _ _ _ _ _ E) as (evs & -> & H).
    exact H.
  - vm_compute in E. injection E as <- _. reflexivity.
Defined.

(** On the sample tree, a base folder without template folder. *)
Lemma json_templates_to_csv_no_template_witness :
  json_templates_to_csv str_list_sample env_sample (py "empty") (py "out") (py "template*")
                        (py "*.json") true []
  = ([Makedirs (py "out")],
     Raised (FileNotFoundError
               (py "No template folders matching 'template*' found under: empty"))).
Proof.
  apply (json_templates_to_csv_no_template str_list_sample env_sample
           (py "empty") (py "out") (py "template*") (py "*.json") true []).
  - discriminate.
  - reflexivity.
  - vm_compute. constructor.
Defined.
